(** * Real-time gateway of the chat backend: presence, fan-out and typing state

    A shallow embedding of the socket gateway ([handleConnection],
    [handleDisconnection], [handleJoinRoom], [handleLeaveRoom],
    [handleSendMessage], [handleSendPrivateMessage], [handleTypingStart],
    [handleTypingStop], [cleanupUserData], [cleanupTypingIndicators]) and of
    the parts of the persistence layer those handlers call
    ([MessageService.createMessage], [MessageService.getRoomMessages],
    [Message.findWithPagination], [RoomService.getRoomById], the [Room] and
    [User] document methods).

    Conventions of the embedding:
    - the three process-wide [Map]s ([onlineUsers], [typingUsers],
      [privateTyping]) are [gmap]s keyed by strings, the [Set]s are [gset]s;
      a JavaScript [Map]/[Set] iterates in insertion order, the model in the
      canonical order of [map_to_list]/[elements], which only permutes the
      events emitted by one loop;
    - [new Date()] / [Date.now()] is the argument [now] (milliseconds), a
      fresh [ObjectId] is the argument [newId];
    - a handler runs to completion: the interleavings at [await] points are
      not modelled;
    - what a handler emits is returned as a list of [Emit]s, oldest first;
      who receives an [Emit] is decided by [recipients] from the socket.io
      room table: [socket.emit] reaches the socket, [socket.to(room).emit]
      the sockets of the room but the emitting one, [io.to(room).emit] all
      sockets of the room, [io.emit] every connected socket;
    - [populate] replaces the ids of a reference field by the user
      documents they name; [toString()] of an id is the id, of a document
      its rendering, so a populated reference never equals a user id;
    - socket.io puts a socket in the room named by its own id when it
      connects, and has taken it out of every room by the time its
      [disconnect] listener runs; it never closes a socket because another
      one of the same user connects. *)

From Stdlib Require Import ZArith String Ascii List Lia.
From stdpp Require Import gmap strings list fin_maps sorting pretty.

Open Scope string_scope.
Open Scope Z_scope.

(** ** JavaScript values used by the handlers *)

Module Js.

(** [!!x] for a field that is either absent or a string. *)
Definition truthy (x : option string) : bool :=
  match x with
  | Some s => negb (String.eqb s "")
  | None => false
  end.

(** White space removed by [String.prototype.trim], restricted to the
    one-byte code points (TAB, LF, VT, FF, CR, SPACE). *)
Definition is_space (c : ascii) : bool :=
  let n := nat_of_ascii c in
  ((9 <=? n)%nat && (n <=? 13)%nat) || (n =? 32)%nat.

Fixpoint trim_start (s : string) : string :=
  match s with
  | EmptyString => EmptyString
  | String c r => if is_space c then trim_start r else s
  end.

Definition trim (s : string) : string :=
  String.rev (trim_start (String.rev (trim_start s))).

(** [[a, b].sort()]: the default comparator orders strings by code unit. *)
Definition sort2 (a b : string) : list string :=
  if String.ltb b a then [b; a] else [a; b].

End Js.

(** ** Constants ([utils/constants.js]) *)

Definition DEFAULT_PAGE_SIZE : Z := 20.
Definition MAX_PAGE_SIZE : Z := 100.
Definition MESSAGE_MAX_LENGTH : nat := 5000.

Definition MESSAGE_TYPES : list string := ["text"; "image"; "file"; "system"].
Definition TEXT : string := "text".
Definition ROOM_PRIVATE : string := "private".

Definition ROOM_JOINED : string := "room_joined".
Definition ROOM_LEFT : string := "room_left".
Definition MESSAGE_RECEIVED : string := "message_received".
Definition MESSAGE_SENT : string := "message_sent".
Definition PRIVATE_MESSAGE_RECEIVED : string := "private_message_received".
Definition PRIVATE_MESSAGE_SENT : string := "private_message_sent".
Definition USER_JOINED : string := "user_joined".
Definition USER_LEFT : string := "user_left".
Definition USER_ONLINE : string := "user_online".
Definition USER_OFFLINE : string := "user_offline".
Definition ONLINE_USERS : string := "online_users".
Definition TYPING_START : string := "typing_start".
Definition TYPING_STOP : string := "typing_stop".
Definition ERROR : string := "error".

Definition USER_NOT_FOUND : string := "User not found".
Definition ROOM_NOT_FOUND : string := "Room not found".
Definition ROOM_ACCESS_DENIED : string := "You do not have access to this room".
Definition VALIDATION_ERROR : string := "Validation error".

(** ** Documents of the persistence layer *)

(** The populated projection [{_id, username, avatar}] of a user. *)
Record UserInfo := mkUserInfo {
  ui_id : string;
  ui_username : string;
  ui_avatar : string
}.

Record UserDoc := mkUserDoc {
  username : string;
  avatar : string;
  blockedUsers : list string;
  isOnline : bool;
  lastSeen : Z
}.

Record RoomDoc := mkRoomDoc {
  room_name : string;
  room_type : string;
  creator : string;
  members : list string;
  admins : list string;
  room_isActive : bool;
  muteAll : bool;
  messageCount : Z;
  totalMessages : Z;
  room_lastActivity : Z
}.

Record MessageDoc := mkMessageDoc {
  msg_id : string;
  msg_sender : string;
  msg_room : option string;
  msg_recipient : option string;
  msg_content : string;
  msg_type : string;
  msg_isPrivate : bool;
  msg_isDeleted : bool;
  msg_replyTo : option string;
  msg_createdAt : Z
}.

(** The store: users and rooms by [_id] (the key is the document's [_id]),
    the message collection in insertion order. *)
Record Db := mkDb {
  users : gmap string UserDoc;
  rooms : gmap string RoomDoc;
  messages : list MessageDoc
}.

Definition set_users (f : gmap string UserDoc → gmap string UserDoc) (d : Db) : Db :=
  mkDb (f (users d)) (rooms d) (messages d).
Definition set_rooms (f : gmap string RoomDoc → gmap string RoomDoc) (d : Db) : Db :=
  mkDb (users d) (f (rooms d)) (messages d).
Definition set_messages (f : list MessageDoc → list MessageDoc) (d : Db) : Db :=
  mkDb (users d) (rooms d) (f (messages d)).

Definition str_mem (x : string) (l : list string) : bool :=
  existsb (String.eqb x) l.

Module Room.

(** [roomSchema.methods.isMember] *)
Definition isMember (r : RoomDoc) (userId : string) : bool :=
  str_mem userId (members r).

(** [roomSchema.methods.isAdmin] *)
Definition isAdmin (r : RoomDoc) (userId : string) : bool :=
  str_mem userId (admins r) || String.eqb (creator r) userId.

(** [roomSchema.methods.incrementMessageCount] *)
Definition incrementMessageCount (now : Z) (r : RoomDoc) : RoomDoc :=
  mkRoomDoc (room_name r) (room_type r) (creator r) (members r)
    (admins r) (room_isActive r) (muteAll r)
    (messageCount r + 1) (totalMessages r + 1) now.

(** [Room.find({ members: userId, isActive: true })] *)
Definition findActiveOf (userId : string) (d : Db) : list (string * RoomDoc) :=
  List.filter (λ r, isMember (snd r) userId && room_isActive (snd r))
              (map_to_list (rooms d)).

End Room.

Module User.

(** What [populate(path, 'username avatar')] keeps of the user [userId]. *)
Definition info (userId : string) (u : UserDoc) : UserInfo :=
  mkUserInfo userId (username u) (avatar u).

(** [userSchema.methods.hasBlocked] *)
Definition hasBlocked (u : UserDoc) (userId : string) : bool :=
  str_mem userId (blockedUsers u).

(** [User.findByIdAndUpdate(id, { isOnline, lastSeen })] *)
Definition setPresence (userId : string) (online : bool) (now : Z) (d : Db) : Db :=
  set_users (alter (λ u, mkUserDoc (username u) (avatar u) (blockedUsers u) online now) userId) d.

(** [User.findByIdAndUpdate(id, { lastSeen })] *)
Definition touch (userId : string) (now : Z) (d : Db) : Db :=
  set_users (alter (λ u, mkUserDoc (username u) (avatar u) (blockedUsers u) (isOnline u) now) userId) d.

End User.

(** ** The service monad: a store threaded through calls that may throw

    [AppError]s are the only exceptions of the modelled paths, so the
    [catch (error) { if (error instanceof AppError) throw error; ... }]
    wrapper of every service method is the identity. *)

Record AppError := mkAppError {
  err_message : string;
  err_status : Z
}.

Definition Svc (A : Type) : Type := Db → Db * (AppError + A).

Definition svc_ret {A} (a : A) : Svc A := λ d, (d, inr a).
Definition svc_throw {A} (msg : string) (status : Z) : Svc A :=
  λ d, (d, inl (mkAppError msg status)).
Definition svc_bind {A B} (m : Svc A) (k : A → Svc B) : Svc B :=
  λ d, match m d with
       | (d', inl e) => (d', inl e)
       | (d', inr a) => k a d'
       end.
Definition svc_read {A} (f : Db → A) : Svc A := λ d, (d, inr (f d)).
Definition svc_write (f : Db → Db) : Svc unit := λ d, (f d, inr tt).

(** [if (c) throw new AppError(msg, status)] *)
Definition throw_if (c : bool) (msg : string) (status : Z) : Svc unit :=
  if c then svc_throw msg status else svc_ret tt.

(** [const x = await find(...); if (!x) throw new AppError(msg, status)] *)
Definition find_or_throw {A} (f : Db → option A) (msg : string) (status : Z) : Svc A :=
  λ d, match f d with
       | Some a => (d, inr a)
       | None => (d, inl (mkAppError msg status))
       end.

#[global] Instance svc_mret : MRet Svc := @svc_ret.
#[global] Instance svc_mbind : MBind Svc := λ A B k m, svc_bind m k.

Definition findMessage (id : string) (d : Db) : option MessageDoc :=
  List.find (λ m, String.eqb (msg_id m) id) (messages d).

(** ** [MessageService] *)

Module MessageService.

(** [validateMessageInput]: the three checks; every field of the
    embedding is a string, so the [typeof] tests always pass. *)
Definition validateMessageInput (content : string) (type : string)
    (replyTo : option string) : Svc unit :=
  let bad_content :=
    String.eqb content "" || (String.length (Js.trim content) =? 0)%nat
    || (MESSAGE_MAX_LENGTH <? String.length content)%nat in
  let bad_type := negb (str_mem type MESSAGE_TYPES) in
  throw_if (bad_content || bad_type) VALIDATION_ERROR 422.

Record CreateArgs := mkCreateArgs {
  ca_sender : string;
  ca_room : option string;
  ca_recipient : option string;
  ca_content : string;
  ca_type : string;
  ca_isPrivate : bool;
  ca_replyTo : option string
}.

(** What [message.populate] adds for [replyTo]. *)
Record ReplyInfo := mkReplyInfo {
  ri_id : string;
  ri_content : string;
  ri_sender : string
}.

(** The [{ success, data }] returned by [createMessage]: the saved
    document with [sender] and [replyTo] populated. *)
Record Created := mkCreated {
  cr_success : bool;
  cr_doc : MessageDoc;
  cr_sender : UserInfo;
  cr_replyTo : option ReplyInfo
}.

Definition opt_eqb (a : option string) (b : string) : bool :=
  match a with Some x => String.eqb x b | None => false end.

(** The room branch of [createMessage] ([!isPrivate]). *)
Definition checkRoom (a : CreateArgs) (now : Z) : Svc unit :=
  throw_if (negb (Js.truthy (ca_room a))) "Room ID is required for room messages" 400;;
  let room := default "" (ca_room a) in
  roomDoc ← find_or_throw (λ d, rooms d !! room) ROOM_NOT_FOUND 404;
  throw_if (negb (room_isActive roomDoc)) "Cannot send messages to inactive room" 400;;
  throw_if (negb (Room.isMember roomDoc (ca_sender a))) ROOM_ACCESS_DENIED 403;;
  throw_if (muteAll roomDoc && negb (Room.isAdmin roomDoc (ca_sender a)))
           "Room is currently muted" 403;;
  svc_write (set_rooms (<[room := Room.incrementMessageCount now roomDoc]>)).

(** The private branch of [createMessage]. *)
Definition checkRecipient (a : CreateArgs) (senderUser : UserDoc) : Svc unit :=
  throw_if (negb (Js.truthy (ca_recipient a)))
           "Recipient ID is required for private messages" 400;;
  let recipient := default "" (ca_recipient a) in
  throw_if (String.eqb (ca_sender a) recipient)
           "Cannot send private message to yourself" 400;;
  recipientUser ← find_or_throw (λ d, users d !! recipient) "Recipient not found" 404;
  throw_if (User.hasBlocked recipientUser (ca_sender a))
           "Cannot send message to this user" 403;;
  throw_if (User.hasBlocked senderUser recipient)
           "Cannot send message to blocked user" 403.

(** The [if (replyTo) { ... }] block of [createMessage]. *)
Definition checkReply (a : CreateArgs) : Svc (option ReplyInfo) :=
  if Js.truthy (ca_replyTo a) then
    let replyTo := default "" (ca_replyTo a) in
    parent ← find_or_throw (findMessage replyTo) "Parent message not found" 404;
    throw_if (msg_isDeleted parent) "Cannot reply to deleted message" 400;;
    throw_if (negb (ca_isPrivate a)
              && negb (opt_eqb (msg_room parent) (default "" (ca_room a))))
             "Can only reply to messages in the same room" 400;;
    let recipient := default "" (ca_recipient a) in
    let isValidPrivateReply :=
      (String.eqb (msg_sender parent) (ca_sender a)
       && opt_eqb (msg_recipient parent) recipient)
      || (opt_eqb (msg_recipient parent) (ca_sender a)
          && String.eqb (msg_sender parent) recipient) in
    throw_if (ca_isPrivate a && negb isValidPrivateReply)
             "Can only reply to messages in the same conversation" 400;;
    mret (Some (mkReplyInfo (msg_id parent) (msg_content parent) (msg_sender parent)))
  else mret None.

(** [createMessage]: validate, authorise, bump the room counters, check
    the reply target, save, populate. *)
Definition createMessage (a : CreateArgs) (newId : string) (now : Z) : Svc Created :=
  validateMessageInput (ca_content a) (ca_type a) (ca_replyTo a);;
  senderUser ← find_or_throw (λ d, users d !! ca_sender a) USER_NOT_FOUND 404;
  (if negb (ca_isPrivate a) then checkRoom a now else checkRecipient a senderUser);;
  reply ← checkReply a;
  let doc :=
    mkMessageDoc newId (ca_sender a)
      (if ca_isPrivate a then None else ca_room a)
      (if ca_isPrivate a then ca_recipient a else None)
      (Js.trim (ca_content a)) (ca_type a) (ca_isPrivate a) false
      (if Js.truthy (ca_replyTo a) then ca_replyTo a else None) now in
  svc_write (set_messages (λ ms, (ms ++ [doc])%list));;
  mret (mkCreated true doc (User.info (ca_sender a) senderUser) reply).

Record Pagination := mkPagination {
  currentPage : Z;
  totalPages : Z;
  totalMessages_ : Z;
  hasNext : bool;
  hasPrev : bool;
  pg_limit : Z
}.

Record Page := mkPage {
  pg_success : bool;
  pg_messages : list MessageDoc;
  pagination : Pagination
}.

(** [Math.ceil(total / limit)] for [limit > 0]. *)
Definition ceil_div (total limit : Z) : Z := (total + limit - 1) / limit.

Definition older_first (m1 m2 : MessageDoc) : Prop := msg_createdAt m1 ≤ msg_createdAt m2.
Definition newer_first (m1 m2 : MessageDoc) : Prop := msg_createdAt m2 ≤ msg_createdAt m1.

#[global] Instance older_first_dec m1 m2 : Decision (older_first m1 m2).
Proof. unfold older_first. apply _. Defined.
#[global] Instance newer_first_dec m1 m2 : Decision (newer_first m1 m2).
Proof. unfold newer_first. apply _. Defined.

(** [.sort({ createdAt: 1 })] / [.sort({ createdAt: -1 })]. The store
    fixes the order of documents with equal [createdAt] neither within
    a query nor from one query to the next; the stable merge sort gives
    them in insertion order, which is one of the orders the store may
    give. [Query.sorted] below is all the store guarantees. *)
Definition sortByCreatedAt (descending : bool) (ms : list MessageDoc) : list MessageDoc :=
  if descending then merge_sort newer_first ms else merge_sort older_first ms.

(** [messageSchema.statics.findWithPagination]: the matching documents,
    sorted, [skip]ped and [limit]ed, with the page bookkeeping. *)
Definition findWithPagination (query : MessageDoc → bool) (page limit : Z)
    (descending : bool) (d : Db) : list MessageDoc * Pagination :=
  let skip := (page - 1) * limit in
  let found := List.filter query (messages d) in
  let msgs := take (Z.to_nat limit) (drop (Z.to_nat skip) (sortByCreatedAt descending found)) in
  let total := Z.of_nat (length found) in
  (msgs,
   mkPagination page (ceil_div total limit) total
                (page <? ceil_div total limit) (1 <? page) limit).

Record PageOpts := mkPageOpts {
  po_page : Z;
  po_limit : Z;
  po_before : option Z;
  po_after : option Z
}.

(** The defaults [{ page = 1, limit = DEFAULT_PAGE_SIZE, before = null,
    after = null }] of the options argument. *)
Definition defaults : PageOpts := mkPageOpts 1 DEFAULT_PAGE_SIZE None None.

(** The options [{ limit }]: the other fields take their defaults. *)
Definition withLimit (limit : Z) : PageOpts :=
  mkPageOpts (po_page defaults) limit (po_before defaults) (po_after defaults).

(** The Mongo query built by [getRoomMessages]; assigning
    [query.createdAt] twice keeps the [after] bound. *)
Definition roomQuery (roomId : string) (o : PageOpts) (m : MessageDoc) : bool :=
  opt_eqb (msg_room m) roomId && negb (msg_isDeleted m)
  && match po_after o, po_before o with
     | Some a, _ => a <? msg_createdAt m
     | None, Some b => msg_createdAt m <? b
     | None, None => true
     end.

(** [getRoomMessages] *)
Definition getRoomMessages (roomId userId : string) (o : PageOpts) : Svc Page :=
  room ← find_or_throw (λ d, rooms d !! roomId) ROOM_NOT_FOUND 404;
  throw_if (negb (Room.isMember room userId)) ROOM_ACCESS_DENIED 403;;
  let pageNum := Z.max 1 (po_page o) in
  let limitNum := Z.min MAX_PAGE_SIZE (Z.max 1 (po_limit o)) in
  let before := bool_decide (is_Some (po_before o)) in
  result ← svc_read (findWithPagination (roomQuery roomId o) pageNum limitNum before);
  let msgs := if before then rev (fst result) else fst result in
  mret (mkPage true msgs (snd result)).

End MessageService.

(** ** [RoomService] *)

Module RoomService.

(** A reference field of a document: the [ObjectId] it stores or, after
    [populate], the user document that id names. *)
Inductive Ref :=
| Id (id : string)
| Doc (id : string) (doc : UserDoc).

(** [ref.toString() === userId.toString()]: an [ObjectId] prints as its
    id, a populated document as the rendering of the document, which is
    no id. *)
Definition ref_is (userId : string) (r : Ref) : bool :=
  match r with
  | Id id => String.eqb id userId
  | Doc _ _ => false
  end.

(** The reference fields of a room after
    [.populate('creator').populate('members').populate('admins')]: an id
    without a user document is left out of an array and is [null] for
    the single reference. *)
Record Populated := mkPopulated {
  p_creator : option Ref;
  p_members : list Ref;
  p_admins : list Ref
}.

Definition populate_ids (d : Db) (ids : list string) : list Ref :=
  omap (λ id, Doc id <$> users d !! id) ids.

Definition populate (d : Db) (room : RoomDoc) : Populated :=
  mkPopulated (Doc (creator room) <$> users d !! creator room)
              (populate_ids d (members room)) (populate_ids d (admins room)).

(** [roomSchema.methods.isMember] on the populated document. *)
Definition isMember (p : Populated) (userId : string) : bool :=
  existsb (ref_is userId) (p_members p).

(** [roomSchema.methods.isAdmin] on the populated document: [None] is
    the [TypeError] of [this.creator.toString()] on a [null] creator,
    reached when no admin matches. *)
Definition isAdmin (p : Populated) (userId : string) : option bool :=
  if existsb (ref_is userId) (p_admins p) then Some true
  else ref_is userId <$> p_creator p.

(** [roomSchema.methods.isCreator] on the populated document. *)
Definition isCreator (p : Populated) (userId : string) : option bool :=
  ref_is userId <$> p_creator p.

Record UserPermissions := mkUserPermissions {
  up_isMember : bool;
  up_isAdmin : bool;
  up_isCreator : bool
}.

(** [{ success, room }]: of [room], the document, the length of its
    populated [members] and [userPermissions], which is only set for a
    truthy [userId]. *)
Record RoomResult := mkRoomResult {
  rr_success : bool;
  rr_room : RoomDoc;
  rr_memberCount : nat;
  rr_userPermissions : option UserPermissions
}.

(** [getRoomById(roomId, userId)]: the room is populated before the
    membership test of private rooms and before the permissions are
    computed; an error that is no [AppError] is rethrown as
    ['Failed to get room details'] (500). *)
Definition getRoomById (roomId userId : string) : Svc RoomResult :=
  room ← find_or_throw (λ d, rooms d !! roomId) ROOM_NOT_FOUND 404;
  populated ← svc_read (λ d, populate d room);
  throw_if (negb (room_isActive room)) "Room is not active" 404;;
  throw_if (String.eqb (room_type room) ROOM_PRIVATE && Js.truthy (Some userId)
            && negb (isMember populated userId)) ROOM_ACCESS_DENIED 403;;
  if Js.truthy (Some userId) then
    match isAdmin populated userId, isCreator populated userId with
    | Some admin, Some isCreator =>
        mret (mkRoomResult true room (length (p_members populated))
                (Some (mkUserPermissions (isMember populated userId) admin isCreator)))
    | _, _ => svc_throw "Failed to get room details" 500
    end
  else mret (mkRoomResult true room (length (p_members populated)) None).

End RoomService.

(** ** Transport: sockets, socket.io rooms and emitted events *)

(** An authenticated socket: [authenticateSocket] sets [userId] and [user]
    together before any handler runs. *)
Record Socket := mkSocket {
  sock_id : string;
  userId : string;
  user : UserInfo
}.

(** Where an emit is addressed:
    [socket.emit], [socket.to(room).emit], [io.to(room).emit], [io.emit]. *)
Inductive Target :=
| ToSocket (sid : string)
| RoomExcept (room sid : string)
| ToRoom (room : string)
| ToAll.

Record MessageData := mkMessageData {
  md_id : string;
  md_content : string;
  md_type : string;
  md_sender : UserInfo;
  md_roomId : option string;
  md_recipientId : option string;
  md_replyTo : option MessageService.ReplyInfo;
  md_timestamp : Z;
  md_isPrivate : bool
}.

Inductive Payload :=
| PError (message : string) (error : option string)
| PPresence (uid uname : string) (roomId : option string) (timestamp : Z)
| POnlineUsers (others : list UserInfo)
| PConnected (profile : UserInfo) (timestamp : Z)
| PRoomJoined (roomId : string) (room : RoomDoc) (memberCount : nat) (isAdmin : bool)
              (timestamp : Z)
| PRoomMessages (roomId : string) (msgs : list MessageDoc) (hasMore : bool)
| PRoomLeft (roomId : string) (timestamp : Z)
| PMessage (md : MessageData)
| PAck (tempId : option string) (md : MessageData)
| PTyping (uid uname : string) (roomId : option string) (isPrivate : bool).

Record Emit := mkEmit {
  target : Target;
  event : string;
  payload : Payload
}.

(** ** The gateway state *)

(** A value of [onlineUsers]. *)
Record UserData := mkUserData {
  socketId : string;
  ud_user : UserInfo;
  connectedAt : Z;
  ud_rooms : gset string;
  lastActivity : option Z
}.

(** A value of [privateTyping]. *)
Record TypingData := mkTypingData {
  td_userId : string;
  td_username : string;
  startTime : Z
}.

(** The process: the connected sockets of the namespace and the room table
    of the socket.io adapter, the three module-level maps, and the store. *)
Record World := mkWorld {
  sockets : gmap string Socket;
  adapter : gmap string (gset string);
  onlineUsers : gmap string UserData;
  typingUsers : gmap string (gset string);
  privateTyping : gmap string TypingData;
  db : Db
}.

Definition set_sockets (f : gmap string Socket → gmap string Socket) (w : World) : World :=
  mkWorld (f (sockets w)) (adapter w) (onlineUsers w) (typingUsers w) (privateTyping w) (db w).
Definition set_adapter (f : gmap string (gset string) → gmap string (gset string))
    (w : World) : World :=
  mkWorld (sockets w) (f (adapter w)) (onlineUsers w) (typingUsers w) (privateTyping w) (db w).
Definition set_onlineUsers (f : gmap string UserData → gmap string UserData)
    (w : World) : World :=
  mkWorld (sockets w) (adapter w) (f (onlineUsers w)) (typingUsers w) (privateTyping w) (db w).
Definition set_typingUsers (f : gmap string (gset string) → gmap string (gset string))
    (w : World) : World :=
  mkWorld (sockets w) (adapter w) (onlineUsers w) (f (typingUsers w)) (privateTyping w) (db w).
Definition set_privateTyping (f : gmap string TypingData → gmap string TypingData)
    (w : World) : World :=
  mkWorld (sockets w) (adapter w) (onlineUsers w) (typingUsers w) (f (privateTyping w)) (db w).
Definition set_db (d : Db) (w : World) : World :=
  mkWorld (sockets w) (adapter w) (onlineUsers w) (typingUsers w) (privateTyping w) d.

(** The sockets currently in a socket.io room. *)
Definition in_room (w : World) (room : string) : gset string :=
  default ∅ (adapter w !! room).

(** [socket.join(room)] and [socket.leave(room)]. *)
Definition socket_join (sid room : string) (w : World) : World :=
  set_adapter (λ a, <[room := {[sid]} ∪ default ∅ (a !! room)]> a) w.
Definition socket_leave (sid room : string) (w : World) : World :=
  set_adapter (alter (λ members, members ∖ {[sid]}) room) w.

(** The sockets an emit reaches. *)
Definition recipients (w : World) (t : Target) : gset string :=
  match t with
  | ToSocket sid => if decide (sid ∈ dom (sockets w)) then {[sid]} else ∅
  | RoomExcept room sid => in_room w room ∖ {[sid]}
  | ToRoom room => in_room w room
  | ToAll => dom (sockets w)
  end.

Definition delivered (w : World) (sid : string) (ev : string) (e : Emit) : bool :=
  String.eqb (event e) ev && bool_decide (sid ∈ recipients w (target e)).

(** How many events named [ev] of the output [out] socket [sid] receives. *)
Definition received (w : World) (sid : string) (ev : string) (out : list Emit) : nat :=
  length (List.filter (delivered w sid ev) out).

(** How many events named [ev] the output holds, whoever they go to. *)
Definition emitted (ev : string) (out : list Emit) : nat :=
  length (List.filter (λ e, String.eqb (event e) ev) out).

Definition emit (socket : Socket) (ev : string) (p : Payload) : Emit :=
  mkEmit (ToSocket (sock_id socket)) ev p.
Definition to_others (socket : Socket) (room : string) (ev : string) (p : Payload) : Emit :=
  mkEmit (RoomExcept room (sock_id socket)) ev p.
Definition io_to (room : string) (ev : string) (p : Payload) : Emit :=
  mkEmit (ToRoom room) ev p.
Definition io_emit (ev : string) (p : Payload) : Emit :=
  mkEmit ToAll ev p.

(** ** The gateway ([socket handlers]) *)

(** [cleanupUserData(userId, socketId)] *)
Definition cleanupUserData (uid sid : string) (w : World) : World :=
  let w1 :=
    match onlineUsers w !! uid with
    | Some userData =>
        if String.eqb (socketId userData) sid
        then set_onlineUsers (delete uid) w
        else w
    | None => w
    end in
  let w2 :=
    set_typingUsers
      (omap (λ typingSet : gset string,
               if decide (uid ∈ typingSet)
               then (if decide (size (typingSet ∖ {[uid]}) = 0%nat)
                     then None
                     else Some (typingSet ∖ {[uid]}))
               else Some typingSet)) w1 in
  set_privateTyping (filter (λ kv, td_userId (snd kv) ≠ uid)) w2.

(** [getConversationKey(userId1, userId2)] *)
Definition getConversationKey (userId1 userId2 : string) : string :=
  String.concat ":" (Js.sort2 userId1 userId2).

(** [broadcastUserStatus(io, user, isOnline)] *)
Definition broadcastUserStatus (u : UserInfo) (online : bool) (now : Z) : Emit :=
  io_emit (if online then USER_ONLINE else USER_OFFLINE)
          (PPresence (ui_id u) (ui_username u) None now).

(** [sendOnlineUsersList(socket)] *)
Definition sendOnlineUsersList (socket : Socket) (w : World) : Emit :=
  emit socket ONLINE_USERS
    (POnlineUsers
       (ud_user <$>
          List.filter (λ userData, negb (String.eqb (ui_id (ud_user userData)) (userId socket)))
                      (snd <$> map_to_list (onlineUsers w)))).

(** One turn of the [for (const room of userRooms)] loop of
    [handleConnection]. *)
Definition joinOwnRoom (socket : Socket) (now : Z) (acc : World * list Emit)
    (room : string * RoomDoc) : World * list Emit :=
  let rid := fst room in
  let w1 := socket_join (sock_id socket) rid (fst acc) in
  let w2 := set_onlineUsers
              (alter (λ d, mkUserData (socketId d) (ud_user d) (connectedAt d)
                                      ({[rid]} ∪ ud_rooms d) (lastActivity d))
                     (userId socket)) w1 in
  (w2, (snd acc ++ [to_others socket rid USER_ONLINE
                      (PPresence (userId socket) (ui_username (user socket)) (Some rid) now)])%list).

(** [handleConnection(socket, io)] *)
Definition handleConnection (socket : Socket) (now : Z) (w : World) : World * list Emit :=
  let w1 := set_onlineUsers
              (<[userId socket := mkUserData (sock_id socket) (user socket) now ∅ None]>) w in
  let w2 := set_db (User.setPresence (userId socket) true now (db w1)) w1 in
  let e1 := broadcastUserStatus (user socket) true now in
  let e2 := sendOnlineUsersList socket w2 in
  let userRooms := Room.findActiveOf (userId socket) (db w2) in
  let '(w3, out) := foldl (joinOwnRoom socket now) (w2, [e1; e2]) userRooms in
  (w3, (out ++ [emit socket "connected" (PConnected (user socket) now)])%list).

(** [handleDisconnection(socket, io)] *)
Definition handleDisconnection (socket : Socket) (now : Z) (w : World) : World * list Emit :=
  if Js.truthy (Some (userId socket)) then
    let w1 := cleanupUserData (userId socket) (sock_id socket) w in
    let w2 := set_db (User.setPresence (userId socket) false now (db w1)) w1 in
    let e1 := broadcastUserStatus (user socket) false now in
    match onlineUsers w2 !! userId socket with
    | Some userData =>
        (w2, e1 :: ((λ roomId, to_others socket roomId USER_OFFLINE
                                 (PPresence (userId socket) (ui_username (user socket))
                                            (Some roomId) now))
                    <$> elements (ud_rooms userData)))
    | None => (w2, [e1])
    end
  else (w, []).

(** The payload of [join_room] and [leave_room]. *)
Record RoomRequest := mkRoomRequest {
  rq_roomId : option string
}.

(** The payload of [send_message]; [metadata], which is stored and relayed
    unchanged, is left out of the embedding. *)
Record SendData := mkSendData {
  sd_roomId : option string;
  sd_content : option string;
  sd_type : option string;
  sd_replyTo : option string;
  sd_tempId : option string
}.

(** The payload of [send_private_message]. *)
Record PrivateData := mkPrivateData {
  pd_recipientId : option string;
  pd_content : option string;
  pd_type : option string;
  pd_replyTo : option string;
  pd_tempId : option string
}.

(** The payload of [typing_start] and [typing_stop]. *)
Record TypingRequest := mkTypingRequest {
  ty_roomId : option string;
  ty_isPrivate : bool;
  ty_recipientId : option string
}.

(** The [catch (error)] clause of a handler. *)
Definition failure (socket : Socket) (what : string) (e : AppError) : Emit :=
  emit socket ERROR (PError what (Some (err_message e))).

(** [handleJoinRoom(socket, data, io)] *)
Definition handleJoinRoom (socket : Socket) (data : RoomRequest) (now : Z)
    (w : World) : World * list Emit :=
  if negb (Js.truthy (rq_roomId data)) then
    (w, [emit socket ERROR (PError "Room ID is required" None)])
  else
    let roomId := default "" (rq_roomId data) in
    match RoomService.getRoomById roomId (userId socket) (db w) with
    | (d1, inl e) => (set_db d1 w, [failure socket "Failed to join room" e])
    | (d1, inr roomResult) =>
      if negb (RoomService.rr_success roomResult) then
        (set_db d1 w, [emit socket ERROR (PError "Room not found or access denied" None)])
      else
        let room := RoomService.rr_room roomResult in
        let w1 := socket_join (sock_id socket) roomId (set_db d1 w) in
        let w2 := set_onlineUsers
                    (alter (λ d, mkUserData (socketId d) (ud_user d) (connectedAt d)
                                            ({[roomId]} ∪ ud_rooms d) (lastActivity d))
                           (userId socket)) w1 in
        let out :=
          [to_others socket roomId USER_JOINED
             (PPresence (userId socket) (ui_username (user socket)) (Some roomId) now);
           emit socket ROOM_JOINED
             (PRoomJoined roomId room (RoomService.rr_memberCount roomResult)
                (from_option RoomService.up_isAdmin false
                   (RoomService.rr_userPermissions roomResult)) now)] in
        match MessageService.getRoomMessages roomId (userId socket)
                (MessageService.withLimit 50) (db w2) with
        | (d2, inl e) =>
            (set_db d2 w2, (out ++ [failure socket "Failed to join room" e])%list)
        | (d2, inr messagesResult) =>
            if MessageService.pg_success messagesResult then
              (set_db d2 w2,
               (out ++ [emit socket "room_messages"
                          (PRoomMessages roomId
                             (rev (MessageService.pg_messages messagesResult))
                             (MessageService.hasNext
                                (MessageService.pagination messagesResult)))])%list)
            else (set_db d2 w2, out)
        end
    end.

(** [handleLeaveRoom(socket, data)] *)
Definition handleLeaveRoom (socket : Socket) (data : RoomRequest) (now : Z)
    (w : World) : World * list Emit :=
  if negb (Js.truthy (rq_roomId data)) then
    (w, [emit socket ERROR (PError "Room ID is required" None)])
  else
    let roomId := default "" (rq_roomId data) in
    match rooms (db w) !! roomId with
    | None => (w, [emit socket ERROR (PError "Room not found" None)])
    | Some _ =>
      let w1 := socket_leave (sock_id socket) roomId w in
      let w2 := set_onlineUsers
                  (alter (λ d, mkUserData (socketId d) (ud_user d) (connectedAt d)
                                          (ud_rooms d ∖ {[roomId]}) (lastActivity d))
                         (userId socket)) w1 in
      let '(w3, typing) :=
        match typingUsers w2 !! roomId with
        | Some typingSet =>
            let typingSet' := typingSet ∖ {[userId socket]} in
            if decide (size typingSet' = 0%nat) then
              (set_typingUsers (delete roomId) w2, [])
            else
              (set_typingUsers (<[roomId := typingSet']>) w2,
               [to_others socket roomId TYPING_STOP
                  (PTyping (userId socket) (ui_username (user socket)) (Some roomId) false)])
        | None => (w2, [])
        end in
      (w3,
       (typing ++
        [to_others socket roomId USER_LEFT
           (PPresence (userId socket) (ui_username (user socket)) (Some roomId) now);
         emit socket ROOM_LEFT (PRoomLeft roomId now)])%list)
    end.

(** The [messageData] object built by both send handlers. *)
Definition messageData (c : MessageService.Created) (roomId recipientId : option string)
    (private : bool) : MessageData :=
  let m := MessageService.cr_doc c in
  mkMessageData (msg_id m) (msg_content m) (msg_type m) (MessageService.cr_sender c)
                roomId recipientId (MessageService.cr_replyTo c) (msg_createdAt m) private.

(** [handleSendMessage(socket, data, io)] *)
Definition handleSendMessage (socket : Socket) (data : SendData) (newId : string) (now : Z)
    (w : World) : World * list Emit :=
  if negb (Js.truthy (sd_roomId data)) || negb (Js.truthy (sd_content data))
     || negb (Js.truthy (Js.trim <$> sd_content data)) then
    (w, [emit socket ERROR (PError "Room ID and message content are required" None)])
  else
    let roomId := default "" (sd_roomId data) in
    let content := default "" (sd_content data) in
    match MessageService.createMessage
            (MessageService.mkCreateArgs (userId socket) (Some roomId) None
               (Js.trim content) (default TEXT (sd_type data)) false (sd_replyTo data))
            newId now (db w) with
    | (d1, inl e) => (set_db d1 w, [failure socket "Failed to send message" e])
    | (d1, inr result) =>
      if negb (MessageService.cr_success result) then
        (set_db d1 w, [emit socket ERROR (PError "Message sent successfully" None)])
      else
        let md := messageData result (Some roomId) None false in
        let out := [to_others socket roomId MESSAGE_RECEIVED (PMessage md);
                    emit socket MESSAGE_SENT (PAck (sd_tempId data) md)] in
        let w1 := set_db d1 w in
        match typingUsers w1 !! roomId with
        | Some typingSet =>
            if decide (userId socket ∈ typingSet) then
              (set_typingUsers (<[roomId := typingSet ∖ {[userId socket]}]>) w1,
               (out ++ [to_others socket roomId TYPING_STOP
                          (PTyping (userId socket) (ui_username (user socket))
                                   (Some roomId) false)])%list)
            else (w1, out)
        | None => (w1, out)
        end
    end.

(** [handleSendPrivateMessage(socket, data, io)] *)
Definition handleSendPrivateMessage (socket : Socket) (data : PrivateData) (newId : string)
    (now : Z) (w : World) : World * list Emit :=
  if negb (Js.truthy (pd_recipientId data)) || negb (Js.truthy (pd_content data))
     || negb (Js.truthy (Js.trim <$> pd_content data)) then
    (w, [emit socket ERROR (PError "Recipient ID and message content are required" None)])
  else
    let recipientId := default "" (pd_recipientId data) in
    let content := default "" (pd_content data) in
    if String.eqb recipientId (userId socket) then
      (w, [emit socket ERROR (PError "Cannot send message to yourself" None)])
    else
      match MessageService.createMessage
              (MessageService.mkCreateArgs (userId socket) None (Some recipientId)
                 (Js.trim content) (default TEXT (pd_type data)) true (pd_replyTo data))
              newId now (db w) with
      | (d1, inl e) => (set_db d1 w, [failure socket "Failed to send private message" e])
      | (d1, inr result) =>
        if negb (MessageService.cr_success result) then
          (set_db d1 w, [emit socket ERROR (PError "Message sent successfully" None)])
        else
          let md := messageData result None (Some recipientId) true in
          let w1 := set_db d1 w in
          let recipientData := onlineUsers w1 !! recipientId in
          let live :=
            match recipientData with
            | Some rd => [io_to (socketId rd) PRIVATE_MESSAGE_RECEIVED (PMessage md)]
            | None => []
            end in
          let ack := emit socket PRIVATE_MESSAGE_SENT (PAck (pd_tempId data) md) in
          let conversationKey := getConversationKey (userId socket) recipientId in
          match privateTyping w1 !! conversationKey with
          | Some _ =>
              (set_privateTyping (delete conversationKey) w1,
               (live ++ [ack] ++
                match recipientData with
                | Some rd => [io_to (socketId rd) TYPING_STOP
                                (PTyping (userId socket) (ui_username (user socket)) None true)]
                | None => []
                end)%list)
          | None => (w1, (live ++ [ack])%list)
          end
      end.

(** [handleTypingStart(socket, data, io)] *)
Definition handleTypingStart (socket : Socket) (data : TypingRequest) (now : Z)
    (w : World) : World * list Emit :=
  if ty_isPrivate data && Js.truthy (ty_recipientId data) then
    let recipientId := default "" (ty_recipientId data) in
    let conversationKey := getConversationKey (userId socket) recipientId in
    let w1 := set_privateTyping
                (<[conversationKey :=
                     mkTypingData (userId socket) (ui_username (user socket)) now]>) w in
    match onlineUsers w1 !! recipientId with
    | Some rd => (w1, [io_to (socketId rd) TYPING_START
                         (PTyping (userId socket) (ui_username (user socket)) None true)])
    | None => (w1, [])
    end
  else if Js.truthy (ty_roomId data) then
    let roomId := default "" (ty_roomId data) in
    let w1 := set_typingUsers
                (λ t, <[roomId := {[userId socket]} ∪ default ∅ (t !! roomId)]> t) w in
    (w1, [to_others socket roomId TYPING_START
            (PTyping (userId socket) (ui_username (user socket)) (Some roomId) false)])
  else (w, []).

(** [handleTypingStop(socket, data, io)] *)
Definition handleTypingStop (socket : Socket) (data : TypingRequest)
    (w : World) : World * list Emit :=
  if ty_isPrivate data && Js.truthy (ty_recipientId data) then
    let recipientId := default "" (ty_recipientId data) in
    let conversationKey := getConversationKey (userId socket) recipientId in
    let w1 := set_privateTyping (delete conversationKey) w in
    match onlineUsers w1 !! recipientId with
    | Some rd => (w1, [io_to (socketId rd) TYPING_STOP
                         (PTyping (userId socket) (ui_username (user socket)) None true)])
    | None => (w1, [])
    end
  else if Js.truthy (ty_roomId data) then
    let roomId := default "" (ty_roomId data) in
    match typingUsers w !! roomId with
    | Some typingSet =>
        let typingSet' := typingSet ∖ {[userId socket]} in
        let w1 :=
          if decide (size typingSet' = 0%nat)
          then set_typingUsers (delete roomId) w
          else set_typingUsers (<[roomId := typingSet']>) w in
        (w1, [to_others socket roomId TYPING_STOP
                (PTyping (userId socket) (ui_username (user socket)) (Some roomId) false)])
    | None => (w, [])
    end
  else (w, []).

(** The [activity_update] listener. *)
Definition handleActivityUpdate (socket : Socket) (now : Z) (w : World) : World * list Emit :=
  let w1 := set_db (User.touch (userId socket) now (db w)) w in
  (set_onlineUsers
     (alter (λ d, mkUserData (socketId d) (ud_user d) (connectedAt d) (ud_rooms d) (Some now))
            (userId socket)) w1,
   []).

Definition TYPING_TIMEOUT : Z := 10000.

(** The period of [setInterval(cleanupTypingIndicators, 30000)]. *)
Definition SWEEP_INTERVAL : Z := 30000.

(** [cleanupTypingIndicators()]: it is given neither [io] nor a socket and
    returns nothing. *)
Definition cleanupTypingIndicators (now : Z) (w : World) : World :=
  let w1 := set_typingUsers (filter (λ kv, size (snd kv) ≠ 0%nat)) w in
  set_privateTyping (filter (λ kv, ¬ (now - startTime (snd kv) > TYPING_TIMEOUT))) w1.

(** ** The event loop *)

(** What reaches the process: transport events, the inbound socket events
    of a connected socket, the timer, and writes to the store made by the
    HTTP side. *)
Inductive Input :=
| Connect (socket : Socket)
| Disconnect (sid : string)
| JoinRoom (sid : string) (data : RoomRequest)
| LeaveRoom (sid : string) (data : RoomRequest)
| SendMessage (sid : string) (data : SendData) (newId : string)
| SendPrivateMessage (sid : string) (data : PrivateData) (newId : string)
| TypingStart (sid : string) (data : TypingRequest)
| TypingStop (sid : string) (data : TypingRequest)
| ActivityUpdate (sid : string)
| Sweep
| Persist (d : Db).

(** socket.io on a new connection: the socket enters the namespace and the
    room named by its own id. *)
Definition transport_open (socket : Socket) (w : World) : World :=
  socket_join (sock_id socket) (sock_id socket)
              (set_sockets (<[sock_id socket := socket]>) w).

(** socket.io on close: the socket has left every room and the namespace
    by the time the [disconnect] listener runs. *)
Definition transport_close (sid : string) (w : World) : World :=
  set_adapter (fmap (λ members : gset string, members ∖ {[sid]}))
              (set_sockets (delete sid) w).

(** Listeners only run for a connected socket. *)
Definition on (sid : string) (w : World) (h : Socket → World → World * list Emit)
    : World * list Emit :=
  match sockets w !! sid with
  | Some socket => h socket w
  | None => (w, [])
  end.

(** [initializeSocket]: the listener registered for each input. *)
Definition step (now : Z) (i : Input) (w : World) : World * list Emit :=
  match i with
  | Connect socket =>
      match sockets w !! sock_id socket with
      | Some _ => (w, [])
      | None => handleConnection socket now (transport_open socket w)
      end
  | Disconnect sid =>
      on sid w (λ socket _, handleDisconnection socket now (transport_close sid w))
  | JoinRoom sid data => on sid w (λ socket, handleJoinRoom socket data now)
  | LeaveRoom sid data => on sid w (λ socket, handleLeaveRoom socket data now)
  | SendMessage sid data newId => on sid w (λ socket, handleSendMessage socket data newId now)
  | SendPrivateMessage sid data newId =>
      on sid w (λ socket, handleSendPrivateMessage socket data newId now)
  | TypingStart sid data => on sid w (λ socket, handleTypingStart socket data now)
  | TypingStop sid data => on sid w (λ socket, handleTypingStop socket data)
  | ActivityUpdate sid => on sid w (λ socket, handleActivityUpdate socket now)
  | Sweep => (cleanupTypingIndicators now w, [])
  | Persist d => (set_db d w, [])
  end.

(** A run: timestamped inputs handled one after the other; the outputs are
    concatenated. *)
Fixpoint run (trace : list (Z * Input)) (w : World) : World * list Emit :=
  match trace with
  | [] => (w, [])
  | (now, i) :: rest =>
      let '(w1, out1) := step now i w in
      let '(w2, out2) := run rest w1 in
      (w2, (out1 ++ out2)%list)
  end.

(** The process at start-up, over a given store. *)
Definition init (d : Db) : World := mkWorld ∅ ∅ ∅ ∅ ∅ d.

(** How many entries of the registry belong to user [uid]. *)
Definition entriesOf (uid : string) (w : World) : nat :=
  length (filter (λ kv : string * UserData, fst kv = uid) (map_to_list (onlineUsers w))).

(** Whether [uid] has a typing session in the scope a typing request names. *)
Definition hasSession (uid : string) (data : TypingRequest) (w : World) : bool :=
  if ty_isPrivate data && Js.truthy (ty_recipientId data) then
    match privateTyping w !! getConversationKey uid (default "" (ty_recipientId data)) with
    | Some td => String.eqb (td_userId td) uid
    | None => false
    end
  else if Js.truthy (ty_roomId data) then
    bool_decide (uid ∈ default ∅ (typingUsers w !! default "" (ty_roomId data)))
  else false.

(** ** Sample data used by the examples *)

Module Sample.

Definition alice : UserInfo := mkUserInfo "u1" "alice" "a.png".
Definition bob : UserInfo := mkUserInfo "u2" "bob" "b.png".
Definition carol : UserInfo := mkUserInfo "u3" "carol" "c.png".

Definition doc (u : UserInfo) : UserDoc :=
  mkUserDoc (ui_username u) (ui_avatar u) [] false 0.

Definition people : gmap string UserDoc :=
  <["u1" := doc alice]> (<["u2" := doc bob]> (<["u3" := doc carol]> ∅)).

(** A public room created by alice with members alice, bob and carol. *)
Definition lobby : RoomDoc :=
  mkRoomDoc "lobby" "public" "u1" ["u1"; "u2"; "u3"] ["u1"] true false 0 0 0.

(** A public room of which only bob is a member. *)
Definition club : RoomDoc :=
  mkRoomDoc "club" "public" "u2" ["u2"] ["u2"] true false 0 0 0.

Definition store : Db :=
  mkDb people (<["r1" := lobby]> (<["r2" := club]> ∅)) [].

Definition sA : Socket := mkSocket "sA" "u1" alice.
Definition sA' : Socket := mkSocket "sA2" "u1" alice.
Definition sB : Socket := mkSocket "sB" "u2" bob.
Definition sC : Socket := mkSocket "sC" "u3" carol.

(** alice, bob and carol are connected (and so joined to the lobby). *)
Definition three : World :=
  fst (run [(1, Connect sA); (2, Connect sB); (3, Connect sC)] (init store)).

(** Only alice and bob are connected. *)
Definition two : World :=
  fst (run [(1, Connect sA); (2, Connect sB)] (init store)).

Definition hello : SendData :=
  mkSendData (Some "r1") (Some " hi ") None None (Some "tmp-7").

Definition whisper (to : string) : PrivateData :=
  mkPrivateData (Some to) (Some "psst") None None (Some "tmp-8").

(** alice and bob are connected; alice started typing to bob at 1000. *)
Definition aliceTyping : World :=
  fst (run [(1000, TypingStart "sA" (mkTypingRequest None true (Some "u2")))] two).

(** The [k]-th message of the lobby, posted by alice at time [k]. *)
Definition post (k : nat) : MessageDoc :=
  mkMessageDoc ("m" ++ pretty k) "u1" (Some "r1") None "hi" "text" false false None
               (Z.of_nat k).

(** The store once the lobby holds 51 undeleted messages. *)
Definition busyStore : Db :=
  mkDb people (<["r1" := lobby]> (<["r2" := club]> ∅)) (post <$> seq 1 51).

(** alice is connected over the busy store. *)
Definition busy : World := fst (run [(100, Connect sA)] (init busyStore)).

(** A reply to a message that does not exist. *)
Definition orphanReply : SendData :=
  mkSendData (Some "r1") (Some "re: hi") None (Some "missing") (Some "tmp-9").

End Sample.

(** ** Auxiliary definitions used by the statements *)

(** What [send_private_message] sends to the recipient's side. *)
Definition liveCopy (w : World) (recipientId : string) (md : MessageData) : list Emit :=
  match onlineUsers w !! recipientId with
  | Some rd => [io_to (socketId rd) PRIVATE_MESSAGE_RECEIVED (PMessage md)]
  | None => []
  end.

(** The first tick of a timer of period [SWEEP_INTERVAL], started at [s0],
    that comes later than [t0 + TYPING_TIMEOUT]. *)
Definition expiryTick (s0 t0 : Z) : Z :=
  (t0 + TYPING_TIMEOUT - s0) / SWEEP_INTERVAL + 1.

(** The history snapshots ([room_messages] payloads) among emitted events. *)
Definition snapshots (out : list Emit) : list (list MessageDoc) :=
  omap (λ e, match payload e with
             | PRoomMessages _ msgs _ => Some msgs
             | _ => None
             end) out.

(** ** Well-formed states

    Socket ids and room ids are different kinds of identifiers (socket.io
    session ids and Mongo [ObjectId]s); [isSocketId] tells them apart. *)

(** No room of the store is named like a socket. *)
Definition tidy (isSocketId : string → Prop) (d : Db) : Prop :=
  ∀ r, is_Some (rooms d !! r) → ¬ isSocketId r.

(** Inputs the transport and the HTTP side can produce: a new socket has a
    socket id and an authenticated user, a write to the store keeps room
    names apart from socket ids. *)
Definition admissible (isSocketId : string → Prop) (i : Input) : Prop :=
  match i with
  | Connect socket => isSocketId (sock_id socket) ∧ userId socket ≠ ""
  | Persist d => tidy isSocketId d
  | _ => True
  end.

(** The invariant of the process: the namespace is keyed by socket id;
    every registry entry names a connected socket of that user; the room
    named by a socket id holds that socket while it is connected and
    nothing otherwise; the store is tidy. *)
Record wf (isSocketId : string → Prop) (w : World) : Prop := mkWf {
  wf_sockets : ∀ sid s, sockets w !! sid = Some s →
                        sock_id s = sid ∧ isSocketId sid ∧ userId s ≠ "";
  wf_registry : ∀ u d, onlineUsers w !! u = Some d →
                       ∃ s, sockets w !! socketId d = Some s ∧ userId s = u;
  wf_own_room : ∀ sid, isSocketId sid →
                       in_room w sid = if decide (sid ∈ dom (sockets w)) then {[sid]} else ∅;
  wf_db : tidy isSocketId (db w)
}.

(** A service call relates the store before and after it by [R], whether
    it returns or throws. *)
Definition keeps (R : Db → Db → Prop) {A} (m : Svc A) : Prop :=
  ∀ d, R d (fst (m d)).

(** The rooms of the store after a call were rooms before it. *)
Definition roomsKept (d d' : Db) : Prop :=
  ∀ r, is_Some (rooms d' !! r) → is_Some (rooms d !! r).

(** ** Queries exported by the socket module *)

(** [getOnlineUsersCount()] *)
Definition getOnlineUsersCount (w : World) : nat := size (onlineUsers w).

(** [isUserOnline(userId)] *)
Definition isUserOnline (uid : string) (w : World) : bool :=
  bool_decide (is_Some (onlineUsers w !! uid)).

(** [getTypingUsers(roomId)] *)
Definition getTypingUsers (roomId : string) (w : World) : list string :=
  match typingUsers w !! roomId with
  | Some typingSet => elements typingSet
  | None => []
  end.

(** [sendNotificationToUser(io, userId, notification)]: the notification
    is dropped when the user has no registry entry. *)
Definition sendNotificationToUser (uid : string) (notification : Payload) (w : World)
    : list Emit :=
  match onlineUsers w !! uid with
  | Some userData => [io_to (socketId userData) "notification" notification]
  | None => []
  end.


(** ** Document methods and services behind the HTTP routes *)

Module Message.

Definition EDIT_WINDOW : Z := 15 * 60 * 1000.

(** [messageSchema.methods.canUserEdit], at the time [now] of the call. *)
Definition canUserEdit (m : MessageDoc) (userId : string) (now : Z) : bool :=
  if negb (String.eqb (msg_sender m) userId) then false
  else if msg_isDeleted m then false
  else if String.eqb (msg_type m) "system" then false
  else if msg_createdAt m <? now - EDIT_WINDOW then false
  else true.

(** [messageSchema.methods.canUserDelete] *)
Definition canUserDelete (m : MessageDoc) (userId : string) (isAdmin : bool) : bool :=
  if msg_isDeleted m then false
  else if String.eqb (msg_sender m) userId then true
  else if isAdmin then true
  else false.

End Message.

Module RoomMethods.

Definition set_admins (f : list string → list string) (r : RoomDoc) : RoomDoc :=
  mkRoomDoc (room_name r) (room_type r) (creator r) (members r)
    (f (admins r)) (room_isActive r) (muteAll r)
    (messageCount r) (totalMessages r) (room_lastActivity r).

Definition set_members (f : list string → list string) (r : RoomDoc) : RoomDoc :=
  mkRoomDoc (room_name r) (room_type r) (creator r) (f (members r))
    (admins r) (room_isActive r) (muteAll r)
    (messageCount r) (totalMessages r) (room_lastActivity r).

(** [ids.filter(id => id.toString() !== userId.toString())] *)
Definition without (userId : string) (ids : list string) : list string :=
  List.filter (λ id, negb (String.eqb id userId)) ids.

(** [roomSchema.methods.isCreator] *)
Definition isCreator (r : RoomDoc) (userId : string) : bool :=
  String.eqb (creator r) userId.

(** [roomSchema.methods.removeMember] *)
Definition removeMember (r : RoomDoc) (userId : string) : RoomDoc :=
  set_admins (without userId) (set_members (without userId) r).

(** [roomSchema.methods.addAdmin]; the [Error] it throws is the left
    summand. *)
Definition addAdmin (r : RoomDoc) (userId : string) : string + RoomDoc :=
  if negb (Room.isMember r userId) then inl "User must be a member to become an admin"
  else inr (if negb (Room.isAdmin r userId)
            then set_admins (λ ids, (ids ++ [userId])%list) r
            else r).

(** [roomSchema.methods.removeAdmin] *)
Definition removeAdmin (r : RoomDoc) (userId : string) : string + RoomDoc :=
  if isCreator r userId then inl "Cannot remove creator from admins"
  else inr (set_admins (without userId) r).

End RoomMethods.

Module AuthService.

Definition set_blockedUsers (f : list string → list string) (u : UserDoc) : UserDoc :=
  mkUserDoc (username u) (avatar u) (f (blockedUsers u)) (isOnline u) (lastSeen u).

(** [userSchema.methods.blockUser] *)
Definition blockUser (u : UserDoc) (userId : string) : UserDoc :=
  if negb (User.hasBlocked u userId)
  then set_blockedUsers (λ ids, (ids ++ [userId])%list) u
  else u.

(** [userSchema.methods.unblockUser] *)
Definition unblockUser (u : UserDoc) (userId : string) : UserDoc :=
  set_blockedUsers (List.filter (λ id, negb (String.eqb id userId))) u.

Record BlockResult := mkBlockResult {
  br_success : bool;
  br_message : string;
  br_blocked : bool
}.

(** [toggleUserBlock]: [save] writes the document back under the user's
    id. *)
Definition toggleUserBlock (userId targetUserId : string) (block : bool) : Svc BlockResult :=
  throw_if (String.eqb userId targetUserId) "You cannot block yourself" 400;;
  user ← svc_read (λ d, users d !! userId);
  targetUser ← svc_read (λ d, users d !! targetUserId);
  match user, targetUser with
  | Some user, Some _ =>
      svc_write (set_users (<[userId := if block then blockUser user targetUserId
                                         else unblockUser user targetUserId]>));;
      mret (mkBlockResult true
              (if block then "User blocked successfully" else "User unblocked successfully")
              block)
  | _, _ => svc_throw USER_NOT_FOUND 404
  end.

End AuthService.

Module Conversation.

Import MessageService.

(** The [$and] query built by [getPrivateMessages]: both bounds are
    pushed, so both apply. *)
Definition privateQuery (userId1 userId2 : string) (o : PageOpts) (m : MessageDoc) : bool :=
  msg_isPrivate m && negb (msg_isDeleted m)
  && ((String.eqb (msg_sender m) userId1 && opt_eqb (msg_recipient m) userId2)
      || (String.eqb (msg_sender m) userId2 && opt_eqb (msg_recipient m) userId1))
  && match po_before o with Some b => msg_createdAt m <? b | None => true end
  && match po_after o with Some a => a <? msg_createdAt m | None => true end.

(** [getPrivateMessages] *)
Definition getPrivateMessages (userId1 userId2 : string) (o : PageOpts) : Svc Page :=
  user1 ← svc_read (λ d, users d !! userId1);
  user2 ← svc_read (λ d, users d !! userId2);
  match user1, user2 with
  | Some user1, Some user2 =>
      if User.hasBlocked user1 userId2 || User.hasBlocked user2 userId1 then
        mret (mkPage true [] (mkPagination 1 0 0 false false (po_limit o)))
      else
        let pageNum := Z.max 1 (po_page o) in
        let limitNum := Z.min MAX_PAGE_SIZE (Z.max 1 (po_limit o)) in
        let before := bool_decide (is_Some (po_before o)) in
        result ← svc_read (findWithPagination (privateQuery userId1 userId2 o)
                                              pageNum limitNum before);
        let msgs := if before && (0 <? length (fst result))%nat
                    then rev (fst result) else fst result in
        mret (mkPage true msgs (snd result))
  | _, _ => svc_throw USER_NOT_FOUND 404
  end.

End Conversation.

(** ** What the store guarantees of a sorted query *)

Module Query.

Import MessageService.

Definition keyOrder (descending : bool) : relation MessageDoc :=
  if descending then newer_first else older_first.

(** [result] is an answer to [find(query).sort({ createdAt })] when the
    documents matching are [found]: the same documents, in key order;
    the order among equal keys is the store's choice. *)
Definition sorted (descending : bool) (found result : list MessageDoc) : Prop :=
  result ≡ₚ found ∧ Sorted (keyOrder descending) result.

(** [msgs] is an answer to
    [find(query).sort({ createdAt }).skip((page - 1) * limit).limit(limit)]:
    a slice of some answer to the sorted query. *)
Definition page (query : MessageDoc → bool) (pageNum limit : Z) (descending : bool)
    (d : Db) (msgs : list MessageDoc) : Prop :=
  ∃ result,
    sorted descending (List.filter query (messages d)) result
    ∧ msgs = take (Z.to_nat limit) (drop (Z.to_nat ((pageNum - 1) * limit)) result).

End Query.

(** ** Counting by user *)

(** The ids of the connected sockets that authenticated as [uid]. *)
Definition socketsOf (uid : string) (w : World) : list string :=
  fst <$> List.filter (λ p : string * Socket, String.eqb (userId (snd p)) uid)
                      (map_to_list (sockets w)).

(** How many events named [ev] of the output the user [uid] receives,
    over all of their connected sockets. *)
Definition receivedByUser (w : World) (uid ev : string) (out : list Emit) : nat :=
  sum_list ((λ sid, received w sid ev out) <$> socketsOf uid w).
(** * Properties *)

(** ** The service monad *)

Lemma svc_bind_inr {A B} (m : Svc A) (k : A → Svc B) d d' b :
  (m ≫= k) d = (d', inr b) →
  ∃ d1 a, m d = (d1, inr a) ∧ k a d1 = (d', inr b).
Proof.
  unfold mbind, svc_mbind, svc_bind.
  destruct (m d) as [d1 [e | a]]; [discriminate | eauto].
Qed.

Lemma find_or_throw_inr {A} (f : Db → option A) msg status d d' a :
  find_or_throw f msg status d = (d', inr a) → f d = Some a ∧ d' = d.
Proof.
  unfold find_or_throw. destruct (f d); intros [= <- <-] || discriminate 1; auto.
Qed.

(** *** What the services do to the store *)

Section SvcFrame.

(** A reflexive and transitive relation between the store before and
    after a call. *)
Variable R : Db → Db → Prop.
Hypothesis R_refl : ∀ d, R d d.
Hypothesis R_trans : ∀ d1 d2 d3, R d1 d2 → R d2 d3 → R d1 d3.

Lemma keeps_ret {A} (a : A) : keeps R (mret a).
Proof. intros d. apply R_refl. Qed.

Lemma keeps_throw_if c msg status : keeps R (throw_if c msg status).
Proof. intros d. destruct c; apply R_refl. Qed.

Lemma keeps_find_or_throw {A} (f : Db → option A) msg status :
  keeps R (find_or_throw f msg status).
Proof. intros d. unfold find_or_throw. destruct (f d); apply R_refl. Qed.

Lemma keeps_read {A} (f : Db → A) : keeps R (svc_read f).
Proof. intros d. apply R_refl. Qed.

Lemma keeps_bind {A B} (m : Svc A) (k : A → Svc B) :
  keeps R m → (∀ a, keeps R (k a)) → keeps R (m ≫= k).
Proof.
  intros Hm Hk d. unfold mbind, svc_mbind, svc_bind.
  specialize (Hm d). destruct (m d) as [d1 [e | a]]; [exact Hm |].
  eapply R_trans; [exact Hm | apply Hk].
Qed.

End SvcFrame.

Lemma roomsKept_refl d : roomsKept d d.
Proof. intros r Hr. exact Hr. Qed.

Lemma roomsKept_trans d1 d2 d3 : roomsKept d1 d2 → roomsKept d2 d3 → roomsKept d1 d3.
Proof. intros H12 H23 r Hr. apply H12, H23, Hr. Qed.

(** Chains the frame lemmas along the binds of a service method. *)
Ltac keeps_steps Hrefl Htrans :=
  repeat first
    [ apply (keeps_bind _ Htrans); [| intros ?]
    | apply (keeps_throw_if _ Hrefl)
    | apply (keeps_find_or_throw _ Hrefl)
    | apply (keeps_read _ Hrefl)
    | apply (keeps_ret _ Hrefl) ].

Lemma checkRoom_rooms a now : keeps roomsKept (MessageService.checkRoom a now).
Proof.
  intros d. unfold MessageService.checkRoom, mbind, svc_mbind, svc_bind, find_or_throw.
  destruct (Js.truthy (MessageService.ca_room a)); cbn; [| apply roomsKept_refl].
  destruct (rooms d !! default "" (MessageService.ca_room a)) as [roomDoc |] eqn:Hroom;
    cbn; [| apply roomsKept_refl].
  destruct (room_isActive roomDoc); cbn; [| apply roomsKept_refl].
  destruct (Room.isMember roomDoc (MessageService.ca_sender a)); cbn; [| apply roomsKept_refl].
  destruct (muteAll roomDoc && negb (Room.isAdmin roomDoc (MessageService.ca_sender a)));
    cbn; [apply roomsKept_refl |].
  intros r. cbn. rewrite lookup_insert. case_decide; [subst r; rewrite Hroom |]; auto.
Qed.

Lemma createMessage_rooms a newId now :
  keeps roomsKept (MessageService.createMessage a newId now).
Proof.
  unfold MessageService.createMessage, MessageService.validateMessageInput.
  apply (keeps_bind _ roomsKept_trans);
    [apply (keeps_throw_if _ roomsKept_refl) | intros _].
  apply (keeps_bind _ roomsKept_trans);
    [apply (keeps_find_or_throw _ roomsKept_refl) | intros senderUser].
  apply (keeps_bind _ roomsKept_trans); [| intros _].
  { destruct (negb (MessageService.ca_isPrivate a)); [apply checkRoom_rooms |].
    unfold MessageService.checkRecipient. keeps_steps roomsKept_refl roomsKept_trans. }
  apply (keeps_bind _ roomsKept_trans); [| intros reply].
  { unfold MessageService.checkReply. destruct (Js.truthy _);
      keeps_steps roomsKept_refl roomsKept_trans. }
  apply (keeps_bind _ roomsKept_trans); [| intros _].
  { intros d r Hr. exact Hr. }
  apply (keeps_ret _ roomsKept_refl).
Qed.

Lemma getRoomById_reads roomId uid : keeps eq (RoomService.getRoomById roomId uid).
Proof.
  unfold RoomService.getRoomById.
  apply (keeps_bind _ (@eq_trans Db));
    [apply (keeps_find_or_throw _ (@eq_refl Db)) | intros room].
  apply (keeps_bind _ (@eq_trans Db)); [apply (keeps_read _ (@eq_refl Db)) | intros populated].
  apply (keeps_bind _ (@eq_trans Db)); [apply (keeps_throw_if _ (@eq_refl Db)) | intros _].
  apply (keeps_bind _ (@eq_trans Db)); [apply (keeps_throw_if _ (@eq_refl Db)) | intros _].
  destruct (Js.truthy (Some uid));
    [destruct (RoomService.isAdmin populated uid) as [admin |],
              (RoomService.isCreator populated uid) as [isCreator |] |];
    try apply (keeps_ret _ (@eq_refl Db)); intros d; reflexivity.
Qed.

Lemma getRoomMessages_reads roomId uid o :
  keeps eq (MessageService.getRoomMessages roomId uid o).
Proof.
  unfold MessageService.getRoomMessages.
  keeps_steps (@eq_refl Db) (@eq_trans Db).
Qed.

(** A successful [createMessage] has appended the returned document to the
    collection. *)
Lemma createMessage_stored a newId now d d' result :
  MessageService.createMessage a newId now d = (d', inr result) →
  MessageService.cr_success result = true
  ∧ last (messages d') = Some (MessageService.cr_doc result)
  ∧ msg_id (MessageService.cr_doc result) = newId
  ∧ msg_createdAt (MessageService.cr_doc result) = now.
Proof.
  unfold MessageService.createMessage. intros H.
  apply svc_bind_inr in H as (d1 & [] & _ & H).
  apply svc_bind_inr in H as (d2 & senderUser & _ & H).
  apply svc_bind_inr in H as (d3 & [] & Hcheck & H).
  apply svc_bind_inr in H as (d4 & reply & Hreply & H).
  apply svc_bind_inr in H as (d5 & [] & Hwrite & H).
  injection H as <- <-. injection Hwrite as <-. cbn.
  split; [reflexivity |]. split; [apply last_snoc |]. split; reflexivity.
Qed.

(** ** Counting deliveries *)

Lemma received_cons w t ev e out :
  received w t ev (e :: out)
  = ((if delivered w t ev e then 1 else 0) + received w t ev out)%nat.
Proof. unfold received. cbn. destruct (delivered w t ev e); reflexivity. Qed.

Lemma received_app w t ev out1 out2 :
  received w t ev (out1 ++ out2) = (received w t ev out1 + received w t ev out2)%nat.
Proof. unfold received. rewrite List.filter_app, length_app. reflexivity. Qed.

Lemma received_nil w t ev : received w t ev [] = 0%nat.
Proof. reflexivity. Qed.

Lemma delivered_other_event w t ev tg ev' p :
  String.eqb ev' ev = false → delivered w t ev (mkEmit tg ev' p) = false.
Proof. unfold delivered. cbn. intros ->. reflexivity. Qed.

Lemma delivered_same_event w t ev tg p :
  delivered w t ev (mkEmit tg ev p) = bool_decide (t ∈ recipients w tg).
Proof. unfold delivered. cbn. rewrite String.eqb_refl. reflexivity. Qed.


(** Closes the branch of a handler that emitted an [error] although the run
    is known to have emitted none. *)

Lemma emitted_cons ev e out :
  emitted ev (e :: out)
  = ((if String.eqb (event e) ev then 1 else 0) + emitted ev out)%nat.
Proof. unfold emitted. cbn. destruct (String.eqb (event e) ev); reflexivity. Qed.

Lemma emitted_app ev out1 out2 :
  emitted ev (out1 ++ out2) = (emitted ev out1 + emitted ev out2)%nat.
Proof. unfold emitted. rewrite List.filter_app, length_app. reflexivity. Qed.

(** The shape of a successful [send_private_message]: the live copy if the
    recipient is registered, the acknowledgment, and possibly the implicit
    typing-stop. *)

Lemma received_none w t ev out :
  (∀ e, e ∈ out → String.eqb (event e) ev = false) → received w t ev out = 0%nat.
Proof.
  induction out as [| e out IH]; intros Hall; [reflexivity |].
  rewrite received_cons. unfold delivered.
  rewrite (Hall e) by set_solver. cbn. apply IH. intros e' He'. apply Hall. set_solver.
Qed.

Lemma emitted_none ev out :
  (∀ e, e ∈ out → String.eqb (event e) ev = false) → emitted ev out = 0%nat.
Proof.
  induction out as [| e out IH]; intros Hall; [reflexivity |].
  rewrite emitted_cons, (Hall e) by set_solver. cbn. apply IH.
  intros e' He'. apply Hall. set_solver.
Qed.

(** Who receives what of a successful private message, in any state. *)

(** ** Room messages *)

Ltac error_run Hrun Hok :=
  apply pair_equal_spec in Hrun as [<- <-]; discriminate Hok.

(** The shape of a successful [send_message]: the broadcast, the
    acknowledgment and possibly the implicit typing-stop; the transport is
    left as it was. *)
Lemma handleSendMessage_ok socket data newId now w w' out :
  handleSendMessage socket data newId now w = (w', out) →
  emitted ERROR out = 0%nat →
  ∃ roomId md,
    sd_roomId data = Some roomId ∧
    sockets w' = sockets w ∧ adapter w' = adapter w ∧
    ∃ stop,
      out = ([to_others socket roomId MESSAGE_RECEIVED (PMessage md);
              emit socket MESSAGE_SENT (PAck (sd_tempId data) md)] ++ stop)%list ∧
      (stop = [] ∨
       stop = [to_others socket roomId TYPING_STOP
                 (PTyping (userId socket) (ui_username (user socket)) (Some roomId) false)]).
Proof.
  intros Hrun Hok. unfold handleSendMessage in Hrun.
  destruct (sd_roomId data) as [roomId |] eqn:Hroom; cycle 1.
  { cbn in Hrun. error_run Hrun Hok. }
  match type of Hrun with (if ?c then _ else _) = _ => destruct c end.
  { error_run Hrun Hok. }
  cbn [default from_option id] in Hrun.
  match type of Hrun with
    match ?c with _ => _ end = _ => destruct c as [d1 [e | result]]
  end.
  { error_run Hrun Hok. }
  destruct (MessageService.cr_success result).
  2:{ error_run Hrun Hok. }
  cbn [negb] in Hrun.
  exists roomId, (messageData result (Some roomId) None false).
  destruct (typingUsers (set_db d1 w) !! roomId) as [typingSet |].
  - destruct (decide (userId socket ∈ typingSet));
      apply pair_equal_spec in Hrun as [<- <-]; repeat split; eauto.
  - apply pair_equal_spec in Hrun as [<- <-]; repeat split; eauto.
Qed.

Lemma in_room_transport w w' room :
  adapter w' = adapter w → in_room w' room = in_room w room.
Proof. unfold in_room. intros ->. reflexivity. Qed.

(** C1, as stated, fails: the claim counts by user, the code addresses
    sockets. alice and bob each have two sockets open, all four in the
    lobby; alice sends from her first socket. Her user receives one
    [message_received], on her second socket, where the claim says none;
    bob's user receives two, one per socket, where the claim says one. *)
Lemma fanout_counts_sockets_not_users :
  let w := fst (run [(1, Connect Sample.sA); (2, Connect Sample.sB);
                     (3, Connect Sample.sA'); (4, Connect (mkSocket "sB2" "u2" Sample.bob))]
                    (init Sample.store)) in
  let w' := fst (handleSendMessage Sample.sA Sample.hello "m1" 10 w) in
  let out := snd (handleSendMessage Sample.sA Sample.hello "m1" 10 w) in
  sockets w !! "sA" = Some Sample.sA
  ∧ in_room w "r1" = {["sA"; "sA2"; "sB"; "sB2"]}
  ∧ emitted ERROR out = 0%nat
  ∧ receivedByUser w' "u1" MESSAGE_RECEIVED out = 1%nat
  ∧ receivedByUser w' "u2" MESSAGE_RECEIVED out = 2%nat.
Proof. vm_compute. repeat split; reflexivity. Qed.

(** C1, amended. A successful room message (the run emits no [error])
    sent from a connected socket to room [roomId]: every socket in the
    room other than the sender's receives exactly one [message_received],
    sockets outside the room none; the sender's socket receives no
    [message_received] and exactly one [message_sent], and every
    [message_sent] of the run is addressed to the sender and carries the
    client's [tempId] unchanged. Members and sender are connections:
    socket.io addresses sockets. *)
Theorem send_message_fanout socket data newId now w w' out :
  sockets w !! sock_id socket = Some socket →
  handleSendMessage socket data newId now w = (w', out) →
  emitted ERROR out = 0%nat →
  ∃ roomId,
    sd_roomId data = Some roomId ∧
    (∀ t, t ∈ in_room w roomId → t ≠ sock_id socket →
          received w' t MESSAGE_RECEIVED out = 1%nat) ∧
    (∀ t, t ∉ in_room w roomId → received w' t MESSAGE_RECEIVED out = 0%nat) ∧
    received w' (sock_id socket) MESSAGE_RECEIVED out = 0%nat ∧
    received w' (sock_id socket) MESSAGE_SENT out = 1%nat ∧
    (∀ e, e ∈ out → event e = MESSAGE_SENT →
          target e = ToSocket (sock_id socket) ∧ ∃ md, payload e = PAck (sd_tempId data) md).
Proof.
  intros Hconn Hrun Hok.
  destruct (handleSendMessage_ok _ _ _ _ _ _ _ Hrun Hok)
    as (roomId & md & Hroom & Hsock & Hadp & stop & -> & Hstop).
  exists roomId. split; [exact Hroom |].
  assert (Hrecv : ∀ t, received w' t MESSAGE_RECEIVED
            ([to_others socket roomId MESSAGE_RECEIVED (PMessage md);
              emit socket MESSAGE_SENT (PAck (sd_tempId data) md)] ++ stop)
            = if bool_decide (t ∈ in_room w roomId ∖ {[sock_id socket]}) then 1%nat else 0%nat).
  { intros t. rewrite received_app, !received_cons, received_nil.
    unfold to_others, emit. rewrite delivered_same_event.
    rewrite delivered_other_event by reflexivity.
    cbn [recipients]. rewrite (in_room_transport w w') by exact Hadp.
    assert (received w' t MESSAGE_RECEIVED stop = 0%nat) as ->.
    { destruct Hstop as [-> | ->]; [reflexivity |].
      rewrite received_cons, received_nil. unfold to_others.
      rewrite delivered_other_event by reflexivity. reflexivity. }
    destruct (bool_decide _); reflexivity. }
  split; [| split; [| split; [| split]]].
  - intros t Hin Hne. rewrite Hrecv, bool_decide_eq_true_2; [reflexivity |].
    apply elem_of_difference. split; [exact Hin | by apply not_elem_of_singleton].
  - intros t Hout. rewrite Hrecv, bool_decide_eq_false_2; [reflexivity |].
    intros [Hin _]%elem_of_difference. exact (Hout Hin).
  - rewrite Hrecv, bool_decide_eq_false_2; [reflexivity |].
    intros [_ Hne]%elem_of_difference. apply Hne. by apply elem_of_singleton.
  - rewrite received_app, !received_cons, received_nil.
    unfold to_others, emit. rewrite delivered_same_event.
    rewrite delivered_other_event by reflexivity.
    cbn [recipients]. rewrite Hsock.
    rewrite decide_True by (apply elem_of_dom; eauto).
    rewrite bool_decide_eq_true_2 by set_solver.
    destruct Hstop as [-> | ->]; [reflexivity |].
    rewrite received_cons, received_nil. unfold to_others.
    rewrite delivered_other_event by reflexivity. reflexivity.
  - intros e He Hev.
    assert (e = emit socket MESSAGE_SENT (PAck (sd_tempId data) md)) as ->.
    { destruct Hstop as [-> | ->]; cbn in He;
        repeat (apply elem_of_cons in He as [-> | He]; [try discriminate Hev |]);
        try reflexivity; set_solver. }
    split; [reflexivity | eauto].
Qed.

(** A successful [send_message] has stored the message it broadcasts. *)
Lemma handleSendMessage_persists socket data newId now w w' out :
  handleSendMessage socket data newId now w = (w', out) →
  emitted ERROR out = 0%nat →
  ∃ doc, last (messages (db w')) = Some doc
         ∧ msg_id doc = newId ∧ msg_sender doc = userId socket ∧ msg_room doc = sd_roomId data.
Proof.
  intros Hrun Hok. unfold handleSendMessage in Hrun.
  destruct (sd_roomId data) as [roomId |] eqn:Hroom; cycle 1.
  { cbn in Hrun. error_run Hrun Hok. }
  match type of Hrun with (if ?c then _ else _) = _ => destruct c end.
  { error_run Hrun Hok. }
  cbn [default from_option id] in Hrun.
  match type of Hrun with
    match ?c with _ => _ end = _ => destruct c as [d1 [e | result]] eqn:Hcreate
  end.
  { error_run Hrun Hok. }
  destruct (createMessage_stored _ _ _ _ _ _ Hcreate) as (_ & Hlast & Hid & _).
  assert (Hdoc : msg_sender (MessageService.cr_doc result) = userId socket
                 ∧ msg_room (MessageService.cr_doc result) = Some roomId).
  { unfold MessageService.createMessage in Hcreate.
    apply svc_bind_inr in Hcreate as (? & [] & _ & Hcreate).
    apply svc_bind_inr in Hcreate as (? & senderUser & _ & Hcreate).
    apply svc_bind_inr in Hcreate as (? & [] & _ & Hcreate).
    apply svc_bind_inr in Hcreate as (? & reply & _ & Hcreate).
    apply svc_bind_inr in Hcreate as (? & [] & _ & Hcreate).
    injection Hcreate as <- <-. split; reflexivity. }
  destruct Hdoc as [Hsender Hdocroom].
  exists (MessageService.cr_doc result).
  destruct (MessageService.cr_success result); [| error_run Hrun Hok].
  cbn [negb] in Hrun.
  assert (db w' = d1) as ->.
  { destruct (typingUsers (set_db d1 w) !! roomId) as [typingSet |];
      [destruct (decide (userId socket ∈ typingSet)) |];
      apply pair_equal_spec in Hrun as [<- _]; reflexivity. }
  auto.
Qed.

(** alice says hello in the lobby while bob and carol are connected. *)
Lemma send_message_fanout_witness :
  let run := handleSendMessage Sample.sA Sample.hello "m1" 10 Sample.three in
  ∃ roomId,
    sd_roomId Sample.hello = Some roomId ∧
    (∀ t, t ∈ in_room Sample.three roomId → t ≠ "sA" →
          received (fst run) t MESSAGE_RECEIVED (snd run) = 1%nat) ∧
    (∀ t, t ∉ in_room Sample.three roomId →
          received (fst run) t MESSAGE_RECEIVED (snd run) = 0%nat) ∧
    received (fst run) "sA" MESSAGE_RECEIVED (snd run) = 0%nat ∧
    received (fst run) "sA" MESSAGE_SENT (snd run) = 1%nat ∧
    (∀ e, e ∈ snd run → event e = MESSAGE_SENT →
          target e = ToSocket "sA" ∧ ∃ md, payload e = PAck (Some "tmp-7") md).
Proof.
  apply (send_message_fanout Sample.sA Sample.hello "m1" 10 Sample.three);
    [vm_compute; reflexivity | apply surjective_pairing | vm_compute; reflexivity].
Defined.

(** The sender is excluded as a socket: when alice has a second socket in
    the lobby, it receives what she sends from the first. *)
Example second_socket_of_sender_receives :
  let w := fst (run [(4, Connect Sample.sA')] Sample.two) in
  let out := snd (handleSendMessage Sample.sA Sample.hello "m1" 10 w) in
  received w "sA" MESSAGE_RECEIVED out = 0%nat
  ∧ received w "sA2" MESSAGE_RECEIVED out = 1%nat
  ∧ received w "sB" MESSAGE_RECEIVED out = 1%nat.
Proof. vm_compute. repeat split; reflexivity. Qed.

(** ** The connection registry *)

(** A [Map] holds one value per key: the entries of a user are counted by
    a lookup. *)
Lemma count_by_lookup {A} (m : gmap string A) (k : string) :
  length (filter (λ kv : string * A, fst kv = k) (map_to_list m))
  = match m !! k with Some _ => 1%nat | None => 0%nat end.
Proof.
  induction m as [| i x m Hfresh IH] using map_ind.
  - rewrite map_to_list_empty, lookup_empty. reflexivity.
  - rewrite (Permutation_length
               (filter_Permutation _ _ _ (map_to_list_insert m i x Hfresh))).
    rewrite filter_cons. cbn [fst].
    destruct (decide (i = k)) as [-> | Hne].
    + rewrite lookup_insert_eq. cbn [length]. rewrite IH, Hfresh. reflexivity.
    + rewrite lookup_insert_ne by exact Hne. exact IH.
Qed.

Lemma entriesOf_lookup uid w :
  entriesOf uid w = match onlineUsers w !! uid with Some _ => 1%nat | None => 0%nat end.
Proof. apply count_by_lookup. Qed.

(** The loop of [handleConnection] only touches the room set of the
    connecting user's entry. *)
Lemma joinOwnRoom_registry socket now userRooms acc :
  let acc' := foldl (joinOwnRoom socket now) acc userRooms in
  (∀ other, other ≠ userId socket →
            onlineUsers (fst acc') !! other = onlineUsers (fst acc) !! other) ∧
  (∀ d, onlineUsers (fst acc) !! userId socket = Some d →
        ∃ d', onlineUsers (fst acc') !! userId socket = Some d'
              ∧ socketId d' = socketId d ∧ ud_rooms d ⊆ ud_rooms d').
Proof.
  revert acc. induction userRooms as [| room userRooms IH]; intros acc; cbn.
  - split; [reflexivity | eauto].
  - destruct (IH (joinOwnRoom socket now acc room)) as [IHo IHs]. split.
    + intros other Hne. rewrite IHo by exact Hne. cbn.
      apply lookup_alter_ne. congruence.
    + intros d Hd.
      destruct (IHs (mkUserData (socketId d) (ud_user d) (connectedAt d)
                                ({[fst room]} ∪ ud_rooms d) (lastActivity d)))
        as (d' & Hd' & Hsid & Hsub).
      { cbn. rewrite lookup_alter_eq, Hd. reflexivity. }
      exists d'. split; [exact Hd' |]. split; [exact Hsid |].
      cbn in Hsub. etrans; [| exact Hsub]. apply union_subseteq_r.
Qed.

(** C3. Whatever inputs the process has handled, the registry holds at most
    one entry per user; registering a connection leaves at most one entry
    for every user, makes the entry of the connecting user name the new
    socket (whatever socket it named before), and leaves the entries of all
    other users as they were. *)
Theorem registry_single_connection trace d0 socket now :
  let w := fst (run trace (init d0)) in
  let w' := fst (handleConnection socket now w) in
  (∀ uid, (entriesOf uid w ≤ 1)%nat) ∧
  (∀ uid, (entriesOf uid w' ≤ 1)%nat) ∧
  entriesOf (userId socket) w' = 1%nat ∧
  (∃ d, onlineUsers w' !! userId socket = Some d ∧ socketId d = sock_id socket) ∧
  (∀ other, other ≠ userId socket → onlineUsers w' !! other = onlineUsers w !! other).
Proof.
  intros w w'.
  assert (Hnew : ∃ d, onlineUsers w' !! userId socket = Some d
                      ∧ socketId d = sock_id socket).
  { subst w'. unfold handleConnection.
    match goal with
    | |- context [foldl ?f ?acc ?l] =>
        pose proof (joinOwnRoom_registry socket now l acc) as [_ Hs];
        destruct (foldl f acc l) as [w3 out] eqn:Hfold
    end.
    cbn in Hs. rewrite lookup_insert_eq in Hs.
    destruct (Hs _ eq_refl) as (d' & Hd' & Hsid & _). eauto. }
  split; [| split; [| split; [| split]]].
  - intros uid. rewrite entriesOf_lookup. destruct (onlineUsers w !! uid); lia.
  - intros uid. rewrite entriesOf_lookup. destruct (onlineUsers w' !! uid); lia.
  - rewrite entriesOf_lookup. destruct Hnew as (d & -> & _). reflexivity.
  - exact Hnew.
  - intros other Hne. subst w'. unfold handleConnection.
    match goal with
    | |- context [foldl ?f ?acc ?l] =>
        pose proof (joinOwnRoom_registry socket now l acc) as [Ho _];
        destruct (foldl f acc l) as [w3 out] eqn:Hfold
    end.
    cbn in Ho. cbn. rewrite Ho by exact Hne.
    apply lookup_insert_ne. congruence.
Qed.

(** alice connects a second time: her entry now names the second socket,
    and it is still her only entry. *)
Example second_connection_supersedes :
  let w := fst (run [(4, Connect Sample.sA')] Sample.two) in
  (socketId <$> onlineUsers Sample.two !! "u1") = Some "sA"
  ∧ (socketId <$> onlineUsers w !! "u1") = Some "sA2"
  ∧ entriesOf "u1" w = 1%nat.
Proof. vm_compute. repeat split; reflexivity. Qed.

(** ** Cleanup on disconnect *)

Lemma cleanupUserData_registry uid sid w :
  onlineUsers (cleanupUserData uid sid w)
  = match onlineUsers w !! uid with
    | Some d => if String.eqb (socketId d) sid
                then delete uid (onlineUsers w) else onlineUsers w
    | None => onlineUsers w
    end.
Proof.
  unfold cleanupUserData. cbn.
  destruct (onlineUsers w !! uid) as [d |]; [| reflexivity].
  destruct (String.eqb (socketId d) sid); reflexivity.
Qed.

Lemma cleanupUserData_typing uid sid w room typingSet :
  typingUsers (cleanupUserData uid sid w) !! room = Some typingSet → uid ∉ typingSet.
Proof.
  unfold cleanupUserData. cbn.
  replace (typingUsers
             match onlineUsers w !! uid with
             | Some userData =>
                 if String.eqb (socketId userData) sid
                 then set_onlineUsers (delete uid) w else w
             | None => w
             end) with (typingUsers w)
    by (destruct (onlineUsers w !! uid) as [d |]; [destruct (String.eqb _ _) |]; reflexivity).
  rewrite lookup_omap. destruct (typingUsers w !! room) as [S0 |]; cbn; [| discriminate].
  destruct (decide (uid ∈ S0)).
  - destruct (decide _); [discriminate |]. intros [= <-].
    intros [_ Hn]%elem_of_difference. apply Hn. by apply elem_of_singleton.
  - intros [= <-]. assumption.
Qed.

Lemma cleanupUserData_private uid sid w key td :
  privateTyping (cleanupUserData uid sid w) !! key = Some td → td_userId td ≠ uid.
Proof.
  unfold cleanupUserData. cbn.
  intros [_ Hne]%map_lookup_filter_Some. exact Hne.
Qed.

(** C10. On disconnect of [socket], the registry entry of its user is
    removed exactly when it records this socket's id: a disconnect of a
    superseded socket leaves the whole registry, and so the newer entry
    and its room set, as it was. In every case no room typing set contains
    the user afterwards and no private typing session of the user
    remains. *)
Theorem stale_disconnect_keeps_registry socket now w :
  userId socket ≠ "" →
  let w' := fst (handleDisconnection socket now w) in
  (∀ d, onlineUsers w !! userId socket = Some d → socketId d ≠ sock_id socket →
        onlineUsers w' = onlineUsers w) ∧
  (∀ d, onlineUsers w !! userId socket = Some d → socketId d = sock_id socket →
        onlineUsers w' = delete (userId socket) (onlineUsers w)) ∧
  (onlineUsers w !! userId socket = None → onlineUsers w' = onlineUsers w) ∧
  (∀ room typingSet, typingUsers w' !! room = Some typingSet → userId socket ∉ typingSet) ∧
  (∀ key td, privateTyping w' !! key = Some td → td_userId td ≠ userId socket).
Proof.
  intros Hid w'.
  assert (Hw' : onlineUsers w' = onlineUsers (cleanupUserData (userId socket) (sock_id socket) w)
                ∧ typingUsers w' = typingUsers (cleanupUserData (userId socket) (sock_id socket) w)
                ∧ privateTyping w'
                  = privateTyping (cleanupUserData (userId socket) (sock_id socket) w)).
  { subst w'. unfold handleDisconnection. cbn [Js.truthy].
    apply String.eqb_neq in Hid. rewrite Hid. cbn [negb].
    match goal with |- context [match ?o with _ => _ end] => destruct o end;
      repeat split; reflexivity. }
  destruct Hw' as (Hreg & Htyp & Hpriv).
  rewrite Hreg, Htyp, Hpriv, cleanupUserData_registry.
  split; [| split; [| split; [| split]]].
  - intros d -> Hne. apply String.eqb_neq in Hne. rewrite Hne. reflexivity.
  - intros d -> Heq. apply String.eqb_eq in Heq. rewrite Heq. reflexivity.
  - intros ->. reflexivity.
  - apply cleanupUserData_typing.
  - apply cleanupUserData_private.
Qed.

(** alice's first socket closes after her second one has registered. *)
Lemma stale_disconnect_keeps_registry_witness :
  let w := fst (run [(4, Connect Sample.sA')] Sample.two) in
  let w' := fst (handleDisconnection Sample.sA 5 w) in
  (∀ d, onlineUsers w !! "u1" = Some d → socketId d ≠ "sA" →
        onlineUsers w' = onlineUsers w) ∧
  (∀ d, onlineUsers w !! "u1" = Some d → socketId d = "sA" →
        onlineUsers w' = delete "u1" (onlineUsers w)) ∧
  (onlineUsers w !! "u1" = None → onlineUsers w' = onlineUsers w) ∧
  (∀ room typingSet, typingUsers w' !! room = Some typingSet → "u1" ∉ typingSet) ∧
  (∀ key td, privateTyping w' !! key = Some td → td_userId td ≠ "u1").
Proof.
  apply (stale_disconnect_keeps_registry Sample.sA 5
           (fst (run [(4, Connect Sample.sA')] Sample.two))).
  discriminate.
Defined.

(** ** The invariant of the process *)

Section Invariant.

Variable isSocketId : string → Prop.

Lemma tidy_kept d d' : roomsKept d d' → tidy isSocketId d → tidy isSocketId d'.
Proof. intros Hk Ht r Hr. apply Ht, Hk, Hr. Qed.

(** A step that leaves the namespace alone, keeps the rooms named by
    socket ids, and only rewrites registry entries without changing the
    socket they name, preserves the invariant. *)
Lemma wf_frame w w' :
  wf isSocketId w →
  sockets w' = sockets w →
  (∀ sid, isSocketId sid → in_room w' sid = in_room w sid) →
  (∀ u d', onlineUsers w' !! u = Some d' →
           ∃ d, onlineUsers w !! u = Some d ∧ socketId d = socketId d') →
  tidy isSocketId (db w') →
  wf isSocketId w'.
Proof.
  intros [Hs Hr Ho Hd] Hsock Hroom Hreg Hdb. split.
  - rewrite Hsock. exact Hs.
  - intros u d' Hd'. destruct (Hreg u d' Hd') as (d0 & Hd0 & <-).
    rewrite Hsock. eauto.
  - intros sid Hsid. rewrite Hroom, Hsock by exact Hsid. auto.
  - exact Hdb.
Qed.

Lemma in_room_join sid room w r :
  in_room (socket_join sid room w) r
  = if decide (room = r) then {[sid]} ∪ in_room w r else in_room w r.
Proof.
  unfold in_room, socket_join. cbn. rewrite lookup_insert.
  case_decide; [subst r |]; reflexivity.
Qed.

Lemma in_room_leave sid room w r :
  in_room (socket_leave sid room w) r
  = if decide (room = r) then in_room w r ∖ {[sid]} else in_room w r.
Proof.
  unfold in_room, socket_leave. cbn. rewrite lookup_alter.
  case_decide; [subst r | reflexivity].
  destruct (adapter w !! room); cbn; [reflexivity |].
  symmetry. apply set_eq. intros x. rewrite elem_of_difference, elem_of_empty. tauto.
Qed.

Lemma registry_alter_rooms (f : UserData → UserData) u0 (m : gmap string UserData) u d' :
  (∀ d, socketId (f d) = socketId d) →
  alter f u0 m !! u = Some d' →
  ∃ d, m !! u = Some d ∧ socketId d = socketId d'.
Proof.
  intros Hf. rewrite lookup_alter. case_decide.
  - subst u0. destruct (m !! u) as [d |]; intros Hd'; simplify_eq/=.
    exists d. split; [reflexivity | symmetry; apply Hf].
  - eauto.
Qed.

Lemma wf_handleTypingStart socket data now w :
  wf isSocketId w → wf isSocketId (fst (handleTypingStart socket data now w)).
Proof.
  intros Hwf. unfold handleTypingStart.
  repeat case_match; cbn [fst]; (eapply wf_frame; [exact Hwf | ..]);
    try reflexivity; eauto; apply Hwf.
Qed.

Lemma wf_handleTypingStop socket data w :
  wf isSocketId w → wf isSocketId (fst (handleTypingStop socket data w)).
Proof.
  intros Hwf. unfold handleTypingStop.
  repeat case_match; cbn [fst]; (eapply wf_frame; [exact Hwf | ..]);
    try reflexivity; eauto; apply Hwf.
Qed.

Lemma wf_cleanupTypingIndicators now w :
  wf isSocketId w → wf isSocketId (cleanupTypingIndicators now w).
Proof.
  intros Hwf. eapply wf_frame; [exact Hwf | ..]; try reflexivity; eauto; apply Hwf.
Qed.

Lemma wf_handleActivityUpdate socket now w :
  wf isSocketId w → wf isSocketId (fst (handleActivityUpdate socket now w)).
Proof.
  intros Hwf. unfold handleActivityUpdate. cbn [fst].
  eapply wf_frame; [exact Hwf | reflexivity | reflexivity | | apply Hwf].
  intros u d'. cbn. apply registry_alter_rooms. reflexivity.
Qed.

Lemma wf_handleSendMessage socket data newId now w :
  wf isSocketId w → wf isSocketId (fst (handleSendMessage socket data newId now w)).
Proof.
  intros Hwf. unfold handleSendMessage.
  match goal with |- context [if ?c then _ else _] => destruct c end; [exact Hwf |].
  match goal with
  | |- context [MessageService.createMessage ?a newId now (db w)] =>
      pose proof (createMessage_rooms a newId now (db w)) as Hk;
      destruct (MessageService.createMessage a newId now (db w)) as [d1 [e | result]]
  end; cbn [fst] in Hk.
  - eapply wf_frame; [exact Hwf | try reflexivity; eauto ..].
    exact (tidy_kept _ _ Hk (wf_db _ _ Hwf)).
  - repeat case_match; cbn [fst];
      (eapply wf_frame; [exact Hwf | try reflexivity; eauto ..]);
      exact (tidy_kept _ _ Hk (wf_db _ _ Hwf)).
Qed.

Lemma wf_handleSendPrivateMessage socket data newId now w :
  wf isSocketId w → wf isSocketId (fst (handleSendPrivateMessage socket data newId now w)).
Proof.
  intros Hwf. unfold handleSendPrivateMessage.
  match goal with |- context [if ?c then _ else _] => destruct c end; [exact Hwf |].
  match goal with |- context [if ?c then _ else _] => destruct c end; [exact Hwf |].
  match goal with
  | |- context [MessageService.createMessage ?a newId now (db w)] =>
      pose proof (createMessage_rooms a newId now (db w)) as Hk;
      destruct (MessageService.createMessage a newId now (db w)) as [d1 [e | result]]
  end; cbn [fst] in Hk.
  - eapply wf_frame; [exact Hwf | try reflexivity; eauto ..].
    exact (tidy_kept _ _ Hk (wf_db _ _ Hwf)).
  - repeat case_match; cbn [fst];
      (eapply wf_frame; [exact Hwf | try reflexivity; eauto ..]);
      exact (tidy_kept _ _ Hk (wf_db _ _ Hwf)).
Qed.

Lemma wf_handleLeaveRoom socket data now w :
  wf isSocketId w → wf isSocketId (fst (handleLeaveRoom socket data now w)).
Proof.
  intros Hwf. unfold handleLeaveRoom.
  destruct (negb (Js.truthy (rq_roomId data))); [exact Hwf |].
  set (roomId := default "" (rq_roomId data)).
  destruct (rooms (db w) !! roomId) as [room |] eqn:Hroom; [| exact Hwf].
  assert (Hnot : ¬ isSocketId roomId) by (apply (wf_db _ _ Hwf); eauto).
  assert (Hleft : wf isSocketId
            (set_onlineUsers
               (alter (λ d, mkUserData (socketId d) (ud_user d) (connectedAt d)
                                       (ud_rooms d ∖ {[roomId]}) (lastActivity d))
                      (userId socket))
               (socket_leave (sock_id socket) roomId w))).
  { eapply wf_frame; [exact Hwf | reflexivity | | | apply Hwf].
    - intros sid Hsid.
      change (in_room (set_onlineUsers ?f ?w0) sid) with (in_room w0 sid).
      rewrite in_room_leave. case_decide; [subst sid; contradiction | reflexivity].
    - intros u d'. cbn. apply registry_alter_rooms. reflexivity. }
  match goal with
  | |- context [let '(w3, typing) := ?c in _] => destruct c as [w3 typing] eqn:Htyping
  end.
  cbn [fst].
  assert (w3 = fst (w3, typing)) as -> by reflexivity. rewrite <- Htyping.
  repeat case_match; cbn [fst]; try exact Hleft;
    (eapply wf_frame; [exact Hleft | try reflexivity; eauto ..]); apply Hleft.
Qed.

Lemma getRoomById_found roomId uid d d' res :
  RoomService.getRoomById roomId uid d = (d', inr res) → is_Some (rooms d !! roomId).
Proof.
  unfold RoomService.getRoomById. intros H.
  apply svc_bind_inr in H as (d1 & room & Hfind & _).
  apply find_or_throw_inr in Hfind as [Hfind _]. eauto.
Qed.

Lemma wf_handleJoinRoom socket data now w :
  wf isSocketId w → wf isSocketId (fst (handleJoinRoom socket data now w)).
Proof.
  intros Hwf. unfold handleJoinRoom.
  destruct (negb (Js.truthy (rq_roomId data))); [exact Hwf |].
  set (roomId := default "" (rq_roomId data)).
  pose proof (getRoomById_reads roomId (userId socket) (db w)) as Hread.
  destruct (RoomService.getRoomById roomId (userId socket) (db w))
    as [d1 [e | roomResult]] eqn:Hget; cbn [fst] in Hread; subst d1.
  { eapply wf_frame; [exact Hwf | try reflexivity; eauto ..]. apply Hwf. }
  destruct (negb (RoomService.rr_success roomResult)).
  { eapply wf_frame; [exact Hwf | try reflexivity; eauto ..]. apply Hwf. }
  assert (Hnot : ¬ isSocketId roomId).
  { apply (wf_db _ _ Hwf). eapply getRoomById_found. exact Hget. }
  match goal with
  | |- context [MessageService.getRoomMessages roomId (userId socket) ?o (db ?w2)] =>
      assert (Hjoined : wf isSocketId w2);
      [| pose proof (getRoomMessages_reads roomId (userId socket) o (db w2)) as Hread2;
         destruct (MessageService.getRoomMessages roomId (userId socket) o (db w2))
           as [d2 [e | messagesResult]]; cbn [fst] in Hread2; subst d2 ]
  end.
  { eapply wf_frame; [exact Hwf | reflexivity | | | apply Hwf].
    - intros sid Hsid.
      change (in_room (set_onlineUsers ?f ?w0) sid) with (in_room w0 sid).
      rewrite in_room_join. case_decide; [subst sid; contradiction | reflexivity].
    - intros u d'. cbn. apply registry_alter_rooms. reflexivity. }
  - eapply wf_frame; [exact Hjoined | try reflexivity; eauto ..]. apply Hjoined.
  - destruct (MessageService.pg_success messagesResult); cbn [fst];
      (eapply wf_frame; [exact Hjoined | try reflexivity; eauto ..]); apply Hjoined.
Qed.

(** The loop of [handleConnection] joins rooms of the store and touches
    neither the namespace nor the store. *)
Lemma joinOwnRoom_transport socket now userRooms acc :
  let acc' := foldl (joinOwnRoom socket now) acc userRooms in
  sockets (fst acc') = sockets (fst acc)
  ∧ db (fst acc') = db (fst acc)
  ∧ (∀ r, r ∉ fst <$> userRooms → in_room (fst acc') r = in_room (fst acc) r).
Proof.
  revert acc. induction userRooms as [| room userRooms IH]; intros acc; cbn.
  - repeat split; reflexivity.
  - destruct (IH (joinOwnRoom socket now acc room)) as (Hs & Hd & Hr).
    split; [rewrite Hs; reflexivity |]. split; [rewrite Hd; reflexivity |].
    intros r Hnotin. apply not_elem_of_cons in Hnotin as [Hne Hnotin].
    rewrite Hr by exact Hnotin. cbn [joinOwnRoom fst].
    change (in_room (set_onlineUsers ?f ?w0) r) with (in_room w0 r).
    rewrite in_room_join. case_decide; [congruence | reflexivity].
Qed.

Lemma findActiveOf_rooms uid d r :
  r ∈ fst <$> Room.findActiveOf uid d → is_Some (rooms d !! r).
Proof.
  intros Hin. apply list_elem_of_fmap in Hin as ([r' doc] & -> & Hin).
  unfold Room.findActiveOf in Hin.
  apply list_elem_of_In, filter_In in Hin as [Hin _].
  apply list_elem_of_In, elem_of_map_to_list in Hin. cbn. eauto.
Qed.

Lemma wf_connect socket now w :
  wf isSocketId w →
  sockets w !! sock_id socket = None →
  isSocketId (sock_id socket) → userId socket ≠ "" →
  wf isSocketId (fst (handleConnection socket now (transport_open socket w))).
Proof.
  intros Hwf Hfresh Hsid Huid. unfold handleConnection.
  match goal with
  | |- context [foldl ?f ?acc ?l] =>
      pose proof (joinOwnRoom_transport socket now l acc) as (Hs & Hd & Hr);
      pose proof (joinOwnRoom_registry socket now l acc) as (Ho & Hn);
      pose proof (findActiveOf_rooms (userId socket) (db (fst acc))) as Hkeys;
      destruct (foldl f acc l) as [w3 out] eqn:Hfold
  end.
  cbn [fst] in *. cbn in Hs, Hd, Hn, Ho. rewrite lookup_insert_eq in Hn.
  destruct (Hn _ eq_refl) as (dnew & Hdnew & Hdsid & _). cbn in Hdsid.
  split.
  - rewrite Hs. intros sid s. rewrite lookup_insert. case_decide.
    + intros [= <-]. subst sid. auto.
    + apply Hwf.
  - intros u d Hlk. rewrite Hs. destruct (decide (u = userId socket)) as [-> | Hne].
    + rewrite Hdnew in Hlk. injection Hlk as <-. rewrite Hdsid.
      exists socket. rewrite lookup_insert_eq. auto.
    + rewrite Ho in Hlk by exact Hne. rewrite lookup_insert_ne in Hlk by congruence.
      destruct (wf_registry _ _ Hwf u d Hlk) as (s & Hs' & Hu).
      exists s. split; [| exact Hu].
      rewrite lookup_insert_ne; [exact Hs' |]. intros Heq. congruence.
  - intros sid Hsock. rewrite Hs, Hr.
    + change (in_room (set_db ?d0 ?w0) sid) with (in_room w0 sid).
      change (in_room (set_onlineUsers ?f ?w0) sid) with (in_room w0 sid).
      unfold transport_open. rewrite in_room_join.
      change (in_room (set_sockets ?f ?w0) sid) with (in_room w0 sid).
      rewrite (wf_own_room _ _ Hwf sid Hsock). cbn [sockets set_sockets].
      rewrite dom_insert_L. case_decide as Heq.
      * subst sid. rewrite decide_False by (intros Hin; apply elem_of_dom in Hin;
          rewrite Hfresh in Hin; destruct Hin; discriminate).
        rewrite decide_True by set_solver. set_solver.
      * destruct (decide (sid ∈ dom (sockets w))).
        -- rewrite decide_True by set_solver. reflexivity.
        -- rewrite decide_False by set_solver. reflexivity.
    + intros Hin. apply Hkeys in Hin. cbn in Hin.
      exact (wf_db _ _ Hwf sid Hin Hsock).
  - rewrite Hd. cbn. exact (wf_db _ _ Hwf).
Qed.

(** What [handleDisconnection] leaves of the state. *)
Lemma stale_disconnect_registry socket now w :
  userId socket ≠ "" →
  let w' := fst (handleDisconnection socket now w) in
  onlineUsers w' = onlineUsers (cleanupUserData (userId socket) (sock_id socket) w)
  ∧ sockets w' = sockets w ∧ adapter w' = adapter w
  ∧ rooms (db w') = rooms (db w).
Proof.
  intros Hid. unfold handleDisconnection. cbn [Js.truthy].
  apply String.eqb_neq in Hid. rewrite Hid. cbn [negb].
  assert (Hc : sockets (cleanupUserData (userId socket) (sock_id socket) w) = sockets w
               ∧ adapter (cleanupUserData (userId socket) (sock_id socket) w) = adapter w
               ∧ db (cleanupUserData (userId socket) (sock_id socket) w) = db w).
  { unfold cleanupUserData. cbn.
    destruct (onlineUsers w !! userId socket) as [d |];
      [destruct (String.eqb (socketId d) (sock_id socket)) |]; repeat split; reflexivity. }
  destruct Hc as (Hs & Ha & Hd).
  match goal with |- context [match ?o with _ => _ end] => destruct o end;
    cbn [fst set_db sockets adapter onlineUsers db User.setPresence set_users rooms];
    rewrite Hs, Ha, Hd; repeat split; reflexivity.
Qed.

Lemma in_room_close sid w r :
  in_room (transport_close sid w) r = in_room w r ∖ {[sid]}.
Proof.
  unfold in_room, transport_close. cbn. rewrite lookup_fmap.
  destruct (adapter w !! r); cbn; [reflexivity |].
  symmetry. apply set_eq. intros x. rewrite elem_of_difference, elem_of_empty. tauto.
Qed.

Lemma wf_disconnect socket now w :
  wf isSocketId w →
  sockets w !! sock_id socket = Some socket →
  wf isSocketId (fst (handleDisconnection socket now (transport_close (sock_id socket) w))).
Proof.
  intros Hwf Hconn.
  destruct (wf_sockets _ _ Hwf _ _ Hconn) as (_ & _ & Huid).
  set (wc := transport_close (sock_id socket) w).
  destruct (stale_disconnect_registry socket now wc Huid) as (Hreg & Hsock & Hadp & Hdb).
  split.
  - rewrite Hsock. intros sid' s. cbn. rewrite lookup_delete.
    case_decide; [discriminate |]. apply Hwf.
  - intros u d Hlk. rewrite Hsock. cbn. rewrite Hreg, cleanupUserData_registry in Hlk.
    change (onlineUsers wc) with (onlineUsers w) in Hlk.
    assert (Hold : onlineUsers w !! u = Some d ∧ socketId d ≠ sock_id socket).
    { destruct (onlineUsers w !! userId socket) as [d0 |] eqn:Hd0.
      - destruct (String.eqb (socketId d0) (sock_id socket)) eqn:Heq.
        + rewrite lookup_delete in Hlk. case_decide; [discriminate |].
          split; [exact Hlk |]. intros Hsame.
          destruct (wf_registry _ _ Hwf u d Hlk) as (s & Hs & Hu).
          rewrite Hsame in Hs. congruence.
        + apply String.eqb_neq in Heq. split; [exact Hlk |]. intros Hsame.
          destruct (wf_registry _ _ Hwf u d Hlk) as (s & Hs & Hu).
          rewrite Hsame in Hs.
          assert (u = userId socket) by congruence. subst u. congruence.
      - split; [exact Hlk |]. intros Hsame.
        destruct (wf_registry _ _ Hwf u d Hlk) as (s & Hs & Hu).
        rewrite Hsame in Hs.
        assert (u = userId socket) by congruence. subst u. congruence. }
    destruct Hold as [Hold Hne].
    destruct (wf_registry _ _ Hwf u d Hold) as (s & Hs & Hu).
    exists s. split; [| exact Hu]. rewrite lookup_delete_ne by congruence. exact Hs.
  - intros sid' Hsock'. unfold in_room. rewrite Hadp, Hsock. fold (in_room wc sid').
    subst wc. rewrite in_room_close, (wf_own_room _ _ Hwf sid' Hsock').
    cbn [sockets transport_close set_adapter set_sockets]. rewrite dom_delete_L.
    destruct (decide (sid' = sock_id socket)) as [-> | Hne].
    + rewrite (decide_False (P := sock_id socket ∈ dom (sockets w) ∖ {[sock_id socket]}))
        by set_solver.
      case_decide; set_solver.
    + destruct (decide (sid' ∈ dom (sockets w))).
      * rewrite decide_True by set_solver. set_solver.
      * rewrite decide_False by set_solver. set_solver.
  - intros r Hr. apply (wf_db _ _ Hwf r). rewrite Hdb in Hr. exact Hr.
Qed.

(** Every admissible input preserves the invariant. *)
Lemma wf_step now i w :
  wf isSocketId w → admissible isSocketId i → wf isSocketId (fst (step now i w)).
Proof.
  intros Hwf Hadm. destruct i; cbn [step]; unfold on.
  - destruct (sockets w !! sock_id socket) eqn:Hfresh; [exact Hwf |].
    destruct Hadm. by apply wf_connect.
  - destruct (sockets w !! sid) as [socket |] eqn:Hconn; [| exact Hwf].
    destruct (wf_sockets _ _ Hwf _ _ Hconn) as (<- & _ & _). by apply wf_disconnect.
  - destruct (sockets w !! sid); [by apply wf_handleJoinRoom | exact Hwf].
  - destruct (sockets w !! sid); [by apply wf_handleLeaveRoom | exact Hwf].
  - destruct (sockets w !! sid); [by apply wf_handleSendMessage | exact Hwf].
  - destruct (sockets w !! sid); [by apply wf_handleSendPrivateMessage | exact Hwf].
  - destruct (sockets w !! sid); [by apply wf_handleTypingStart | exact Hwf].
  - destruct (sockets w !! sid); [by apply wf_handleTypingStop | exact Hwf].
  - destruct (sockets w !! sid); [by apply wf_handleActivityUpdate | exact Hwf].
  - by apply wf_cleanupTypingIndicators.
  - eapply wf_frame; [exact Hwf | try reflexivity; eauto ..].
Qed.

Lemma wf_run trace w :
  wf isSocketId w → Forall (λ ti, admissible isSocketId (snd ti)) trace →
  wf isSocketId (fst (run trace w)).
Proof.
  revert w. induction trace as [| [now i] rest IH]; intros w Hwf Hadm; [exact Hwf |].
  apply Forall_cons_1 in Hadm as [Hi Hrest]. cbn [run].
  pose proof (wf_step now i w Hwf Hi) as Hstep.
  destruct (step now i w) as [w1 out1]. cbn [fst] in Hstep.
  specialize (IH w1 Hstep Hrest).
  destruct (run rest w1) as [w2 out2]. exact IH.
Qed.

Lemma wf_init d : tidy isSocketId d → wf isSocketId (init d).
Proof.
  intros Ht. split; cbn.
  - intros sid s. rewrite lookup_empty. discriminate.
  - intros u d0. rewrite lookup_empty. discriminate.
  - intros sid _. unfold in_room. cbn. rewrite lookup_empty, dom_empty_L.
    rewrite decide_False by set_solver. reflexivity.
  - exact Ht.
Qed.

End Invariant.

(** In every state the process reaches, a registry entry names a socket
    that is connected and belongs to the user of the entry. *)
Lemma registry_entries_live isSocketId d0 trace u d :
  tidy isSocketId d0 →
  Forall (λ ti, admissible isSocketId (snd ti)) trace →
  onlineUsers (fst (run trace (init d0))) !! u = Some d →
  ∃ s, sockets (fst (run trace (init d0))) !! socketId d = Some s
       ∧ sock_id s = socketId d ∧ userId s = u.
Proof.
  intros Htidy Hadm Hd.
  assert (Hwf : wf isSocketId (fst (run trace (init d0))))
    by (apply wf_run; [apply wf_init; exact Htidy | exact Hadm]).
  destruct (wf_registry _ _ Hwf _ _ Hd) as (s & Hs & Hu).
  destruct (wf_sockets _ _ Hwf _ _ Hs) as (Hid & _ & _). eauto.
Qed.

(** ** Private messages *)

Lemma handleSendPrivateMessage_ok socket data newId now w w' out :
  handleSendPrivateMessage socket data newId now w = (w', out) →
  emitted ERROR out = 0%nat →
  ∃ recipientId md,
    pd_recipientId data = Some recipientId ∧
    sockets w' = sockets w ∧ adapter w' = adapter w ∧
    ∃ stop,
      out = (liveCopy w recipientId md
             ++ [emit socket PRIVATE_MESSAGE_SENT (PAck (pd_tempId data) md)] ++ stop)%list ∧
      (∀ e, e ∈ stop → event e = TYPING_STOP).
Proof.
  intros Hrun Hok. unfold handleSendPrivateMessage in Hrun.
  destruct (pd_recipientId data) as [recipientId |] eqn:Hrcp; cycle 1.
  { cbn in Hrun. error_run Hrun Hok. }
  match type of Hrun with (if ?c then _ else _) = _ => destruct c end.
  { error_run Hrun Hok. }
  cbn [default from_option id] in Hrun.
  destruct (String.eqb recipientId (userId socket)).
  { error_run Hrun Hok. }
  match type of Hrun with
    match ?c with _ => _ end = _ => destruct c as [d1 [e | result]]
  end.
  { error_run Hrun Hok. }
  destruct (MessageService.cr_success result).
  2:{ error_run Hrun Hok. }
  cbn [negb] in Hrun.
  exists recipientId, (messageData result None (Some recipientId) true).
  unfold liveCopy.
  change (onlineUsers (set_db d1 w)) with (onlineUsers w) in Hrun.
  destruct (privateTyping (set_db d1 w) !! getConversationKey (userId socket) recipientId).
  - apply pair_equal_spec in Hrun as [<- <-].
    repeat split; eauto. eexists. split; [reflexivity |].
    intros e He. destruct (onlineUsers w !! recipientId); [| set_solver].
    apply list_elem_of_singleton in He as ->. reflexivity.
  - apply pair_equal_spec in Hrun as [<- <-].
    repeat split; eauto. exists []. split; [reflexivity | set_solver].
Qed.

Lemma private_message_delivery socket data newId now w w' out :
  sockets w !! sock_id socket = Some socket →
  handleSendPrivateMessage socket data newId now w = (w', out) →
  emitted ERROR out = 0%nat →
  ∃ recipientId,
    pd_recipientId data = Some recipientId ∧
    received w' (sock_id socket) PRIVATE_MESSAGE_SENT out = 1%nat ∧
    (∀ e, e ∈ out → event e = PRIVATE_MESSAGE_SENT →
          target e = ToSocket (sock_id socket) ∧ ∃ md, payload e = PAck (pd_tempId data) md) ∧
    emitted PRIVATE_MESSAGE_RECEIVED out
      = match onlineUsers w !! recipientId with Some _ => 1%nat | None => 0%nat end ∧
    (∀ t, received w' t PRIVATE_MESSAGE_RECEIVED out
          = match onlineUsers w !! recipientId with
            | Some rd => if decide (t ∈ in_room w (socketId rd)) then 1%nat else 0%nat
            | None => 0%nat
            end).
Proof.
  intros Hconn Hrun Hok.
  destruct (handleSendPrivateMessage_ok _ _ _ _ _ _ _ Hrun Hok)
    as (recipientId & md & Hrcp & Hsock & Hadp & stop & -> & Hstop).
  exists recipientId. split; [exact Hrcp |].
  assert (Hstop_recv : ∀ t ev, String.eqb TYPING_STOP ev = false →
                               received w' t ev stop = 0%nat).
  { intros t ev Hev. apply received_none. intros e He. rewrite (Hstop e He). exact Hev. }
  assert (Hstop_emit : ∀ ev, String.eqb TYPING_STOP ev = false → emitted ev stop = 0%nat).
  { intros ev Hev. apply emitted_none. intros e He. rewrite (Hstop e He). exact Hev. }
  unfold liveCopy. split; [| split; [| split]].
  - rewrite !received_app, Hstop_recv by reflexivity.
    rewrite received_cons, received_nil. unfold emit.
    rewrite delivered_same_event. cbn [recipients]. rewrite Hsock.
    rewrite decide_True by (apply elem_of_dom; eauto).
    rewrite bool_decide_eq_true_2 by (by apply elem_of_singleton).
    destruct (onlineUsers w !! recipientId); [| reflexivity].
    rewrite received_cons, received_nil. unfold io_to.
    rewrite delivered_other_event by reflexivity. reflexivity.
  - intros e He Hev.
    assert (e = emit socket PRIVATE_MESSAGE_SENT (PAck (pd_tempId data) md)) as ->.
    { apply elem_of_app in He as [He | He].
      { destruct (onlineUsers w !! recipientId); [| set_solver].
        apply list_elem_of_singleton in He as ->. discriminate Hev. }
      apply elem_of_cons in He as [-> | He]; [reflexivity |].
      rewrite (Hstop e He) in Hev. discriminate Hev. }
    split; [reflexivity | eauto].
  - rewrite !emitted_app, Hstop_emit by reflexivity.
    destruct (onlineUsers w !! recipientId); reflexivity.
  - intros t. rewrite !received_app, Hstop_recv by reflexivity.
    rewrite received_cons, received_nil. unfold emit.
    rewrite delivered_other_event by reflexivity.
    destruct (onlineUsers w !! recipientId) as [rd |]; [| reflexivity].
    rewrite received_cons, received_nil. unfold io_to.
    rewrite delivered_same_event. cbn [recipients].
    rewrite (in_room_transport w w') by exact Hadp.
    destruct (decide (t ∈ in_room w (socketId rd))).
    + rewrite bool_decide_eq_true_2 by assumption. reflexivity.
    + rewrite bool_decide_eq_false_2 by assumption. reflexivity.
Qed.

(** The same send when the recipient is connected and when it is not. *)
Example whisper_online :
  let out := snd (handleSendPrivateMessage Sample.sA (Sample.whisper "u2") "m1" 10 Sample.two) in
  received Sample.two "sB" PRIVATE_MESSAGE_RECEIVED out = 1%nat
  ∧ received Sample.two "sA" PRIVATE_MESSAGE_SENT out = 1%nat.
Proof. vm_compute. split; reflexivity. Qed.

Example whisper_offline :
  let out := snd (handleSendPrivateMessage Sample.sA (Sample.whisper "u3") "m1" 10 Sample.two) in
  emitted PRIVATE_MESSAGE_RECEIVED out = 0%nat
  ∧ received Sample.two "sA" PRIVATE_MESSAGE_SENT out = 1%nat.
Proof. vm_compute. split; reflexivity. Qed.

(** C2, as stated, fails: bob opens a socket, then a second one, which
    takes his registry entry, and closes the second. His first socket is
    still connected, but the registry has no entry for him: alice's
    private message to him succeeds, is acknowledged to her, and is
    delivered to nobody. *)
Lemma private_message_misses_live_recipient :
  let w := fst (run [(1, Connect Sample.sA); (2, Connect Sample.sB);
                     (3, Connect (mkSocket "sB2" "u2" Sample.bob)); (4, Disconnect "sB2")]
                    (init Sample.store)) in
  let w' := fst (handleSendPrivateMessage Sample.sA (Sample.whisper "u2") "m1" 10 w) in
  let out := snd (handleSendPrivateMessage Sample.sA (Sample.whisper "u2") "m1" 10 w) in
  sockets w !! "sB" = Some Sample.sB
  ∧ socketsOf "u2" w = ["sB"]
  ∧ onlineUsers w !! "u2" = None
  ∧ emitted ERROR out = 0%nat
  ∧ received w' "sA" PRIVATE_MESSAGE_SENT out = 1%nat
  ∧ emitted PRIVATE_MESSAGE_RECEIVED out = 0%nat
  ∧ receivedByUser w' "u2" PRIVATE_MESSAGE_RECEIVED out = 0%nat.
Proof. vm_compute. repeat split; reflexivity. Qed.

(** C2, amended. In any state the process reaches, a successful private
    message (the run emits no [error]) from a connected socket to
    [recipientId]:
    the sender's socket receives exactly one [private_message_sent],
    carrying the client's [tempId], whether or not the recipient is
    registered; if the registry holds an entry for the recipient at send
    time, the socket it names is connected, belongs to the recipient, and
    is the one socket that receives [private_message_received], exactly
    once; if it holds none, no [private_message_received] is emitted. *)
Theorem private_message_gating isSocketId d0 trace socket data newId now w' out :
  tidy isSocketId d0 →
  Forall (λ ti, admissible isSocketId (snd ti)) trace →
  let w := fst (run trace (init d0)) in
  sockets w !! sock_id socket = Some socket →
  handleSendPrivateMessage socket data newId now w = (w', out) →
  emitted ERROR out = 0%nat →
  ∃ recipientId,
    pd_recipientId data = Some recipientId ∧
    received w' (sock_id socket) PRIVATE_MESSAGE_SENT out = 1%nat ∧
    (∀ e, e ∈ out → event e = PRIVATE_MESSAGE_SENT →
          target e = ToSocket (sock_id socket) ∧ ∃ md, payload e = PAck (pd_tempId data) md) ∧
    match onlineUsers w !! recipientId with
    | Some rd =>
        (∃ s, sockets w !! socketId rd = Some s ∧ userId s = recipientId)
        ∧ ∀ t, received w' t PRIVATE_MESSAGE_RECEIVED out
               = if decide (t = socketId rd) then 1%nat else 0%nat
    | None => emitted PRIVATE_MESSAGE_RECEIVED out = 0%nat
    end.
Proof.
  intros Htidy Hadm w Hconn Hrun Hok.
  assert (Hwf : wf isSocketId w) by (apply wf_run; [apply wf_init; exact Htidy | exact Hadm]).
  destruct (private_message_delivery _ _ _ _ _ _ _ Hconn Hrun Hok)
    as (recipientId & Hrcp & Hack & Htemp & Hcount & Hrecv).
  exists recipientId. split; [exact Hrcp |]. split; [exact Hack |]. split; [exact Htemp |].
  destruct (onlineUsers w !! recipientId) as [rd |] eqn:Hrd; [| exact Hcount].
  destruct (wf_registry _ _ Hwf _ _ Hrd) as (s & Hs & Hu).
  split; [eauto |]. intros t. rewrite Hrecv.
  destruct (wf_sockets _ _ Hwf _ _ Hs) as (_ & Hid & _).
  rewrite (wf_own_room _ _ Hwf _ Hid).
  rewrite (decide_True (P := socketId rd ∈ dom (sockets w))) by (apply elem_of_dom; eauto).
  destruct (decide (t = socketId rd)) as [-> | Hne].
  - rewrite decide_True by (by apply elem_of_singleton). reflexivity.
  - rewrite decide_False by (by rewrite elem_of_singleton). reflexivity.
Qed.

Lemma sample_store_tidy : tidy (λ s, s ≠ "r1" ∧ s ≠ "r2") Sample.store.
Proof.
  intros r [doc Hr] [H1 H2]. unfold Sample.store in Hr. cbn in Hr.
  rewrite lookup_insert_ne in Hr by congruence.
  rewrite lookup_insert_ne in Hr by congruence.
  rewrite lookup_empty in Hr. discriminate.
Qed.

(** alice whispers to carol, who is not connected, after alice and bob
    have connected. *)
Lemma private_message_gating_witness :
  let w := Sample.two in
  let run := handleSendPrivateMessage Sample.sA (Sample.whisper "u3") "m1" 10 w in
  ∃ recipientId,
    pd_recipientId (Sample.whisper "u3") = Some recipientId ∧
    received (fst run) "sA" PRIVATE_MESSAGE_SENT (snd run) = 1%nat ∧
    (∀ e, e ∈ snd run → event e = PRIVATE_MESSAGE_SENT →
          target e = ToSocket "sA" ∧ ∃ md, payload e = PAck (Some "tmp-8") md) ∧
    match onlineUsers w !! recipientId with
    | Some rd =>
        (∃ s, sockets w !! socketId rd = Some s ∧ userId s = recipientId)
        ∧ ∀ t, received (fst run) t PRIVATE_MESSAGE_RECEIVED (snd run)
               = if decide (t = socketId rd) then 1%nat else 0%nat
    | None => emitted PRIVATE_MESSAGE_RECEIVED (snd run) = 0%nat
    end.
Proof.
  apply (private_message_gating (λ s, s ≠ "r1" ∧ s ≠ "r2") Sample.store
           [(1, Connect Sample.sA); (2, Connect Sample.sB)]
           Sample.sA (Sample.whisper "u3") "m1" 10).
  - exact sample_store_tidy.
  - repeat constructor; discriminate.
  - vm_compute. reflexivity.
  - apply surjective_pairing.
  - vm_compute. reflexivity.
Defined.

(** ** The typing sweep *)

Lemma sweep_private now w key td :
  privateTyping (cleanupTypingIndicators now w) !! key = Some td
  ↔ privateTyping w !! key = Some td ∧ now - startTime td ≤ TYPING_TIMEOUT.
Proof.
  unfold cleanupTypingIndicators. cbn.
  rewrite map_lookup_filter_Some. cbn. split; intros [H1 H2]; (split; [exact H1 | lia]).
Qed.

Lemma expiryTick_bounds s0 t0 :
  s0 ≤ t0 →
  1 ≤ expiryTick s0 t0
  ∧ t0 + TYPING_TIMEOUT < s0 + expiryTick s0 t0 * SWEEP_INTERVAL
  ∧ s0 + expiryTick s0 t0 * SWEEP_INTERVAL ≤ t0 + TYPING_TIMEOUT + SWEEP_INTERVAL.
Proof.
  intros Hle. unfold expiryTick, TYPING_TIMEOUT, SWEEP_INTERVAL.
  pose proof (Z.div_mod (t0 + 10000 - s0) 30000 ltac:(lia)) as Hdm.
  pose proof (Z.mod_pos_bound (t0 + 10000 - s0) 30000 ltac:(lia)) as Hmod.
  assert (0 ≤ (t0 + 10000 - s0) / 30000) by (apply Z.div_pos; lia).
  lia.
Qed.

(** C5, as stated, fails: the sweep at time 40000 removes the one expired
    session and emits no [typing_stop]. *)
Lemma sweep_emits_no_typing_stop :
  let w := Sample.aliceTyping in
  let w' := fst (step 40000 Sweep w) in
  let out := snd (step 40000 Sweep w) in
  let removed := (size (privateTyping w) - size (privateTyping w'))%nat in
  removed = 1%nat ∧ emitted TYPING_STOP out ≠ removed.
Proof. vm_compute. split; [reflexivity | discriminate]. Qed.

(** C5, amended. The sweep emits nothing; it keeps exactly the private
    sessions started at most [TYPING_TIMEOUT] (10 s) before it runs, so it
    removes every older one; and for a timer started at [s0], a session
    started at [t0 ≥ s0] that is still held with that start time is gone
    after the tick [expiryTick s0 t0], which falls after [t0 + 10 s] and no
    later than [t0 + 10 s] plus one sweep interval. *)
Theorem typing_sweep_expiry s0 t0 :
  s0 ≤ t0 →
  (∀ now w, snd (step now Sweep w) = []) ∧
  (∀ now w key td,
     privateTyping (fst (step now Sweep w)) !! key = Some td
     ↔ privateTyping w !! key = Some td ∧ now - startTime td ≤ TYPING_TIMEOUT) ∧
  (∀ now w key td,
     privateTyping w !! key = Some td → now - startTime td > TYPING_TIMEOUT →
     privateTyping (fst (step now Sweep w)) !! key = None) ∧
  let tick := s0 + expiryTick s0 t0 * SWEEP_INTERVAL in
  1 ≤ expiryTick s0 t0 ∧
  t0 + TYPING_TIMEOUT < tick ≤ t0 + TYPING_TIMEOUT + SWEEP_INTERVAL ∧
  (∀ w key td,
     privateTyping w !! key = Some td → startTime td = t0 →
     privateTyping (fst (step tick Sweep w)) !! key = None).
Proof.
  intros Hle.
  assert (Hgone : ∀ now w key td,
            privateTyping w !! key = Some td → now - startTime td > TYPING_TIMEOUT →
            privateTyping (fst (step now Sweep w)) !! key = None).
  { intros now w key td Hin Hold.
    change (fst (step now Sweep w)) with (cleanupTypingIndicators now w).
    destruct (privateTyping (cleanupTypingIndicators now w) !! key) as [td' |] eqn:Hlk;
      [exfalso | reflexivity].
    apply sweep_private in Hlk as [Hin' Hyoung]. rewrite Hin in Hin'.
    injection Hin' as ->. lia. }
  destruct (expiryTick_bounds s0 t0 Hle) as (Hk & Hlo & Hhi).
  split; [reflexivity |]. split; [intros; apply sweep_private |].
  split; [exact Hgone |]. cbn zeta.
  split; [exact Hk |]. split; [lia |].
  intros w key td Hin Hstart. apply (Hgone _ _ _ td Hin). lia.
Qed.

(** The timer starts at 0 and alice starts typing at 1000: the tick at
    30000 removes her session. *)
Lemma typing_sweep_expiry_witness :
  expiryTick 0 1000 = 1
  ∧ privateTyping Sample.aliceTyping !! getConversationKey "u1" "u2"
    = Some (mkTypingData "u1" "alice" 1000)
  ∧ privateTyping (fst (step 30000 Sweep Sample.aliceTyping)) !! getConversationKey "u1" "u2" = None.
Proof.
  split; [reflexivity |]. split; [vm_compute; reflexivity |].
  destruct (typing_sweep_expiry 0 1000 ltac:(lia)) as (_ & _ & _ & _ & _ & Hgone).
  apply (Hgone Sample.aliceTyping _ (mkTypingData "u1" "alice" 1000));
    [vm_compute; reflexivity | reflexivity].
Defined.

(** ** Presence on disconnect *)

(** When the closing socket is the registered one, [cleanupUserData] has
    already deleted the entry that [handleDisconnection] reads the room set
    from: only the global broadcast is emitted. *)
Lemma handleDisconnection_registered socket now w d :
  userId socket ≠ "" →
  onlineUsers w !! userId socket = Some d →
  socketId d = sock_id socket →
  snd (handleDisconnection socket now w) = [broadcastUserStatus (user socket) false now].
Proof.
  intros Hid Hd Hsid. unfold handleDisconnection. cbn [Js.truthy].
  apply String.eqb_neq in Hid. rewrite Hid. cbn [negb].
  change (onlineUsers (set_db ?d ?w)) with (onlineUsers w).
  rewrite cleanupUserData_registry, Hd.
  apply String.eqb_eq in Hsid. rewrite Hsid, lookup_delete_eq. reflexivity.
Qed.

(** When the closing socket has been superseded, the entry read after
    [cleanupUserData] is the newer connection's: the global broadcast is
    followed by one [user_offline] per room of the newer connection. *)
Lemma handleDisconnection_superseded socket now w d :
  userId socket ≠ "" →
  onlineUsers w !! userId socket = Some d →
  socketId d ≠ sock_id socket →
  snd (handleDisconnection socket now w)
  = broadcastUserStatus (user socket) false now
    :: ((λ roomId, to_others socket roomId USER_OFFLINE
                     (PPresence (userId socket) (ui_username (user socket)) (Some roomId) now))
        <$> elements (ud_rooms d)).
Proof.
  intros Hid Hd Hsid. unfold handleDisconnection. cbn [Js.truthy].
  apply String.eqb_neq in Hid. rewrite Hid. cbn [negb].
  change (onlineUsers (set_db ?d ?w)) with (onlineUsers w).
  rewrite cleanupUserData_registry, Hd.
  apply String.eqb_neq in Hsid. rewrite Hsid, Hd. reflexivity.
Qed.

(** C6, at a failing input. alice, bob and carol are connected and in the
    lobby ["r1"], which alice's registry entry lists; when alice's socket
    closes, the only event is the global [user_offline]: bob receives one
    [user_offline], not the global one plus one for the room. *)
Theorem disconnect_emits_no_room_offline :
  let w := Sample.three in
  let w' := fst (step 9 (Disconnect "sA") w) in
  let out := snd (step 9 (Disconnect "sA") w) in
  (ud_rooms <$> onlineUsers w !! "u1") = Some {["r1"]}
  ∧ "sB" ∈ in_room w "r1"
  ∧ out = [io_emit USER_OFFLINE (PPresence "u1" "alice" None 9)]
  ∧ received w' "sB" USER_OFFLINE out = 1%nat.
Proof.
  cbv zeta. split; [| split; [| split]].
  - vm_compute. reflexivity.
  - apply (bool_decide_eq_true_1 _). vm_compute. reflexivity.
  - vm_compute. reflexivity.
  - vm_compute. reflexivity.
Qed.

(** C7, at a failing input. alice connects a second time and then her
    first socket closes: her registry entry still names the second socket,
    which is still connected, yet [user_offline] is broadcast to everyone
    and to the lobby, and the store records her as offline. *)
Theorem stale_disconnect_broadcasts_offline :
  let w := fst (run [(4, Connect Sample.sA')] Sample.two) in
  let w' := fst (step 5 (Disconnect "sA") w) in
  let out := snd (step 5 (Disconnect "sA") w) in
  (socketId <$> onlineUsers w !! "u1") = Some "sA2"
  ∧ (socketId <$> onlineUsers w' !! "u1") = Some "sA2"
  ∧ is_Some (sockets w' !! "sA2")
  ∧ out = [io_emit USER_OFFLINE (PPresence "u1" "alice" None 5);
           to_others Sample.sA "r1" USER_OFFLINE (PPresence "u1" "alice" (Some "r1") 5)]
  ∧ received w' "sB" USER_OFFLINE out = 2%nat
  ∧ (isOnline <$> users (db w') !! "u1") = Some false.
Proof.
  vm_compute. repeat split; try reflexivity. eexists. reflexivity.
Qed.

(** ** Stopping typing *)

Lemma world_eta w :
  mkWorld (sockets w) (adapter w) (onlineUsers w) (typingUsers w) (privateTyping w) (db w) = w.
Proof. destruct w; reflexivity. Qed.

Lemma set_privateTyping_id f w :
  f (privateTyping w) = privateTyping w → set_privateTyping f w = w.
Proof. unfold set_privateTyping. intros ->. apply world_eta. Qed.

(** The events of [typing_stop] do not depend on whether the caller had a
    session: the private branch tells the recipient whenever the recipient
    is registered, the room branch tells the room whenever the room has a
    typing set. *)
Lemma handleTypingStop_events socket data w :
  emitted TYPING_STOP (snd (handleTypingStop socket data w))
  = if ty_isPrivate data && Js.truthy (ty_recipientId data) then
      match onlineUsers w !! default "" (ty_recipientId data) with
      | Some _ => 1%nat
      | None => 0%nat
      end
    else if Js.truthy (ty_roomId data) then
      match typingUsers w !! default "" (ty_roomId data) with
      | Some _ => 1%nat
      | None => 0%nat
      end
    else 0%nat.
Proof.
  unfold handleTypingStop.
  destruct (ty_isPrivate data && Js.truthy (ty_recipientId data)).
  - change (onlineUsers (set_privateTyping ?f ?w)) with (onlineUsers w).
    destruct (onlineUsers w !! default "" (ty_recipientId data)); reflexivity.
  - destruct (Js.truthy (ty_roomId data)); [| reflexivity].
    destruct (typingUsers w !! default "" (ty_roomId data)); reflexivity.
Qed.

(** A second [typing_stop] finds nothing left to change. *)
Lemma handleTypingStop_twice socket data w :
  fst (handleTypingStop socket data (fst (handleTypingStop socket data w)))
  = fst (handleTypingStop socket data w).
Proof.
  unfold handleTypingStop.
  destruct (ty_isPrivate data && Js.truthy (ty_recipientId data)) eqn:Hpriv.
  - set (key := getConversationKey (userId socket) (default "" (ty_recipientId data))).
    assert (Hfst : ∀ w0, fst (match onlineUsers (set_privateTyping (delete key) w0)
                                     !! default "" (ty_recipientId data) with
                              | Some rd =>
                                  (set_privateTyping (delete key) w0,
                                   [io_to (socketId rd) TYPING_STOP
                                      (PTyping (userId socket) (ui_username (user socket))
                                               None true)])
                              | None => (set_privateTyping (delete key) w0, [])
                              end) = set_privateTyping (delete key) w0).
    { intros w0. destruct (onlineUsers _ !! _); reflexivity. }
    rewrite !Hfst. unfold set_privateTyping. cbn. rewrite delete_delete_eq. reflexivity.
  - destruct (Js.truthy (ty_roomId data)); [| reflexivity].
    set (roomId := default "" (ty_roomId data)).
    destruct (typingUsers w !! roomId) as [typingSet |] eqn:Hset; cbn [fst].
    2:{ rewrite Hset. reflexivity. }
    destruct (decide (size (typingSet ∖ {[userId socket]}) = 0%nat)) as [Hz | Hnz].
    + cbn. rewrite lookup_delete_eq. reflexivity.
    + cbn. rewrite lookup_insert_eq.
      assert ((typingSet ∖ {[userId socket]}) ∖ {[userId socket]}
              = typingSet ∖ {[userId socket]}) as ->
        by (apply set_eq; intros x; rewrite !elem_of_difference; tauto).
      rewrite decide_False by exact Hnz.
      unfold set_typingUsers. cbn. rewrite insert_insert_eq. reflexivity.
Qed.

(** alice has no typing session with bob, yet her [typing_stop] for that
    conversation is relayed to bob's socket; and it is relayed again when
    she repeats it. *)
Lemma typing_stop_without_session_emits :
  let data := mkTypingRequest None true (Some "u2") in
  let w1 := fst (handleTypingStop Sample.sA data Sample.two) in
  hasSession "u1" data Sample.two = false
  ∧ received Sample.two "sB" TYPING_STOP (snd (handleTypingStop Sample.sA data Sample.two))
    = 1%nat
  ∧ hasSession "u1" data w1 = false
  ∧ received w1 "sB" TYPING_STOP (snd (handleTypingStop Sample.sA data w1)) = 1%nat.
Proof. vm_compute. repeat split; reflexivity. Qed.

(** C8, at a failing input. alice, bob and carol are connected and in the
    lobby, and carol is typing there. bob, who has no typing session in
    the lobby, sends [typing_stop] for it: no state changes, but alice's
    and carol's sockets each receive a [typing_stop] naming bob; a second
    [typing_stop] is relayed in the same way. The handler tests that the
    room has a typing set, not that the caller is in it; the implicit
    stop of [handleSendMessage] tests both and emits nothing for bob in
    the same state. *)
Theorem typing_stop_relayed_without_session :
  let w := fst (handleTypingStart Sample.sC (mkTypingRequest (Some "r1") false None) 7
                  Sample.three) in
  let stop := mkTypingRequest (Some "r1") false None in
  let first := handleTypingStop Sample.sB stop w in
  let second := handleTypingStop Sample.sB stop (fst first) in
  typingUsers w !! "r1" = Some {["u3"]}
  ∧ hasSession "u2" stop w = false
  ∧ fst first = w
  ∧ snd first = [to_others Sample.sB "r1" TYPING_STOP (PTyping "u2" "bob" (Some "r1") false)]
  ∧ received w "sA" TYPING_STOP (snd first) = 1%nat
  ∧ received w "sC" TYPING_STOP (snd first) = 1%nat
  ∧ second = first
  ∧ emitted TYPING_STOP (snd (handleSendMessage Sample.sB Sample.hello "m1" 10 w)) = 0%nat.
Proof. vm_compute. repeat split; reflexivity. Qed.

(** A second consecutive [typing_stop] changes no state. [typing_stop]
    does nothing in a room that has no typing set, and in a private
    conversation that has no session under its key while the recipient
    is not registered. The event is emitted once per call to the
    recipient whenever the recipient is registered, once per call to the
    room whenever the room has a typing set. *)
Lemma typing_stop_idempotent_state socket data w :
  fst (handleTypingStop socket data (fst (handleTypingStop socket data w)))
  = fst (handleTypingStop socket data w)
  ∧ (∀ roomId, ty_isPrivate data && Js.truthy (ty_recipientId data) = false →
               ty_roomId data = Some roomId → roomId ≠ "" →
               typingUsers w !! roomId = None →
               handleTypingStop socket data w = (w, []))
  ∧ (∀ recipientId, ty_isPrivate data = true →
                    ty_recipientId data = Some recipientId → recipientId ≠ "" →
                    privateTyping w !! getConversationKey (userId socket) recipientId = None →
                    onlineUsers w !! recipientId = None →
                    handleTypingStop socket data w = (w, []))
  ∧ (∀ recipientId, ty_isPrivate data = true →
                    ty_recipientId data = Some recipientId → recipientId ≠ "" →
                    is_Some (onlineUsers w !! recipientId) →
                    emitted TYPING_STOP (snd (handleTypingStop socket data w)) = 1%nat)
  ∧ (∀ roomId, ty_isPrivate data && Js.truthy (ty_recipientId data) = false →
               ty_roomId data = Some roomId → roomId ≠ "" →
               is_Some (typingUsers w !! roomId) →
               emitted TYPING_STOP (snd (handleTypingStop socket data w)) = 1%nat).
Proof.
  split; [apply handleTypingStop_twice |].
  split; [| split; [| split]].
  - intros roomId Hpriv Hroom Hne Hnone. unfold handleTypingStop.
    rewrite Hpriv, Hroom. cbn [Js.truthy default from_option id].
    apply String.eqb_neq in Hne. rewrite Hne. cbn [negb]. rewrite Hnone. reflexivity.
  - intros recipientId Hpriv Hrcp Hne Hkey Hoff. unfold handleTypingStop.
    rewrite Hpriv, Hrcp. cbn [Js.truthy default from_option id andb].
    apply String.eqb_neq in Hne. rewrite Hne. cbn [negb].
    change (onlineUsers (set_privateTyping ?f ?w)) with (onlineUsers w).
    rewrite Hoff. f_equal. apply set_privateTyping_id, delete_id. exact Hkey.
  - intros recipientId Hpriv Hrcp Hne [rd Hrd]. rewrite handleTypingStop_events.
    rewrite Hpriv, Hrcp. cbn [Js.truthy default from_option id andb].
    apply String.eqb_neq in Hne. rewrite Hne. cbn [negb]. rewrite Hrd. reflexivity.
  - intros roomId Hpriv Hroom Hne [typingSet Hset]. rewrite handleTypingStop_events.
    rewrite Hpriv, Hroom. cbn [Js.truthy default from_option id].
    apply String.eqb_neq in Hne. rewrite Hne. cbn [negb]. rewrite Hset. reflexivity.
Qed.

(** carol is not connected and nobody types to or with her: alice's
    [typing_stop] for that conversation does nothing; bob is connected, so
    the one for him is relayed. *)
Lemma typing_stop_idempotent_state_witness :
  handleTypingStop Sample.sA (mkTypingRequest None true (Some "u3")) Sample.two
  = (Sample.two, [])
  ∧ emitted TYPING_STOP
      (snd (handleTypingStop Sample.sA (mkTypingRequest None true (Some "u2")) Sample.two))
    = 1%nat.
Proof.
  split.
  - destruct (typing_stop_idempotent_state Sample.sA
                (mkTypingRequest None true (Some "u3")) Sample.two) as (_ & _ & Hquiet & _).
    apply (Hquiet "u3"); [reflexivity | reflexivity | discriminate | |];
      vm_compute; reflexivity.
  - destruct (typing_stop_idempotent_state Sample.sA
                (mkTypingRequest None true (Some "u2")) Sample.two) as (_ & _ & _ & Hloud & _).
    apply (Hloud "u2"); [reflexivity | reflexivity | discriminate |].
    vm_compute. eexists. reflexivity.
Defined.

(** ** History on join *)


(** C9, at a failing input. The lobby holds 51 undeleted messages, posted
    at times 1 to 51. The snapshot sent to alice when she joins is newest
    first but holds the 50 oldest messages, those of times 50 down to 1:
    the most recent message is not in it. *)
Theorem join_snapshot_is_oldest_page :
  let out := snd (step 200 (JoinRoom "sA" (mkRoomRequest (Some "r1"))) Sample.busy) in
  messages (db Sample.busy) = Sample.post <$> seq 1 51
  ∧ emitted ERROR out = 0%nat
  ∧ snapshots out = [Sample.post <$> rev (seq 1 50)]
  ∧ snapshots out ≠ [Sample.post <$> rev (seq 2 50)].
Proof.
  cbv zeta. split; [| split; [| split]].
  - vm_compute. reflexivity.
  - vm_compute. reflexivity.
  - vm_compute. reflexivity.
  - vm_compute. discriminate.
Qed.

(** ** Failing operations *)

(** A failing [send_message] emits one [error], to the sender only, and
    leaves the transport and the three maps of the gateway as they were. *)
Lemma handleSendMessage_error socket data newId now w w' out :
  handleSendMessage socket data newId now w = (w', out) →
  emitted ERROR out ≠ 0%nat →
  (∃ p, out = [emit socket ERROR p])
  ∧ sockets w' = sockets w ∧ adapter w' = adapter w ∧ onlineUsers w' = onlineUsers w
  ∧ typingUsers w' = typingUsers w ∧ privateTyping w' = privateTyping w.
Proof.
  intros Hrun Herr. unfold handleSendMessage in Hrun.
  match type of Hrun with (if ?c then _ else _) = _ => destruct c end.
  { apply pair_equal_spec in Hrun as [<- <-]. repeat split; eauto. }
  match type of Hrun with
    match ?c with _ => _ end = _ => destruct c as [d1 [e | result]]
  end.
  { apply pair_equal_spec in Hrun as [<- <-]. unfold failure. repeat split; eauto. }
  destruct (MessageService.cr_success result); cbn [negb] in Hrun.
  2:{ apply pair_equal_spec in Hrun as [<- <-]. repeat split; eauto. }
  exfalso. apply Herr.
  destruct (typingUsers (set_db d1 w) !! default "" (sd_roomId data)) as [typingSet |];
    [destruct (decide (userId socket ∈ typingSet)) |];
    apply pair_equal_spec in Hrun as [<- <-]; reflexivity.
Qed.

(** C4, at failing inputs. (1) alice asks to join the public room ["r2"],
    of which she is not a member: the run ends with one [error] sent to
    her, but before that her socket has entered the room, her registry
    entry lists it, and bob, who is in the room, has received
    [user_joined]. (2) alice replies in the lobby to a message that does
    not exist: she gets one [error] and no message is stored, but the
    counters of the room have been incremented. *)
Theorem failed_operations_leave_traces :
  let join := step 9 (JoinRoom "sA" (mkRoomRequest (Some "r2"))) Sample.two in
  let send := step 9 (SendMessage "sA" Sample.orphanReply "m1") Sample.two in
  ((Room.isMember Sample.club "u1" = false)
   ∧ emitted ERROR (snd join) = 1%nat
   ∧ received (fst join) "sB" USER_JOINED (snd join) = 1%nat
   ∧ ("sA" ∉ in_room Sample.two "r2")
   ∧ ("sA" ∈ in_room (fst join) "r2")
   ∧ (ud_rooms <$> onlineUsers Sample.two !! "u1") = Some {["r1"]}
   ∧ (ud_rooms <$> onlineUsers (fst join) !! "u1") = Some {["r1"; "r2"]})
  ∧ (snd send = [emit Sample.sA ERROR
                   (PError "Failed to send message" (Some "Parent message not found"))]
     ∧ messages (db (fst send)) = []
     ∧ (messageCount <$> rooms (db Sample.two) !! "r1") = Some 0
     ∧ (messageCount <$> rooms (db (fst send)) !! "r1") = Some 1).
Proof.
  cbv zeta. split.
  - split; [reflexivity |]. split; [vm_compute; reflexivity |].
    split; [vm_compute; reflexivity |].
    split; [apply (bool_decide_eq_false_1 _); vm_compute; reflexivity |].
    split; [apply (bool_decide_eq_true_1 _); vm_compute; reflexivity |].
    split; vm_compute; reflexivity.
  - repeat split; vm_compute; reflexivity.
Qed.

(** * Further properties of the gateway *)

(** ** Conversation keys and private typing *)

(** The key of a private conversation does not depend on the order in which
    the two participants are given. *)
Theorem getConversationKey_sym a b : getConversationKey a b = getConversationKey b a.
Proof.
  unfold getConversationKey, Js.sort2, String.ltb.
  rewrite (String.compare_antisym a b).
  destruct (String.compare b a) eqn:Hcmp; cbn; try reflexivity.
  apply String.compare_eq_iff in Hcmp. subst. reflexivity.
Qed.

(** Both participants are named by the key, smaller one first, with a
    colon between them. *)
Lemma getConversationKey_cases a b :
  getConversationKey a b = a ++ ":" ++ b ∨ getConversationKey a b = b ++ ":" ++ a.
Proof.
  unfold getConversationKey, Js.sort2. destruct (String.ltb b a); cbn; auto.
Qed.

(** The two participants of a private conversation share one session
    slot: a [typing_start] stores the caller's session under the key of
    the conversation, the other participant's [typing_start] replaces it,
    and the other participant's [typing_stop] deletes it. *)
Theorem private_typing_shared_slot sU sV t1 t2 w :
  userId sU ≠ "" → userId sV ≠ "" →
  let toV := mkTypingRequest None true (Some (userId sV)) in
  let toU := mkTypingRequest None true (Some (userId sU)) in
  let key := getConversationKey (userId sU) (userId sV) in
  let w1 := fst (handleTypingStart sU toV t1 w) in
  privateTyping w1 = <[key := mkTypingData (userId sU) (ui_username (user sU)) t1]> (privateTyping w)
  ∧ privateTyping (fst (handleTypingStart sV toU t2 w1))
    = <[key := mkTypingData (userId sV) (ui_username (user sV)) t2]> (privateTyping w)
  ∧ privateTyping (fst (handleTypingStop sV toU w1)) = delete key (privateTyping w).
Proof.
  intros HU HV toV toU key w1.
  apply String.eqb_neq in HU, HV.
  assert (H1 : privateTyping w1
               = <[key := mkTypingData (userId sU) (ui_username (user sU)) t1]> (privateTyping w)).
  { subst w1. unfold handleTypingStart. cbn [ty_isPrivate ty_recipientId toV andb Js.truthy].
    rewrite HV. cbn [negb default from_option id].
    match goal with |- context [match ?o with _ => _ end] => destruct o end; reflexivity. }
  split; [exact H1 |]. split.
  - unfold handleTypingStart. cbn [ty_isPrivate ty_recipientId toU andb Js.truthy].
    rewrite HU. cbn [negb default from_option id].
    rewrite (getConversationKey_sym (userId sV) (userId sU)). fold key.
    match goal with |- context [match ?o with _ => _ end] => destruct o end;
      cbn; rewrite H1; apply insert_insert_eq.
  - unfold handleTypingStop. cbn [ty_isPrivate ty_recipientId toU andb Js.truthy].
    rewrite HU. cbn [negb default from_option id].
    rewrite (getConversationKey_sym (userId sV) (userId sU)). fold key.
    match goal with |- context [match ?o with _ => _ end] => destruct o end;
      cbn; rewrite H1; apply delete_insert_eq.
Qed.

(** alice starts typing to bob; bob's own start replaces her session and
    bob's stop would delete it. *)
Lemma private_typing_shared_slot_witness :
  let toB := mkTypingRequest None true (Some "u2") in
  let toA := mkTypingRequest None true (Some "u1") in
  let key := getConversationKey "u1" "u2" in
  let w1 := fst (handleTypingStart Sample.sA toB 5 Sample.two) in
  privateTyping w1 = <[key := mkTypingData "u1" "alice" 5]> (privateTyping Sample.two)
  ∧ privateTyping (fst (handleTypingStart Sample.sB toA 6 w1))
    = <[key := mkTypingData "u2" "bob" 6]> (privateTyping Sample.two)
  ∧ privateTyping (fst (handleTypingStop Sample.sB toA w1))
    = delete key (privateTyping Sample.two).
Proof.
  apply (private_typing_shared_slot Sample.sA Sample.sB 5 6 Sample.two); discriminate.
Defined.

(** ** Room typing *)

(** A [typing_start] for a room puts the caller in the typing set of that
    room, keeps everybody who was in it, leaves the other rooms alone, and
    is relayed exactly once to every other socket of the room and not to
    the caller's. *)
Theorem typing_start_room socket data roomId now w :
  ty_isPrivate data && Js.truthy (ty_recipientId data) = false →
  ty_roomId data = Some roomId → roomId ≠ "" →
  let w' := fst (handleTypingStart socket data now w) in
  let out := snd (handleTypingStart socket data now w) in
  typingUsers w' !! roomId = Some ({[userId socket]} ∪ default ∅ (typingUsers w !! roomId))
  ∧ (∀ other, other ≠ roomId → typingUsers w' !! other = typingUsers w !! other)
  ∧ (∀ t, received w' t TYPING_START out
          = if decide (t ∈ in_room w roomId ∧ t ≠ sock_id socket) then 1%nat else 0%nat).
Proof.
  intros Hpriv Hroom Hne w' out. subst w' out. unfold handleTypingStart.
  rewrite Hpriv, Hroom. cbn [Js.truthy default from_option id].
  apply String.eqb_neq in Hne. rewrite Hne. cbn [negb fst snd].
  split; [apply lookup_insert_eq |]. split.
  - intros other Hother. cbn. apply lookup_insert_ne. congruence.
  - intros t. rewrite received_cons, received_nil. unfold to_others.
    rewrite delivered_same_event. cbn [recipients].
    change (in_room (set_typingUsers ?f ?w0) roomId) with (in_room w0 roomId).
    destruct (decide (t ∈ in_room w roomId ∧ t ≠ sock_id socket)) as [[Hin Hneq] | Hno].
    + rewrite bool_decide_eq_true_2; [reflexivity |].
      apply elem_of_difference. split; [exact Hin | by apply not_elem_of_singleton].
    + rewrite bool_decide_eq_false_2; [reflexivity |].
      intros [Hin Hneq]%elem_of_difference. apply Hno. split; [exact Hin |].
      by apply not_elem_of_singleton in Hneq.
Qed.

(** bob starts typing in the lobby. *)
Lemma typing_start_room_witness :
  let data := mkTypingRequest (Some "r1") false None in
  let w' := fst (handleTypingStart Sample.sB data 7 Sample.three) in
  let out := snd (handleTypingStart Sample.sB data 7 Sample.three) in
  typingUsers w' !! "r1" = Some ({["u2"]} ∪ default ∅ (typingUsers Sample.three !! "r1"))
  ∧ (∀ other, other ≠ "r1" → typingUsers w' !! other = typingUsers Sample.three !! other)
  ∧ (∀ t, received w' t TYPING_START out
          = if decide (t ∈ in_room Sample.three "r1" ∧ t ≠ "sB") then 1%nat else 0%nat).
Proof.
  apply (typing_start_room Sample.sB (mkTypingRequest (Some "r1") false None) "r1" 7
           Sample.three); [reflexivity | reflexivity | discriminate].
Defined.

(** A [typing_start] for a room followed by the caller's [typing_stop]
    leaves the caller out of the typing set; when the caller was not
    typing there before (and the room did not hold a left-over empty set),
    the typing sets are back to what they were. *)
Theorem typing_start_stop_room socket data roomId now w :
  ty_isPrivate data && Js.truthy (ty_recipientId data) = false →
  ty_roomId data = Some roomId → roomId ≠ "" →
  let w2 := fst (handleTypingStop socket data (fst (handleTypingStart socket data now w))) in
  (userId socket ∉ default ∅ (typingUsers w2 !! roomId))
  ∧ (userId socket ∉ default ∅ (typingUsers w !! roomId) →
     typingUsers w !! roomId ≠ Some ∅ →
     typingUsers w2 = typingUsers w).
Proof.
  intros Hpriv Hroom Hne w2. subst w2.
  unfold handleTypingStart, handleTypingStop.
  rewrite Hpriv, Hroom. cbn [Js.truthy default from_option id].
  apply String.eqb_neq in Hne. rewrite Hne. cbn [negb fst].
  cbn [typingUsers set_typingUsers]. rewrite lookup_insert_eq.
  remember (default ∅ (typingUsers w !! roomId)) as S0 eqn:HS0.
  assert (Hback : userId socket ∉ S0 → ({[userId socket]} ∪ S0) ∖ {[userId socket]} = S0).
  { intros Hnot. apply set_eq. intros x.
    rewrite elem_of_difference, elem_of_union, elem_of_singleton.
    split; [intros [[-> | Hx] Hn]; [contradiction | exact Hx] |].
    intros Hx. split; [auto |]. intros ->. exact (Hnot Hx). }
  destruct (decide (size (({[userId socket]} ∪ S0) ∖ {[userId socket]}) = 0%nat)) as [Hz | Hnz];
    cbn [fst typingUsers set_typingUsers].
  - split.
    + rewrite lookup_delete_eq. cbn. apply not_elem_of_empty.
    + intros Hnot Hnonempty. rewrite delete_insert_eq. apply delete_id.
      rewrite (Hback Hnot) in Hz. apply size_empty_iff, leibniz_equiv in Hz.
      destruct (typingUsers w !! roomId) as [S1 |]; [exfalso | reflexivity].
      cbn in HS0. subst. exact (Hnonempty eq_refl).
  - split.
    + rewrite lookup_insert_eq. cbn.
      intros [_ Hn]%elem_of_difference. apply Hn. by apply elem_of_singleton.
    + intros Hnot Hnonempty. rewrite insert_insert_eq, (Hback Hnot).
      rewrite (Hback Hnot) in Hnz.
      destruct (typingUsers w !! roomId) as [S1 |] eqn:HS1.
      * cbn in HS0. subst S0. apply insert_id. exact HS1.
      * exfalso. apply Hnz. cbn in HS0. subst S0. apply size_empty.
Qed.

(** bob starts and stops typing in the lobby, where nobody was typing. *)
Lemma typing_start_stop_room_witness :
  let data := mkTypingRequest (Some "r1") false None in
  let w2 := fst (handleTypingStop Sample.sB data
                   (fst (handleTypingStart Sample.sB data 7 Sample.three))) in
  ("u2" ∉ default ∅ (typingUsers w2 !! "r1")) ∧ typingUsers w2 = typingUsers Sample.three.
Proof.
  destruct (typing_start_stop_room Sample.sB (mkTypingRequest (Some "r1") false None) "r1" 7
              Sample.three) as [Hout Hback]; [reflexivity | reflexivity | discriminate |].
  assert (Hnone : typingUsers Sample.three !! "r1" = None) by (vm_compute; reflexivity).
  split; [exact Hout |].
  apply Hback; rewrite Hnone; [apply not_elem_of_empty | discriminate].
Defined.

(** ** Cleanup and sweep *)

Lemma world_ext w1 w2 :
  sockets w1 = sockets w2 → adapter w1 = adapter w2 → onlineUsers w1 = onlineUsers w2 →
  typingUsers w1 = typingUsers w2 → privateTyping w1 = privateTyping w2 → db w1 = db w2 →
  w1 = w2.
Proof. destruct w1, w2. cbn. intros. subst. reflexivity. Qed.

Lemma cleanupUserData_typing_lookup uid sid w room :
  typingUsers (cleanupUserData uid sid w) !! room
  = typingUsers w !! room ≫= λ typingSet : gset string,
      if decide (uid ∈ typingSet)
      then (if decide (size (typingSet ∖ {[uid]}) = 0%nat)
            then None else Some (typingSet ∖ {[uid]}))
      else Some typingSet.
Proof.
  unfold cleanupUserData. cbn [typingUsers set_privateTyping set_typingUsers].
  rewrite lookup_omap. f_equal.
  destruct (onlineUsers w !! uid) as [d |]; [destruct (String.eqb _ _) |]; reflexivity.
Qed.

Lemma cleanupUserData_private_lookup uid sid w key td :
  privateTyping (cleanupUserData uid sid w) !! key = Some td
  ↔ privateTyping w !! key = Some td ∧ td_userId td ≠ uid.
Proof.
  unfold cleanupUserData. cbn [privateTyping set_privateTyping].
  rewrite map_lookup_filter_Some. cbn [snd].
  assert (privateTyping
            (set_typingUsers
               (omap (λ typingSet : gset string,
                        if decide (uid ∈ typingSet)
                        then (if decide (size (typingSet ∖ {[uid]}) = 0%nat)
                              then None else Some (typingSet ∖ {[uid]}))
                        else Some typingSet))
               match onlineUsers w !! uid with
               | Some userData =>
                   if String.eqb (socketId userData) sid
                   then set_onlineUsers (delete uid) w else w
               | None => w
               end) = privateTyping w) as ->; [| reflexivity].
  destruct (onlineUsers w !! uid) as [d |]; [destruct (String.eqb _ _) |]; reflexivity.
Qed.

Lemma cleanupUserData_transport uid sid w :
  sockets (cleanupUserData uid sid w) = sockets w
  ∧ adapter (cleanupUserData uid sid w) = adapter w
  ∧ db (cleanupUserData uid sid w) = db w.
Proof.
  unfold cleanupUserData. cbn.
  destruct (onlineUsers w !! uid) as [d |]; [destruct (String.eqb _ _) |];
    repeat split; reflexivity.
Qed.

(** Cleaning up after a socket is idempotent: a duplicate disconnect
    signal finds nothing left to remove. *)
Theorem cleanupUserData_idempotent uid sid w :
  cleanupUserData uid sid (cleanupUserData uid sid w) = cleanupUserData uid sid w.
Proof.
  destruct (cleanupUserData_transport uid sid (cleanupUserData uid sid w)) as (Hs & Ha & Hd).
  apply world_ext; try assumption.
  - rewrite (cleanupUserData_registry uid sid (cleanupUserData uid sid w)).
    rewrite (cleanupUserData_registry uid sid w).
    destruct (onlineUsers w !! uid) as [d |] eqn:Hd0.
    + destruct (String.eqb (socketId d) sid) eqn:Heq.
      * rewrite lookup_delete_eq. reflexivity.
      * rewrite Hd0, Heq. reflexivity.
    + rewrite Hd0. reflexivity.
  - apply map_eq. intros room.
    rewrite (cleanupUserData_typing_lookup uid sid (cleanupUserData uid sid w)).
    rewrite (cleanupUserData_typing_lookup uid sid w).
    destruct (typingUsers w !! room) as [S0 |]; cbn; [| reflexivity].
    destruct (decide (uid ∈ S0)) as [Hin | Hout].
    + destruct (decide (size (S0 ∖ {[uid]}) = 0%nat)); cbn; [reflexivity |].
      rewrite decide_False; [reflexivity |].
      intros [_ Hn]%elem_of_difference. apply Hn. by apply elem_of_singleton.
    + cbn. rewrite decide_False by exact Hout. reflexivity.
  - apply map_eq. intros key. apply option_eq. intros td.
    rewrite !cleanupUserData_private_lookup. tauto.
Qed.

(** Cleaning up after one user leaves every other user as they were: their
    registry entries, their membership of the room typing sets, and their
    private typing sessions. *)
Theorem cleanupUserData_others uid sid w other :
  other ≠ uid →
  let w' := cleanupUserData uid sid w in
  onlineUsers w' !! other = onlineUsers w !! other
  ∧ (∀ room, other ∈ default ∅ (typingUsers w' !! room)
             ↔ other ∈ default ∅ (typingUsers w !! room))
  ∧ (∀ key td, td_userId td = other →
               (privateTyping w' !! key = Some td ↔ privateTyping w !! key = Some td)).
Proof.
  intros Hne w'. subst w'. split; [| split].
  - rewrite cleanupUserData_registry.
    destruct (onlineUsers w !! uid) as [d |]; [| reflexivity].
    destruct (String.eqb (socketId d) sid); [| reflexivity].
    apply lookup_delete_ne. congruence.
  - intros room. rewrite cleanupUserData_typing_lookup.
    destruct (typingUsers w !! room) as [S0 |]; cbn; [| reflexivity].
    destruct (decide (uid ∈ S0)) as [Hin | Hout]; [| reflexivity].
    destruct (decide (size (S0 ∖ {[uid]}) = 0%nat)) as [Hz | Hnz]; cbn.
    + apply size_empty_iff, leibniz_equiv in Hz. split; [intros []%not_elem_of_empty |].
      intros Hin'. exfalso. apply (not_elem_of_empty (C := gset string) other).
      rewrite <- Hz. apply elem_of_difference. split; [exact Hin' |].
      by apply not_elem_of_singleton.
    + rewrite elem_of_difference, not_elem_of_singleton. tauto.
  - intros key td Htd. rewrite cleanupUserData_private_lookup. subst other. tauto.
Qed.

(** bob keeps his state when alice's socket is cleaned up. *)
Lemma cleanupUserData_others_witness :
  let w' := cleanupUserData "u1" "sA" Sample.three in
  onlineUsers w' !! "u2" = onlineUsers Sample.three !! "u2"
  ∧ (∀ room, "u2" ∈ default ∅ (typingUsers w' !! room)
             ↔ "u2" ∈ default ∅ (typingUsers Sample.three !! room))
  ∧ (∀ key td, td_userId td = "u2" →
               (privateTyping w' !! key = Some td
                ↔ privateTyping Sample.three !! key = Some td)).
Proof. apply (cleanupUserData_others "u1" "sA" Sample.three "u2"). discriminate. Defined.

(** The sweep never expires a room typing session: it only drops the
    rooms whose typing set is empty, so every user typing in a room before
    the sweep is still typing there after it, and no empty set is left. *)
Theorem sweep_keeps_room_typists now w :
  let w' := cleanupTypingIndicators now w in
  (∀ room u, u ∈ default ∅ (typingUsers w' !! room) ↔ u ∈ default ∅ (typingUsers w !! room))
  ∧ (∀ room typingSet, typingUsers w' !! room = Some typingSet → typingSet ≠ ∅)
  ∧ onlineUsers w' = onlineUsers w ∧ adapter w' = adapter w.
Proof.
  intros w'. subst w'. unfold cleanupTypingIndicators.
  cbn [typingUsers set_privateTyping set_typingUsers onlineUsers adapter].
  split; [| split; [| split; reflexivity]].
  - intros room u.
    destruct (typingUsers w !! room) as [S0 |] eqn:HS0.
    + destruct (decide (size S0 = 0%nat)) as [Hz | Hnz].
      * rewrite (proj2 (map_lookup_filter_None _ _ _)).
        -- apply size_empty_iff, leibniz_equiv in Hz. subst S0. reflexivity.
        -- right. intros S1 HS1. cbn. rewrite HS0 in HS1. injection HS1 as <-. tauto.
      * rewrite (map_lookup_filter_Some_2 _ _ room S0 HS0); [reflexivity | exact Hnz].
    + rewrite (proj2 (map_lookup_filter_None _ _ _)); [reflexivity |]. left. exact HS0.
  - intros room typingSet [_ Hsize]%map_lookup_filter_Some Hempty. cbn in Hsize.
    apply Hsize. subst typingSet. apply size_empty.
Qed.

(** ** Connecting *)

(** The loop of [handleConnection] adds exactly the listed rooms to the
    room set of the connecting user's entry and puts the socket in each of
    them. *)
Lemma joinOwnRoom_rooms socket now userRooms acc d :
  onlineUsers (fst acc) !! userId socket = Some d →
  let acc' := foldl (joinOwnRoom socket now) acc userRooms in
  (∃ d', onlineUsers (fst acc') !! userId socket = Some d'
         ∧ ∀ r, r ∈ ud_rooms d' ↔ r ∈ ud_rooms d ∨ r ∈ fst <$> userRooms)
  ∧ (∀ r, r ∈ fst <$> userRooms → sock_id socket ∈ in_room (fst acc') r)
  ∧ (∀ r, sock_id socket ∈ in_room (fst acc) r → sock_id socket ∈ in_room (fst acc') r).
Proof.
  revert acc d. induction userRooms as [| room userRooms IH]; intros acc d Hd; cbn.
  - split; [| split; [| auto]].
    + exists d. split; [exact Hd |]. intros r. rewrite elem_of_nil. tauto.
    + intros r []%elem_of_nil.
  - destruct (IH (joinOwnRoom socket now acc room)
                (mkUserData (socketId d) (ud_user d) (connectedAt d)
                            ({[fst room]} ∪ ud_rooms d) (lastActivity d)))
      as ((d' & Hd' & Hrooms) & Hin & Hkeep).
    { cbn. rewrite lookup_alter_eq, Hd. reflexivity. }
    assert (Hjoined : sock_id socket ∈ in_room (fst (joinOwnRoom socket now acc room))
                                               (fst room)).
    { cbn [joinOwnRoom fst].
      change (in_room (set_onlineUsers ?f ?w0) ?r) with (in_room w0 r).
      rewrite in_room_join, decide_True by reflexivity.
      apply elem_of_union_l. by apply elem_of_singleton. }
    split; [| split].
    + exists d'. split; [exact Hd' |]. intros r. rewrite Hrooms. cbn [ud_rooms].
      rewrite elem_of_union, elem_of_singleton, elem_of_cons. tauto.
    + intros r [-> | Hr]%elem_of_cons; [apply Hkeep, Hjoined | apply Hin, Hr].
    + intros r Hr. apply Hkeep. cbn [joinOwnRoom fst].
      change (in_room (set_onlineUsers ?f ?w0) ?r1) with (in_room w0 r1).
      rewrite in_room_join. case_decide; [apply elem_of_union_r |]; exact Hr.
Qed.

Lemma findActiveOf_spec uid d r :
  r ∈ fst <$> Room.findActiveOf uid d
  ↔ ∃ room, rooms d !! r = Some room
            ∧ Room.isMember room uid = true ∧ room_isActive room = true.
Proof.
  unfold Room.findActiveOf. rewrite list_elem_of_fmap. split.
  - intros ([r' room] & -> & Hin).
    apply list_elem_of_In, filter_In in Hin as [Hin Hok].
    apply list_elem_of_In, elem_of_map_to_list in Hin.
    apply andb_true_iff in Hok as [Hm Ha]. cbn in *. eauto.
  - intros (room & Hroom & Hm & Ha). exists (r, room). split; [reflexivity |].
    apply list_elem_of_In, filter_In. split.
    + apply list_elem_of_In, elem_of_map_to_list. exact Hroom.
    + cbn. rewrite Hm, Ha. reflexivity.
Qed.

(** When a socket connects, the room set of its user's new registry entry
    is exactly the set of active rooms of which the user is a persisted
    member, and the socket has been put in the socket.io room of each. *)
Theorem handleConnection_rooms socket now w :
  let w' := fst (handleConnection socket now w) in
  ∃ d, onlineUsers w' !! userId socket = Some d
       ∧ socketId d = sock_id socket
       ∧ (∀ r, r ∈ ud_rooms d
               ↔ ∃ room, rooms (db w) !! r = Some room
                         ∧ Room.isMember room (userId socket) = true
                         ∧ room_isActive room = true)
       ∧ (∀ r, r ∈ ud_rooms d → sock_id socket ∈ in_room w' r).
Proof.
  intros w'. subst w'. unfold handleConnection.
  match goal with
  | |- context [foldl ?f ?acc ?l] =>
      pose proof (joinOwnRoom_rooms socket now l acc
                    (mkUserData (sock_id socket) (user socket) now ∅ None)) as Hloop;
      pose proof (joinOwnRoom_registry socket now l acc) as [_ Hsid];
      destruct (foldl f acc l) as [w3 out] eqn:Hfold
  end.
  cbn [fst] in *.
  destruct Hloop as ((d' & Hd' & Hrooms) & Hin & _).
  { cbn. apply lookup_insert_eq. }
  destruct (Hsid (mkUserData (sock_id socket) (user socket) now ∅ None))
    as (d'' & Hd'' & Hsock & _).
  { cbn. apply lookup_insert_eq. }
  rewrite Hd' in Hd''. injection Hd'' as <-.
  exists d'. split; [exact Hd' |]. split; [exact Hsock |].
  assert (Hiff : ∀ r, r ∈ ud_rooms d'
                      ↔ ∃ room, rooms (db w) !! r = Some room
                                ∧ Room.isMember room (userId socket) = true
                                ∧ room_isActive room = true).
  { intros r. rewrite Hrooms. cbn [ud_rooms]. rewrite findActiveOf_spec. cbn.
    split; [intros [[]%not_elem_of_empty | H]; exact H | auto]. }
  split; [exact Hiff |].
  intros r Hr. apply Hin.
  apply Hrooms in Hr as [Hr | Hr]; [cbn in Hr; by apply not_elem_of_empty in Hr | exact Hr].
Qed.

Lemma registry_after_connection socket now w :
  (∃ d, onlineUsers (fst (handleConnection socket now w)) !! userId socket = Some d
        ∧ socketId d = sock_id socket)
  ∧ (∀ other, other ≠ userId socket →
              onlineUsers (fst (handleConnection socket now w)) !! other
              = onlineUsers w !! other).
Proof.
  unfold handleConnection.
  match goal with
  | |- context [foldl ?f ?acc ?l] =>
      pose proof (joinOwnRoom_registry socket now l acc) as [Ho Hs];
      destruct (foldl f acc l) as [w3 out] eqn:Hfold
  end.
  cbn [fst] in *. split.
  - destruct (Hs (mkUserData (sock_id socket) (user socket) now ∅ None))
      as (d' & Hd' & Hsid & _); [apply lookup_insert_eq | eauto].
  - intros other Hne. rewrite Ho by exact Hne. cbn. apply lookup_insert_ne. congruence.
Qed.

(** Registering a connection raises the number of online users by one for
    a user who had no entry and leaves it unchanged for a user who had
    one: reconnecting does not inflate the count. *)
Theorem handleConnection_count socket now w :
  getOnlineUsersCount (fst (handleConnection socket now w))
  = if isUserOnline (userId socket) w
    then getOnlineUsersCount w
    else S (getOnlineUsersCount w).
Proof.
  unfold getOnlineUsersCount, isUserOnline.
  assert (Hdom : dom (onlineUsers (fst (handleConnection socket now w)))
                 = {[userId socket]} ∪ dom (onlineUsers w)).
  { apply set_eq. intros u. rewrite elem_of_union, elem_of_singleton, !elem_of_dom.
    pose proof (registry_after_connection socket now w) as [Hnew Hother].
    destruct (decide (u = userId socket)) as [-> | Hne].
    - split; [auto |]. intros _. destruct Hnew as (d & -> & _). eauto.
    - rewrite (Hother u Hne). split; [auto | intros [? | ?]; [contradiction | assumption]]. }
  rewrite <- !size_dom, Hdom.
  destruct (bool_decide_reflect (is_Some (onlineUsers w !! userId socket))) as [Hon | Hoff].
  - f_equal. apply set_eq. intros u. rewrite elem_of_union, elem_of_singleton.
    split; [intros [-> | H]; [by apply elem_of_dom | exact H] | auto].
  - rewrite size_union.
    + rewrite size_singleton. reflexivity.
    + apply disjoint_singleton_l. rewrite elem_of_dom. exact Hoff.
Qed.

(** ** Joining and leaving a room *)

Lemma set_db_id w : set_db (db w) w = w.
Proof. destruct w; reflexivity. Qed.

(** On a populated room no reference prints as an id: nobody is found a
    member or an admin, and the creator test needs the creator's user
    document. *)
Lemma populate_ids_match d ids uid :
  existsb (RoomService.ref_is uid) (RoomService.populate_ids d ids) = false.
Proof.
  unfold RoomService.populate_ids. induction ids as [| id ids IH]; [reflexivity |].
  cbn. destruct (users d !! id); cbn; exact IH.
Qed.

Lemma populated_isMember d room uid :
  RoomService.isMember (RoomService.populate d room) uid = false.
Proof. apply populate_ids_match. Qed.



Lemma getRoomById_private roomId uid d room :
  rooms d !! roomId = Some room → room_type room = ROOM_PRIVATE → uid ≠ "" →
  ∃ e, RoomService.getRoomById roomId uid d = (d, inl e).
Proof.
  intros Hroom Hpriv Huid. unfold RoomService.getRoomById.
  unfold mbind, svc_mbind, svc_bind, find_or_throw, svc_read. rewrite Hroom.
  destruct (room_isActive room);
    cbn -[RoomService.populate RoomService.isMember RoomService.isAdmin
          RoomService.isCreator]; [| eauto].
  rewrite Hpriv, populated_isMember. apply String.eqb_neq in Huid. rewrite Huid. cbn. eauto.
Qed.


(** A private room admits nobody through [join_room], its members
    included: the membership test runs on the populated document. *)
Lemma join_room_private_refused socket data roomId room now w :
  rq_roomId data = Some roomId → roomId ≠ "" →
  rooms (db w) !! roomId = Some room →
  room_type room = ROOM_PRIVATE → userId socket ≠ "" →
  ∃ p, handleJoinRoom socket data now w = (w, [emit socket ERROR p]).
Proof.
  intros Hreq Hne Hroom Hpriv Huid. unfold handleJoinRoom. rewrite Hreq. cbn [Js.truthy].
  apply String.eqb_neq in Hne. rewrite Hne. cbn [negb default from_option id].
  destruct (getRoomById_private roomId (userId socket) (db w) room Hroom Hpriv Huid)
    as [e ->].
  rewrite set_db_id. unfold failure. eauto.
Qed.

(** A [join_room] without a room id, for an unknown or inactive room, or
    for a private room of which the requester is not a member is answered
    by one [error] to the requester; nothing else is emitted and nothing
    changes. *)
Theorem join_room_rejected socket data now w :
  (∀ roomId room,
     rq_roomId data = Some roomId → roomId ≠ "" →
     rooms (db w) !! roomId = Some room →
     room_isActive room = false
     ∨ (room_type room = ROOM_PRIVATE ∧ userId socket ≠ ""
        ∧ Room.isMember room (userId socket) = false)) →
  ∃ p, handleJoinRoom socket data now w = (w, [emit socket ERROR p]).
Proof.
  intros Hrej. unfold handleJoinRoom.
  destruct (rq_roomId data) as [roomId |] eqn:Hreq; [| cbn; eauto].
  cbn [Js.truthy]. destruct (String.eqb_spec roomId "") as [-> | Hne]; [cbn; eauto |].
  cbn [negb default from_option id].
  destruct (rooms (db w) !! roomId) as [room |] eqn:Hroom.
  2:{ unfold RoomService.getRoomById, mbind, svc_mbind, svc_bind, find_or_throw.
      rewrite Hroom, set_db_id. unfold failure. eauto. }
  destruct (Hrej roomId room eq_refl Hne Hroom) as [Hinactive | (Hpriv & Huid & Hmem)].
  - unfold RoomService.getRoomById, mbind, svc_mbind, svc_bind, find_or_throw, svc_read.
    rewrite Hroom, Hinactive. cbn -[RoomService.populate].
    rewrite set_db_id. unfold failure. eauto.
  - destruct (getRoomById_private roomId (userId socket) (db w) room Hroom Hpriv Huid)
      as [e ->].
    rewrite set_db_id. unfold failure. eauto.
Qed.

(** carol is not connected to the club, a room that does not exist. *)
Lemma join_room_rejected_witness :
  ∃ p, handleJoinRoom Sample.sA (mkRoomRequest (Some "nowhere")) 9 Sample.two
       = (Sample.two, [emit Sample.sA ERROR p]).
Proof.
  apply (join_room_rejected Sample.sA (mkRoomRequest (Some "nowhere")) 9 Sample.two).
  intros roomId room [= <-] _ Hroom. exfalso. vm_compute in Hroom. discriminate.
Defined.



Lemma emitted_all ev out :
  (∀ e, e ∈ out → event e = ev) → emitted ev out = length out.
Proof.
  induction out as [| e out IH]; intros Hall; [reflexivity |].
  rewrite emitted_cons, (Hall e) by (apply elem_of_cons; auto).
  rewrite String.eqb_refl. cbn. f_equal. apply IH.
  intros e' He'. apply Hall. apply elem_of_cons. auto.
Qed.

(** A [leave_room] without a room id or for a room that is not in the
    store is answered by one [error] to the requester; nothing else is
    emitted and nothing changes. *)
Theorem leave_room_rejected socket data now w :
  (∀ roomId, rq_roomId data = Some roomId → roomId ≠ "" → rooms (db w) !! roomId = None) →
  ∃ p, handleLeaveRoom socket data now w = (w, [emit socket ERROR p]).
Proof.
  intros Hrej. unfold handleLeaveRoom.
  destruct (rq_roomId data) as [roomId |] eqn:Hreq; [| cbn; eauto].
  cbn [Js.truthy]. destruct (String.eqb_spec roomId "") as [-> | Hne]; [cbn; eauto |].
  cbn [negb default from_option id]. rewrite (Hrej roomId eq_refl Hne). eauto.
Qed.

Lemma leave_room_rejected_witness :
  ∃ p, handleLeaveRoom Sample.sA (mkRoomRequest (Some "nowhere")) 9 Sample.two
       = (Sample.two, [emit Sample.sA ERROR p]).
Proof.
  apply (leave_room_rejected Sample.sA (mkRoomRequest (Some "nowhere")) 9 Sample.two).
  intros roomId [= <-] _. vm_compute. reflexivity.
Defined.

(** A [leave_room] for a room of the store, whether or not the socket was
    in it: afterwards the socket is not in the socket.io room, the room is
    not in the room set of the user's registry entry, and the user is not
    in the typing set of the room. [user_left] goes once to every other
    socket of the room and [room_left] once to the requester.
    [typing_stop] is emitted only when other users are still typing in the
    room after the leaver has been removed, and never when the leaver was
    the only one typing. *)
Theorem leave_room_effect socket data roomId room now w :
  sockets w !! sock_id socket = Some socket →
  rq_roomId data = Some roomId → roomId ≠ "" →
  rooms (db w) !! roomId = Some room →
  let w' := fst (handleLeaveRoom socket data now w) in
  let out := snd (handleLeaveRoom socket data now w) in
  (sock_id socket ∉ in_room w' roomId)
  ∧ (∀ d, onlineUsers w' !! userId socket = Some d → roomId ∉ ud_rooms d)
  ∧ (userId socket ∉ default ∅ (typingUsers w' !! roomId))
  ∧ (∀ t, received w' t USER_LEFT out
          = if decide (t ∈ in_room w roomId ∧ t ≠ sock_id socket) then 1%nat else 0%nat)
  ∧ received w' (sock_id socket) ROOM_LEFT out = 1%nat
  ∧ emitted ERROR out = 0%nat
  ∧ emitted TYPING_STOP out
    = match typingUsers w !! roomId with
      | Some typingSet =>
          if decide (size (typingSet ∖ {[userId socket]}) = 0%nat) then 0%nat else 1%nat
      | None => 0%nat
      end.
Proof.
  intros Hconn Hreq Hne Hroom w' out. subst w' out.
  unfold handleLeaveRoom. rewrite Hreq. cbn [Js.truthy].
  apply String.eqb_neq in Hne. rewrite Hne. cbn [negb default from_option id]. rewrite Hroom.
  set (w2 := set_onlineUsers _ (socket_leave (sock_id socket) roomId w)).
  assert (Hroom2 : ∀ w3, adapter w3 = adapter w2 →
                         in_room w3 roomId = in_room w roomId ∖ {[sock_id socket]}).
  { intros w3 Hw3. rewrite (in_room_transport (socket_leave (sock_id socket) roomId w))
      by (rewrite Hw3; reflexivity).
    rewrite (in_room_leave (λ _, True)). case_decide; [reflexivity | congruence]. }
  assert (Hreg2 : ∀ d, onlineUsers w2 !! userId socket = Some d → roomId ∉ ud_rooms d).
  { intros d. subst w2. cbn. rewrite lookup_alter_eq.
    destruct (onlineUsers w !! userId socket) as [d0 |]; cbn; [| discriminate].
    intros [= <-]. cbn. intros [_ Hn]%elem_of_difference. apply Hn. by apply elem_of_singleton. }
  assert (Hsock2 : sockets w2 = sockets w) by reflexivity.
  assert (Htyp2 : typingUsers w2 = typingUsers w) by reflexivity.
  assert (Hshape : ∀ w3 typing,
            adapter w3 = adapter w2 → sockets w3 = sockets w2 →
            onlineUsers w3 = onlineUsers w2 →
            (∀ e, e ∈ typing → event e = TYPING_STOP) →
            let out := (typing ++
                        [to_others socket roomId USER_LEFT
                           (PPresence (userId socket) (ui_username (user socket))
                                      (Some roomId) now);
                         emit socket ROOM_LEFT (PRoomLeft roomId now)])%list in
            (sock_id socket ∉ in_room w3 roomId)
            ∧ (∀ d, onlineUsers w3 !! userId socket = Some d → roomId ∉ ud_rooms d)
            ∧ (∀ t, received w3 t USER_LEFT out
                    = if decide (t ∈ in_room w roomId ∧ t ≠ sock_id socket)
                      then 1%nat else 0%nat)
            ∧ received w3 (sock_id socket) ROOM_LEFT out = 1%nat
            ∧ emitted ERROR out = 0%nat
            ∧ emitted TYPING_STOP out = length typing).
  { intros w3 typing Ha Hs Ho Htyping. cbn zeta.
    assert (Hnone : ∀ t ev, String.eqb TYPING_STOP ev = false →
                            received w3 t ev typing = 0%nat).
    { intros t ev Hev. apply received_none. intros e He. rewrite (Htyping e He). exact Hev. }
    split; [rewrite (Hroom2 w3 Ha); intros [_ Hn]%elem_of_difference; apply Hn;
            by apply elem_of_singleton |].
    split; [rewrite Ho; exact Hreg2 |].
    split; [| split; [| split]].
    - intros t. rewrite received_app, Hnone by reflexivity.
      rewrite !received_cons, received_nil. unfold to_others, emit.
      rewrite delivered_same_event, delivered_other_event by reflexivity.
      cbn [recipients]. rewrite (Hroom2 w3 Ha).
      destruct (decide (t ∈ in_room w roomId ∧ t ≠ sock_id socket)) as [[Ht Hneq] | Hno].
      + rewrite bool_decide_eq_true_2; [reflexivity |].
        apply elem_of_difference. split.
        * apply elem_of_difference. split; [exact Ht | by apply not_elem_of_singleton].
        * by apply not_elem_of_singleton.
      + rewrite bool_decide_eq_false_2; [reflexivity |].
        intros [[Ht Hneq]%elem_of_difference _]%elem_of_difference.
        apply Hno. split; [exact Ht | by apply not_elem_of_singleton in Hneq].
    - rewrite received_app, Hnone by reflexivity.
      rewrite !received_cons, received_nil. unfold to_others, emit.
      rewrite delivered_same_event, delivered_other_event by reflexivity.
      cbn [recipients]. rewrite Hs, Hsock2.
      rewrite decide_True by (apply elem_of_dom; eauto).
      rewrite bool_decide_eq_true_2 by (by apply elem_of_singleton). reflexivity.
    - rewrite emitted_app. rewrite (emitted_none ERROR typing); [reflexivity |].
      intros e He. rewrite (Htyping e He). reflexivity.
    - rewrite emitted_app. cbn. rewrite Nat.add_0_r. apply emitted_all. exact Htyping. }
  rewrite Htyp2.
  destruct (typingUsers w !! roomId) as [typingSet |] eqn:Htyping.
  - destruct (decide (size (typingSet ∖ {[userId socket]}) = 0%nat)) as [Hz | Hnz]; cbn [fst snd].
    + destruct (Hshape (set_typingUsers (delete roomId) w2) []) as (H1 & H2 & H3 & H4 & H5 & H6);
        try reflexivity; [intros e []%elem_of_nil |].
      repeat (split; [assumption |]). split; [| split; [| split; [| split]]]; try assumption.
      cbn. rewrite lookup_delete_eq. apply not_elem_of_empty.
    + destruct (Hshape (set_typingUsers (<[roomId := typingSet ∖ {[userId socket]}]>) w2)
                  [to_others socket roomId TYPING_STOP
                     (PTyping (userId socket) (ui_username (user socket)) (Some roomId) false)])
        as (H1 & H2 & H3 & H4 & H5 & H6); try reflexivity.
      { intros e ->%list_elem_of_singleton. reflexivity. }
      repeat (split; [assumption |]). split; [| split; [| split; [| split]]]; try assumption.
      cbn. rewrite lookup_insert_eq. cbn.
      intros [_ Hn]%elem_of_difference. apply Hn. by apply elem_of_singleton.
  - cbn [fst snd].
    destruct (Hshape w2 []) as (H1 & H2 & H3 & H4 & H5 & H6);
      try reflexivity; [intros e []%elem_of_nil |].
    repeat (split; [assumption |]). split; [| split; [| split; [| split]]]; try assumption.
    rewrite Htyp2, Htyping. apply not_elem_of_empty.
Qed.

(** bob, the only one typing in the lobby, leaves it: no [typing_stop]. *)
Lemma leave_room_effect_witness :
  let w0 := fst (handleTypingStart Sample.sB (mkTypingRequest (Some "r1") false None) 7
                   Sample.three) in
  let w' := fst (handleLeaveRoom Sample.sB (mkRoomRequest (Some "r1")) 9 w0) in
  let out := snd (handleLeaveRoom Sample.sB (mkRoomRequest (Some "r1")) 9 w0) in
  ("sB" ∉ in_room w' "r1")
  ∧ (∀ d, onlineUsers w' !! "u2" = Some d → "r1" ∉ ud_rooms d)
  ∧ ("u2" ∉ default ∅ (typingUsers w' !! "r1"))
  ∧ (∀ t, received w' t USER_LEFT out
          = if decide (t ∈ in_room w0 "r1" ∧ t ≠ "sB") then 1%nat else 0%nat)
  ∧ received w' "sB" ROOM_LEFT out = 1%nat
  ∧ emitted ERROR out = 0%nat
  ∧ emitted TYPING_STOP out = 0%nat.
Proof.
  pose proof (leave_room_effect Sample.sB (mkRoomRequest (Some "r1")) "r1" Sample.lobby 9
                (fst (handleTypingStart Sample.sB (mkTypingRequest (Some "r1") false None) 7
                        Sample.three))) as H.
  destruct H as (H1 & H2 & H3 & H4 & H5 & H6 & H7);
    [vm_compute; reflexivity | reflexivity | discriminate | vm_compute; reflexivity |].
  repeat (split; [assumption |]). rewrite H7. vm_compute. reflexivity.
Defined.

(** ** Sending *)

(** After a successful [send_message] the sender is not in the typing set
    of the room, and the implicit [typing_stop] is emitted exactly when
    the sender was in it. *)
Theorem send_message_clears_typing socket data newId now w w' out :
  handleSendMessage socket data newId now w = (w', out) →
  emitted ERROR out = 0%nat →
  ∃ roomId,
    sd_roomId data = Some roomId
    ∧ (userId socket ∉ default ∅ (typingUsers w' !! roomId))
    ∧ (∀ other, other ≠ userId socket →
                (other ∈ default ∅ (typingUsers w' !! roomId)
                 ↔ other ∈ default ∅ (typingUsers w !! roomId)))
    ∧ emitted TYPING_STOP out
      = if decide (userId socket ∈ default ∅ (typingUsers w !! roomId)) then 1%nat else 0%nat.
Proof.
  intros Hrun Hok. unfold handleSendMessage in Hrun.
  destruct (sd_roomId data) as [roomId |] eqn:Hroom; cycle 1.
  { cbn in Hrun. error_run Hrun Hok. }
  match type of Hrun with (if ?c then _ else _) = _ => destruct c end.
  { error_run Hrun Hok. }
  cbn [default from_option id] in Hrun.
  match type of Hrun with
    match ?c with _ => _ end = _ => destruct c as [d1 [e | result]]
  end.
  { error_run Hrun Hok. }
  destruct (MessageService.cr_success result); [| error_run Hrun Hok].
  cbn [negb] in Hrun. exists roomId. split; [reflexivity |].
  change (typingUsers (set_db d1 w)) with (typingUsers w) in Hrun.
  destruct (typingUsers w !! roomId) as [typingSet |] eqn:Htyping; cbn [default from_option id].
  - destruct (decide (userId socket ∈ typingSet)) as [Hin | Hout];
      apply pair_equal_spec in Hrun as [<- <-]; cbn [typingUsers set_typingUsers set_db].
    + rewrite lookup_insert_eq. cbn. split; [| split; [| reflexivity]].
      * intros [_ Hn]%elem_of_difference. apply Hn. by apply elem_of_singleton.
      * intros other Hne. rewrite elem_of_difference, not_elem_of_singleton. tauto.
    + rewrite Htyping. cbn. split; [exact Hout | split; [tauto | reflexivity]].
  - apply pair_equal_spec in Hrun as [<- <-]. cbn [typingUsers set_db]. rewrite Htyping. cbn.
    split; [apply not_elem_of_empty | split; [tauto |]].
    rewrite decide_False by apply not_elem_of_empty. reflexivity.
Qed.

(** bob sends a message to the lobby while he is typing there. *)
Lemma send_message_clears_typing_witness :
  let w0 := fst (handleTypingStart Sample.sB (mkTypingRequest (Some "r1") false None) 7
                   Sample.three) in
  let result := handleSendMessage Sample.sB Sample.hello "m1" 10 w0 in
  ∃ roomId,
    sd_roomId Sample.hello = Some roomId
    ∧ ("u2" ∉ default ∅ (typingUsers (fst result) !! roomId))
    ∧ (∀ other, other ≠ "u2" →
                (other ∈ default ∅ (typingUsers (fst result) !! roomId)
                 ↔ other ∈ default ∅ (typingUsers w0 !! roomId)))
    ∧ emitted TYPING_STOP (snd result)
      = if decide ("u2" ∈ default ∅ (typingUsers w0 !! roomId)) then 1%nat else 0%nat.
Proof.
  apply (send_message_clears_typing Sample.sB Sample.hello "m1" 10);
    [apply surjective_pairing | vm_compute; reflexivity].
Defined.

(** A private message addressed to the sender's own user id is refused by
    the handler before the store is consulted: one [error], no change. *)
Theorem private_message_to_self socket data newId now w :
  pd_recipientId data = Some (userId socket) →
  ∃ p, handleSendPrivateMessage socket data newId now w = (w, [emit socket ERROR p]).
Proof.
  intros Hself. unfold handleSendPrivateMessage. rewrite Hself.
  match goal with |- context [if ?c then _ else _] => destruct c end; [eauto |].
  cbn [default from_option id]. rewrite String.eqb_refl. eauto.
Qed.

Lemma private_message_to_self_witness :
  ∃ p, handleSendPrivateMessage Sample.sA (Sample.whisper "u1") "m1" 10 Sample.two
       = (Sample.two, [emit Sample.sA ERROR p]).
Proof.
  apply (private_message_to_self Sample.sA (Sample.whisper "u1") "m1" 10 Sample.two).
  reflexivity.
Defined.

Lemma private_message_outcome socket data newId now w w' out :
  handleSendPrivateMessage socket data newId now w = (w', out) →
  (emitted ERROR out = 0%nat →
   ∃ recipientId,
     pd_recipientId data = Some recipientId
     ∧ privateTyping w' = delete (getConversationKey (userId socket) recipientId)
                                 (privateTyping w))
  ∧ (emitted ERROR out ≠ 0%nat →
     (∃ p, out = [emit socket ERROR p])
     ∧ sockets w' = sockets w ∧ adapter w' = adapter w ∧ onlineUsers w' = onlineUsers w
     ∧ typingUsers w' = typingUsers w ∧ privateTyping w' = privateTyping w).
Proof.
  intros Hrun. unfold handleSendPrivateMessage in Hrun.
  assert (Hfail : ∀ p, (w', out) = (w, [emit socket ERROR p]) ∨
                       (∃ d1, (w', out) = (set_db d1 w, [emit socket ERROR p])) →
            (emitted ERROR out = 0%nat →
             ∃ recipientId,
               pd_recipientId data = Some recipientId
               ∧ privateTyping w' = delete (getConversationKey (userId socket) recipientId)
                                           (privateTyping w))
            ∧ (emitted ERROR out ≠ 0%nat →
               (∃ p, out = [emit socket ERROR p])
               ∧ sockets w' = sockets w ∧ adapter w' = adapter w
               ∧ onlineUsers w' = onlineUsers w
               ∧ typingUsers w' = typingUsers w ∧ privateTyping w' = privateTyping w)).
  { intros p [Heq | [d1 Heq]]; apply pair_equal_spec in Heq as [-> ->];
      (split; [intros Hok; discriminate Hok | intros _; repeat split; eauto]). }
  match type of Hrun with (if ?c then _ else _) = _ => destruct c end.
  { eapply Hfail. left. symmetry. exact Hrun. }
  destruct (pd_recipientId data) as [recipientId |] eqn:Hrcp; cbn [default from_option id] in Hrun.
  2:{ destruct (String.eqb "" (userId socket)); [eapply Hfail; left; symmetry; exact Hrun |].
      match type of Hrun with
        match ?c with _ => _ end = _ => destruct c as [d1 [e | result]] eqn:Hcreate
      end; [eapply Hfail; right; eexists; symmetry; exact Hrun |].
      exfalso. unfold MessageService.createMessage in Hcreate.
      apply svc_bind_inr in Hcreate as (? & [] & _ & Hcreate).
      apply svc_bind_inr in Hcreate as (? & senderUser & _ & Hcreate).
      apply svc_bind_inr in Hcreate as (? & [] & Hcheck & _).
      cbn in Hcheck. discriminate Hcheck. }
  destruct (String.eqb recipientId (userId socket)).
  { eapply Hfail. left. symmetry. exact Hrun. }
  match type of Hrun with
    match ?c with _ => _ end = _ => destruct c as [d1 [e | result]]
  end.
  { eapply Hfail. right. eexists. symmetry. exact Hrun. }
  destruct (MessageService.cr_success result); cbn [negb] in Hrun.
  2:{ eapply Hfail. right. eexists. symmetry. exact Hrun. }
  change (privateTyping (set_db d1 w)) with (privateTyping w) in Hrun.
  change (onlineUsers (set_db d1 w)) with (onlineUsers w) in Hrun.
  assert (Hnoerr : emitted ERROR out = 0%nat
                   ∧ privateTyping w' = delete (getConversationKey (userId socket) recipientId)
                                               (privateTyping w)).
  { destruct (privateTyping w !! getConversationKey (userId socket) recipientId) eqn:Hkey;
      apply pair_equal_spec in Hrun as [<- <-];
      (split; [destruct (onlineUsers w !! recipientId); reflexivity |]).
    - reflexivity.
    - cbn. symmetry. apply delete_id. exact Hkey. }
  destruct Hnoerr as [Hnoerr Hdel].
  split; [intros _; eauto | intros Herr; contradiction].
Qed.

(** After a successful private message no typing session is left under the
    key of the conversation, whichever participant had started it, and the
    other conversations keep theirs. *)
Theorem private_message_clears_typing socket data newId now w w' out :
  handleSendPrivateMessage socket data newId now w = (w', out) →
  emitted ERROR out = 0%nat →
  ∃ recipientId,
    pd_recipientId data = Some recipientId
    ∧ privateTyping w' = delete (getConversationKey (userId socket) recipientId)
                                (privateTyping w).
Proof.
  intros Hrun. apply (private_message_outcome _ _ _ _ _ _ _ Hrun).
Qed.

(** alice whispers to bob after bob has started typing to her: bob's
    session, stored under the shared key, is gone. *)
Lemma private_message_clears_typing_witness :
  let w0 := fst (handleTypingStart Sample.sB (mkTypingRequest None true (Some "u1")) 7
                   Sample.two) in
  let result := handleSendPrivateMessage Sample.sA (Sample.whisper "u2") "m1" 10 w0 in
  privateTyping w0 !! getConversationKey "u1" "u2" = Some (mkTypingData "u2" "bob" 7)
  ∧ ∃ recipientId,
      pd_recipientId (Sample.whisper "u2") = Some recipientId
      ∧ privateTyping (fst result)
        = delete (getConversationKey "u1" recipientId) (privateTyping w0).
Proof.
  split; [vm_compute; reflexivity |].
  apply (private_message_clears_typing Sample.sA (Sample.whisper "u2") "m1" 10 _ _
           (snd (handleSendPrivateMessage Sample.sA (Sample.whisper "u2") "m1" 10
                   (fst (handleTypingStart Sample.sB (mkTypingRequest None true (Some "u1")) 7
                           Sample.two)))));
    [apply surjective_pairing | vm_compute; reflexivity].
Defined.

(** A failed private message emits one [error], to the sender only, and
    leaves the transport and the three maps of the gateway as they were. *)
Theorem private_message_error socket data newId now w w' out :
  handleSendPrivateMessage socket data newId now w = (w', out) →
  emitted ERROR out ≠ 0%nat →
  (∃ p, out = [emit socket ERROR p])
  ∧ sockets w' = sockets w ∧ adapter w' = adapter w ∧ onlineUsers w' = onlineUsers w
  ∧ typingUsers w' = typingUsers w ∧ privateTyping w' = privateTyping w.
Proof.
  intros Hrun. apply (private_message_outcome _ _ _ _ _ _ _ Hrun).
Qed.

(** alice whispers to a user the store does not know. *)
Lemma private_message_error_witness :
  let result := handleSendPrivateMessage Sample.sA (Sample.whisper "u9") "m1" 10 Sample.two in
  (∃ p, snd result = [emit Sample.sA ERROR p])
  ∧ sockets (fst result) = sockets Sample.two
  ∧ adapter (fst result) = adapter Sample.two
  ∧ onlineUsers (fst result) = onlineUsers Sample.two
  ∧ typingUsers (fst result) = typingUsers Sample.two
  ∧ privateTyping (fst result) = privateTyping Sample.two.
Proof.
  apply (private_message_error Sample.sA (Sample.whisper "u9") "m1" 10 Sample.two
           (fst (handleSendPrivateMessage Sample.sA (Sample.whisper "u9") "m1" 10 Sample.two))
           (snd (handleSendPrivateMessage Sample.sA (Sample.whisper "u9") "m1" 10 Sample.two)));
    [apply surjective_pairing | vm_compute; discriminate].
Defined.

(** ** Pagination *)

Lemma ceil_div_spec total limit :
  0 ≤ total → 1 ≤ limit →
  (MessageService.ceil_div total limit - 1) * limit < total
  ∧ total ≤ MessageService.ceil_div total limit * limit.
Proof.
  intros Ht Hl. unfold MessageService.ceil_div.
  pose proof (Z.div_mod (total + limit - 1) limit ltac:(lia)) as Hdiv.
  pose proof (Z.mod_pos_bound (total + limit - 1) limit ltac:(lia)) as Hmod.
  nia.
Qed.

Lemma sortByCreatedAt_perm descending ms :
  MessageService.sortByCreatedAt descending ms ≡ₚ ms.
Proof. destruct descending; apply merge_sort_Permutation. Qed.

Lemma sortByCreatedAt_length descending ms :
  length (MessageService.sortByCreatedAt descending ms) = length ms.
Proof. apply Permutation_length, sortByCreatedAt_perm. Qed.

(** The bookkeeping of a page agrees with the slice it carries: the slice
    is as long as the matching documents beyond the skipped ones allow,
    up to [limit]; [hasNext] holds exactly when documents remain beyond
    the page; [totalPages] is the least number of pages that hold all of
    them. *)
Theorem findWithPagination_bookkeeping query page limit descending d :
  1 ≤ page → 1 ≤ limit →
  let result := MessageService.findWithPagination query page limit descending d in
  let total := Z.of_nat (length (List.filter query (messages d))) in
  Z.of_nat (length (fst result)) = Z.min limit (Z.max 0 (total - (page - 1) * limit))
  ∧ (MessageService.hasNext (snd result) = true ↔ page * limit < total)
  ∧ (MessageService.totalPages (snd result) - 1) * limit < total
  ∧ total ≤ MessageService.totalPages (snd result) * limit.
Proof.
  intros Hp Hl. cbv zeta. unfold MessageService.findWithPagination. cbn.
  pose proof (ceil_div_spec (Z.of_nat (length (List.filter query (messages d)))) limit
                ltac:(lia) Hl) as [Hlo Hhi].
  split; [| split; [| split; assumption]].
  - rewrite length_take, length_drop, sortByCreatedAt_length. nia.
  - rewrite Z.ltb_lt. split; intros H; nia.
Qed.

Lemma findWithPagination_bookkeeping_witness :
  let result := MessageService.findWithPagination (λ _, true) 3 20 false (db Sample.busy) in
  let total := Z.of_nat (length (List.filter (λ _, true) (messages (db Sample.busy)))) in
  Z.of_nat (length (fst result)) = Z.min 20 (Z.max 0 (total - (3 - 1) * 20))
  ∧ (MessageService.hasNext (snd result) = true ↔ 3 * 20 < total)
  ∧ (MessageService.totalPages (snd result) - 1) * 20 < total
  ∧ total ≤ MessageService.totalPages (snd result) * 20.
Proof.
  apply (findWithPagination_bookkeeping (λ _, true) 3 20 false (db Sample.busy)); lia.
Defined.

Lemma chunks_take {A} (xs : list A) (l n : nat) :
  concat ((λ p, take l (drop ((p - 1) * l) xs)) <$> seq 1 n) = take (n * l) xs.
Proof.
  induction n as [| n IH]; [reflexivity |].
  rewrite seq_S, fmap_app, concat_app, IH. cbn [fmap list_fmap concat].
  rewrite app_nil_r. replace (1 + n - 1)%nat with n by lia.
  rewrite take_take_drop. f_equal. lia.
Qed.

Lemma model_pages_tile query limit descending d :
  1 ≤ limit →
  let pages :=
    Z.to_nat (MessageService.totalPages
                (snd (MessageService.findWithPagination query 1 limit descending d))) in
  concat ((λ p, fst (MessageService.findWithPagination query (Z.of_nat p) limit descending d))
            <$> seq 1 pages)
  = MessageService.sortByCreatedAt descending (List.filter query (messages d)).
Proof.
  intros Hl. cbv zeta. unfold MessageService.findWithPagination. cbn.
  pose proof (ceil_div_spec (Z.of_nat (length (List.filter query (messages d)))) limit
                ltac:(lia) Hl) as [Hlo Hhi].
  set (sorted := MessageService.sortByCreatedAt descending (List.filter query (messages d))).
  set (n := Z.to_nat (MessageService.ceil_div _ limit)) in *.
  transitivity (concat ((λ p, take (Z.to_nat limit) (drop ((p - 1) * Z.to_nat limit) sorted))
                          <$> seq 1 n)).
  { f_equal. apply list_fmap_ext. intros i p _. f_equal. f_equal. nia. }
  rewrite chunks_take. apply take_ge. unfold sorted. rewrite sortByCreatedAt_length.
  subst n. nia.
Qed.

Lemma older_first_total : Total MessageService.older_first.
Proof. intros m1 m2. unfold MessageService.older_first. lia. Qed.

Lemma newer_first_total : Total MessageService.newer_first.
Proof. intros m1 m2. unfold MessageService.newer_first. lia. Qed.

Lemma keyOrder_trans descending : Transitive (Query.keyOrder descending).
Proof.
  destruct descending; intros m1 m2 m3;
    unfold Query.keyOrder, MessageService.newer_first, MessageService.older_first; lia.
Qed.

(** The model's sort is one of the answers the store may give. *)
Lemma sortByCreatedAt_sorted descending found :
  Query.sorted descending found (MessageService.sortByCreatedAt descending found).
Proof.
  split; [apply sortByCreatedAt_perm |].
  pose proof older_first_total. pose proof newer_first_total.
  destruct descending; apply Sorted_merge_sort; assumption.
Qed.

Lemma findWithPagination_page query pageNum limit descending d :
  Query.page query pageNum limit descending d
             (fst (MessageService.findWithPagination query pageNum limit descending d)).
Proof. eexists. split; [apply sortByCreatedAt_sorted | reflexivity]. Qed.

Lemma NoDup_key_inj {A B} (f : A → B) (l : list A) x y :
  NoDup (f <$> l) → x ∈ l → y ∈ l → f x = f y → x = y.
Proof.
  induction l as [| a l IH]; intros Hnd Hx Hy Hf; [by apply elem_of_nil in Hx |].
  cbn in Hnd. apply NoDup_cons in Hnd as [Ha Hnd].
  apply elem_of_cons in Hx as [-> | Hx]; apply elem_of_cons in Hy as [-> | Hy].
  - reflexivity.
  - exfalso. apply Ha. rewrite Hf. apply list_elem_of_fmap. eauto.
  - exfalso. apply Ha. rewrite <- Hf. apply list_elem_of_fmap. eauto.
  - by apply IH.
Qed.

(** When the matching documents have pairwise different [createdAt], the
    sorted query has one answer. *)
Lemma sorted_unique descending found r1 r2 :
  NoDup (msg_createdAt <$> found) →
  Query.sorted descending found r1 → Query.sorted descending found r2 → r1 = r2.
Proof.
  intros Hnd [Hp1 Hs1] [Hp2 Hs2].
  pose proof (keyOrder_trans descending) as Htrans.
  apply (Sorted_unique_strong (Query.keyOrder descending)); try assumption.
  - intros x1 x2 Hx1 Hx2 H12 H21. rewrite Hp1 in Hx1. rewrite Hp2 in Hx2.
    apply (NoDup_key_inj msg_createdAt found); try assumption.
    destruct descending;
      unfold Query.keyOrder, MessageService.newer_first, MessageService.older_first in *; lia.
  - by rewrite Hp1, Hp2.
Qed.

(** Whatever answers the store gives to the query of each page, when the
    matching documents have pairwise different [createdAt], pages 1 to
    [totalPages], one after the other, are the matching documents in key
    order: no document is skipped or repeated between two pages. *)
Theorem findWithPagination_pages_tile query limit descending d
    (pages : nat → list MessageDoc) :
  1 ≤ limit →
  NoDup (msg_createdAt <$> List.filter query (messages d)) →
  (∀ p, Query.page query (Z.of_nat p) limit descending d (pages p)) →
  let n :=
    Z.to_nat (MessageService.totalPages
                (snd (MessageService.findWithPagination query 1 limit descending d))) in
  Query.sorted descending (List.filter query (messages d)) (concat (pages <$> seq 1 n)).
Proof.
  intros Hl Hnd Hpages n.
  assert (Hsame : ∀ p, pages p
            = fst (MessageService.findWithPagination query (Z.of_nat p) limit descending d)).
  { intros p. destruct (Hpages p) as (result & Hsorted & ->).
    rewrite (sorted_unique descending _ result _ Hnd Hsorted (sortByCreatedAt_sorted _ _)).
    reflexivity. }
  assert (Hfmap : pages <$> seq 1 n
            = (λ p, fst (MessageService.findWithPagination query (Z.of_nat p) limit
                           descending d)) <$> seq 1 n).
  { apply list_fmap_ext. intros i p _. apply Hsame. }
  rewrite Hfmap.
  subst n. rewrite (model_pages_tile query limit descending d Hl).
  apply sortByCreatedAt_sorted.
Qed.

(** The 51 messages of the busy lobby, 20 to a page, newest first. *)
Lemma findWithPagination_pages_tile_witness :
  let pages p :=
    fst (MessageService.findWithPagination (λ _, true) (Z.of_nat p) 20 true (db Sample.busy)) in
  Query.sorted true (List.filter (λ _, true) (messages (db Sample.busy)))
               (concat (pages <$> seq 1 3)).
Proof.
  apply (findWithPagination_pages_tile (λ _, true) 20 true (db Sample.busy)
           (λ p, fst (MessageService.findWithPagination (λ _, true) (Z.of_nat p) 20 true
                        (db Sample.busy)))).
  - lia.
  - apply (bool_decide_unpack _). vm_compute. reflexivity.
  - intros p. apply findWithPagination_page.
Defined.

(** With equal [createdAt] the pages need not tile: two messages posted
    at the same time, one to a page; the store may answer the query of
    page 1 with one order and that of page 2 with the other, and the
    same message is then on both pages. *)
Example pages_with_ties_repeat :
  let m1 := mkMessageDoc "m1" "u1" (Some "r1") None "a" "text" false false None 5 in
  let m2 := mkMessageDoc "m2" "u1" (Some "r1") None "b" "text" false false None 5 in
  let d := mkDb ∅ ∅ [m1; m2] in
  Query.page (λ _, true) 1 1 false d [m1]
  ∧ Query.page (λ _, true) 2 1 false d [m1].
Proof.
  cbv zeta. split.
  - exists [mkMessageDoc "m1" "u1" (Some "r1") None "a" "text" false false None 5;
            mkMessageDoc "m2" "u1" (Some "r1") None "b" "text" false false None 5].
    split; [split; [reflexivity |] | reflexivity].
    apply Sorted_cons; [apply Sorted_cons; [apply Sorted_nil | apply HdRel_nil] |].
    apply HdRel_cons. unfold Query.keyOrder, MessageService.older_first. cbn. lia.
  - exists [mkMessageDoc "m2" "u1" (Some "r1") None "b" "text" false false None 5;
            mkMessageDoc "m1" "u1" (Some "r1") None "a" "text" false false None 5].
    split; [split; [apply Permutation_swap |] | reflexivity].
    apply Sorted_cons; [apply Sorted_cons; [apply Sorted_nil | apply HdRel_nil] |].
    apply HdRel_cons. unfold Query.keyOrder, MessageService.older_first. cbn. lia.
Qed.

(** ** Room history *)

Lemma Sorted_drop {A} (R : relation A) n l : Sorted R l → Sorted R (drop n l).
Proof.
  revert l. induction n as [| n IH]; intros l Hl; [exact Hl |].
  destruct l as [| x l]; [constructor |]. cbn. apply IH. by inversion Hl.
Qed.

Lemma Sorted_take {A} (R : relation A) n l : Sorted R l → Sorted R (take n l).
Proof.
  revert n. induction l as [| x l IH]; intros n Hl; [by destruct n |].
  destruct n as [| n]; [constructor |]. cbn. inversion Hl as [| ? ? Hs Hh]; subst.
  constructor; [by apply IH |].
  destruct l as [| y l]; [destruct n; constructor |]. destruct n; cbn; [constructor |].
  constructor. by inversion Hh.
Qed.

Lemma rev_is_reverse {A} (l : list A) : rev l = reverse l.
Proof. apply rev_alt. Qed.

Lemma opt_eqb_true a b : MessageService.opt_eqb a b = true → a = Some b.
Proof.
  destruct a as [x |]; cbn; [| discriminate].
  intros H. apply String.eqb_eq in H. by subst.
Qed.

(** A page of room history goes to members of an existing room only and
    leaves the store alone; it holds at most [MAX_PAGE_SIZE] messages,
    whatever limit was asked for, all of them stored, undeleted messages
    of that room; and it is ordered oldest first with or without a
    [before] bound. *)
Theorem getRoomMessages_page roomId uid o d d' page :
  MessageService.getRoomMessages roomId uid o d = (d', inr page) →
  d' = d
  ∧ (∃ room, rooms d !! roomId = Some room ∧ Room.isMember room uid = true)
  ∧ Z.of_nat (length (MessageService.pg_messages page)) ≤ MAX_PAGE_SIZE
  ∧ (∀ m, m ∈ MessageService.pg_messages page →
          m ∈ messages d ∧ msg_room m = Some roomId ∧ msg_isDeleted m = false)
  ∧ Sorted MessageService.older_first (MessageService.pg_messages page).
Proof.
  intros Hrun.
  assert (d' = d) as ->.
  { pose proof (getRoomMessages_reads roomId uid o d) as Hk. rewrite Hrun in Hk.
    symmetry. exact Hk. }
  split; [reflexivity |].
  unfold MessageService.getRoomMessages in Hrun.
  apply svc_bind_inr in Hrun as (d1 & room & Hfind & Hrun).
  apply find_or_throw_inr in Hfind as [Hroom ->].
  apply svc_bind_inr in Hrun as (d2 & [] & Hmem & Hrun).
  destruct (Room.isMember room uid) eqn:Hmember; [| discriminate Hmem].
  injection Hmem as <-.
  apply svc_bind_inr in Hrun as (d3 & result & Hread & Hrun).
  injection Hread as <- <-. injection Hrun as <-.
  split; [eauto |]. cbn [MessageService.pg_messages].
  unfold MessageService.findWithPagination. cbn [fst].
  set (limitNum := Z.min MAX_PAGE_SIZE (Z.max 1 (MessageService.po_limit o))).
  set (found := List.filter (MessageService.roomQuery roomId o) (messages d)).
  set (skip := Z.to_nat ((Z.max 1 (MessageService.po_page o) - 1) * limitNum)).
  assert (Hfound : ∀ m, m ∈ found →
            m ∈ messages d ∧ msg_room m = Some roomId ∧ msg_isDeleted m = false).
  { intros m Hm. apply list_elem_of_In, filter_In in Hm as [Hin Hq].
    unfold MessageService.roomQuery in Hq.
    apply andb_true_iff in Hq as [Hq _]. apply andb_true_iff in Hq as [Hr Hdel].
    split; [by apply list_elem_of_In |]. split; [by apply opt_eqb_true |].
    by apply negb_true_iff. }
  assert (Hslice : ∀ desc m,
            m ∈ take (Z.to_nat limitNum)
                     (drop skip (MessageService.sortByCreatedAt desc found)) → m ∈ found).
  { intros desc m Hm. apply elem_of_take in Hm as (i & Hi & _).
    rewrite lookup_drop in Hi. apply list_elem_of_lookup_2 in Hi.
    by rewrite sortByCreatedAt_perm in Hi. }
  split; [| split].
  - assert (Hlen : ∀ l : list MessageDoc,
              Z.of_nat (length (take (Z.to_nat limitNum) l)) ≤ MAX_PAGE_SIZE).
    { intros l. rewrite length_take. unfold limitNum, MAX_PAGE_SIZE. lia. }
    destruct (bool_decide _); [rewrite length_rev |]; apply Hlen.
  - intros m Hm. apply Hfound.
    destruct (bool_decide _).
    + apply (Hslice true). apply list_elem_of_In, in_rev, list_elem_of_In in Hm. exact Hm.
    + apply (Hslice false). exact Hm.
  - pose proof older_first_total as Holder. pose proof newer_first_total as Hnewer.
    destruct (bool_decide _); cbn [MessageService.sortByCreatedAt].
    + rewrite rev_is_reverse.
      apply (Sorted_reverse MessageService.newer_first).
      apply Sorted_take, Sorted_drop, Sorted_merge_sort. apply _.
    + apply Sorted_take, Sorted_drop, Sorted_merge_sort. apply _.
Qed.

(** alice asks for a page of 500 lobby messages older than time 40. *)
Lemma getRoomMessages_page_witness :
  let o := MessageService.mkPageOpts 1 500 (Some 40) None in
  ∃ page,
    MessageService.getRoomMessages "r1" "u1" o (db Sample.busy) = (db Sample.busy, inr page)
    ∧ Z.of_nat (length (MessageService.pg_messages page)) ≤ MAX_PAGE_SIZE
    ∧ (∀ m, m ∈ MessageService.pg_messages page →
            m ∈ messages (db Sample.busy) ∧ msg_room m = Some "r1" ∧ msg_isDeleted m = false)
    ∧ Sorted MessageService.older_first (MessageService.pg_messages page).
Proof.
  destruct (MessageService.getRoomMessages "r1" "u1"
              (MessageService.mkPageOpts 1 500 (Some 40) None) (db Sample.busy))
    as [d' [e | page]] eqn:Hrun; [vm_compute in Hrun; discriminate Hrun |].
  destruct (getRoomMessages_page _ _ _ _ _ _ Hrun) as (-> & _ & Hlen & Hin & Hsorted).
  exists page. repeat split; try assumption; apply Hin; assumption.
Defined.

(** History is refused, with the store untouched, exactly when the room
    does not exist (404) or the caller is not one of its members (403):
    the room's type plays no part. *)
Theorem getRoomMessages_refused roomId uid o d :
  (∀ room, rooms d !! roomId = Some room → Room.isMember room uid = false) →
  ∃ e, MessageService.getRoomMessages roomId uid o d = (d, inl e)
       ∧ err_status e = match rooms d !! roomId with Some _ => 403 | None => 404 end.
Proof.
  intros Hout. unfold MessageService.getRoomMessages.
  unfold mbind, svc_mbind, svc_bind, find_or_throw.
  destruct (rooms d !! roomId) as [room |] eqn:Hroom; [| eauto].
  rewrite (Hout room eq_refl). cbn. eauto.
Qed.

(** carol, who is not a member of the club, asks for its history. *)
Lemma getRoomMessages_refused_witness :
  ∃ e, MessageService.getRoomMessages "r2" "u3" MessageService.defaults Sample.store
       = (Sample.store, inl e)
       ∧ err_status e = match rooms Sample.store !! "r2" with Some _ => 403 | None => 404 end.
Proof.
  apply (getRoomMessages_refused "r2" "u3" MessageService.defaults Sample.store).
  intros room Hroom. vm_compute in Hroom. injection Hroom as <-. reflexivity.
Defined.

(** ** Creating a message *)

Lemma svc_bind_inl {A B} (m : Svc A) (k : A → Svc B) d d' e :
  (m ≫= k) d = (d', inl e) →
  m d = (d', inl e) ∨ ∃ d1 a, m d = (d1, inr a) ∧ k a d1 = (d', inl e).
Proof.
  unfold mbind, svc_mbind, svc_bind.
  destruct (m d) as [d1 [e1 | a]]; [intros [= <- <-]; by left | eauto].
Qed.

Lemma throw_if_inr c msg status d d' u :
  throw_if c msg status d = (d', inr u) → c = false ∧ d' = d.
Proof. destruct c; cbn; [discriminate | intros [= <-]; auto]. Qed.

Lemma keeps_eq_run {A} (m : Svc A) d d' x : keeps eq m → m d = (d', x) → d' = d.
Proof. intros Hk Hrun. specialize (Hk d). rewrite Hrun in Hk. symmetry. exact Hk. Qed.

Lemma validateMessageInput_reads content type replyTo :
  keeps eq (MessageService.validateMessageInput content type replyTo).
Proof.
  unfold MessageService.validateMessageInput. keeps_steps (@eq_refl Db) (@eq_trans Db).
Qed.

Lemma checkRecipient_reads a senderUser :
  keeps eq (MessageService.checkRecipient a senderUser).
Proof.
  unfold MessageService.checkRecipient. keeps_steps (@eq_refl Db) (@eq_trans Db).
Qed.

Lemma checkReply_reads a : keeps eq (MessageService.checkReply a).
Proof.
  unfold MessageService.checkReply. destruct (Js.truthy _);
    keeps_steps (@eq_refl Db) (@eq_trans Db).
Qed.

Lemma truthy_Some x : Js.truthy x = true → ∃ s, x = Some s ∧ s ≠ "".
Proof.
  destruct x as [s |]; cbn; [| discriminate]. intros H. exists s. split; [reflexivity |].
  intros ->. discriminate H.
Qed.

Lemma str_mem_In x l : str_mem x l = true ↔ x ∈ l.
Proof.
  unfold str_mem. rewrite existsb_exists. split.
  - intros (y & Hy & Heq). apply String.eqb_eq in Heq as ->. by apply list_elem_of_In.
  - intros Hx. exists x. split; [by apply list_elem_of_In | apply String.eqb_refl].
Qed.

Lemma createMessage_private_failure a newId now d d' e :
  MessageService.ca_isPrivate a = true →
  MessageService.createMessage a newId now d = (d', inl e) →
  d' = d.
Proof.
  intros Hpriv H. unfold MessageService.createMessage in H.
  rewrite Hpriv in H. cbn [negb] in H.
  apply svc_bind_inl in H as [H | (d1 & [] & H1 & H)].
  { exact (keeps_eq_run _ _ _ _ (validateMessageInput_reads _ _ _) H). }
  apply (keeps_eq_run _ _ _ _ (validateMessageInput_reads _ _ _)) in H1 as ->.
  apply svc_bind_inl in H as [H | (d2 & senderUser & H2 & H)].
  { unfold find_or_throw in H. destruct (users d !! _); by injection H. }
  apply find_or_throw_inr in H2 as [_ ->].
  apply svc_bind_inl in H as [H | (d3 & [] & H3 & H)].
  { exact (keeps_eq_run _ _ _ _ (checkRecipient_reads _ _) H). }
  apply (keeps_eq_run _ _ _ _ (checkRecipient_reads _ _)) in H3 as ->.
  apply svc_bind_inl in H as [H | (d4 & reply & H4 & H)].
  { exact (keeps_eq_run _ _ _ _ (checkReply_reads _) H). }
  apply svc_bind_inl in H as [H | (d5 & [] & _ & H)]; discriminate H.
Qed.

(** A private message that is refused leaves the store exactly as it was:
    every check of the private path comes before the only write. *)
Theorem createMessage_private_atomic a newId now d d' e :
  MessageService.ca_isPrivate a = true →
  MessageService.createMessage a newId now d = (d', inl e) →
  d' = d.
Proof. exact (createMessage_private_failure a newId now d d' e). Qed.

(** alice writes to a user the store does not know. *)
Lemma createMessage_private_atomic_witness :
  ∃ e, MessageService.createMessage
         (MessageService.mkCreateArgs "u1" None (Some "u9") "psst" "text" true None)
         "m1" 10 Sample.store = (Sample.store, inl e).
Proof.
  destruct (MessageService.createMessage
              (MessageService.mkCreateArgs "u1" None (Some "u9") "psst" "text" true None)
              "m1" 10 Sample.store) as [d' [e | result]] eqn:Hrun;
    [| vm_compute in Hrun; discriminate Hrun].
  exists e. f_equal.
  eapply createMessage_private_atomic; [| exact Hrun]. reflexivity.
Defined.

Lemma checkRoom_inr a now d d' u :
  MessageService.checkRoom a now d = (d', inr u) →
  ∃ roomId room,
    MessageService.ca_room a = Some roomId ∧ roomId ≠ ""
    ∧ rooms d !! roomId = Some room
    ∧ room_isActive room = true
    ∧ Room.isMember room (MessageService.ca_sender a) = true
    ∧ (muteAll room = true → Room.isAdmin room (MessageService.ca_sender a) = true)
    ∧ d' = set_rooms (<[roomId := Room.incrementMessageCount now room]>) d.
Proof.
  unfold MessageService.checkRoom. intros H.
  apply svc_bind_inr in H as (d1 & [] & H1 & H). apply throw_if_inr in H1 as [Hroom ->].
  apply negb_false_iff, truthy_Some in Hroom as (roomId & Hroom & Hne).
  rewrite Hroom in H. cbn [default from_option id] in H.
  apply svc_bind_inr in H as (d1 & room & H1 & H). apply find_or_throw_inr in H1 as [Hdoc ->].
  apply svc_bind_inr in H as (d1 & [] & H1 & H). apply throw_if_inr in H1 as [Hact ->].
  apply svc_bind_inr in H as (d1 & [] & H1 & H). apply throw_if_inr in H1 as [Hmem ->].
  apply svc_bind_inr in H as (d1 & [] & H1 & H). apply throw_if_inr in H1 as [Hmute ->].
  injection H as <-. exists roomId, room.
  apply negb_false_iff in Hact, Hmem.
  repeat split; try assumption.
  intros Hm. rewrite Hm in Hmute. cbn in Hmute. by apply negb_false_iff in Hmute.
Qed.

Lemma checkRecipient_inr a senderUser d d' u :
  MessageService.checkRecipient a senderUser d = (d', inr u) →
  ∃ recipient recipientUser,
    MessageService.ca_recipient a = Some recipient ∧ recipient ≠ ""
    ∧ recipient ≠ MessageService.ca_sender a
    ∧ users d !! recipient = Some recipientUser
    ∧ User.hasBlocked recipientUser (MessageService.ca_sender a) = false
    ∧ User.hasBlocked senderUser recipient = false
    ∧ d' = d.
Proof.
  unfold MessageService.checkRecipient. intros H.
  apply svc_bind_inr in H as (d1 & [] & H1 & H). apply throw_if_inr in H1 as [Hrcp ->].
  apply negb_false_iff, truthy_Some in Hrcp as (recipient & Hrcp & Hne).
  rewrite Hrcp in H. cbn [default from_option id] in H.
  apply svc_bind_inr in H as (d1 & [] & H1 & H). apply throw_if_inr in H1 as [Hself ->].
  apply svc_bind_inr in H as (d1 & ru & H1 & H). apply find_or_throw_inr in H1 as [Hdoc ->].
  apply svc_bind_inr in H as (d1 & [] & H1 & H). apply throw_if_inr in H1 as [Hb1 ->].
  apply throw_if_inr in H as [Hb2 ->].
  exists recipient, ru. repeat split; try assumption.
  intros ->. by rewrite String.eqb_refl in Hself.
Qed.

(** A room message is stored only for a sender the store knows who is a
    member of an existing, active room, and an admin of it if the room is
    muted; storing it appends the document to the collection and bumps
    the counters of that room, touching nothing else. *)
Theorem createMessage_room_authorized a newId now d d' result :
  MessageService.ca_isPrivate a = false →
  MessageService.createMessage a newId now d = (d', inr result) →
  ∃ roomId room,
    MessageService.ca_room a = Some roomId ∧ roomId ≠ ""
    ∧ is_Some (users d !! MessageService.ca_sender a)
    ∧ rooms d !! roomId = Some room
    ∧ room_isActive room = true
    ∧ Room.isMember room (MessageService.ca_sender a) = true
    ∧ (muteAll room = true → Room.isAdmin room (MessageService.ca_sender a) = true)
    ∧ users d' = users d
    ∧ rooms d' = <[roomId := Room.incrementMessageCount now room]> (rooms d)
    ∧ messages d' = (messages d ++ [MessageService.cr_doc result])%list
    ∧ msg_room (MessageService.cr_doc result) = Some roomId
    ∧ msg_recipient (MessageService.cr_doc result) = None.
Proof.
  intros Hpriv H. unfold MessageService.createMessage in H.
  rewrite Hpriv in H. cbn [negb] in H.
  apply svc_bind_inr in H as (d1 & [] & H1 & H).
  apply (keeps_eq_run _ _ _ _ (validateMessageInput_reads _ _ _)) in H1 as ->.
  apply svc_bind_inr in H as (d1 & senderUser & H1 & H).
  apply find_or_throw_inr in H1 as [Hsender ->].
  apply svc_bind_inr in H as (d1 & [] & Hcheck & H).
  apply checkRoom_inr in Hcheck
    as (roomId & room & Hroom & Hne & Hdoc & Hact & Hmem & Hmute & ->).
  apply svc_bind_inr in H as (d1 & reply & H1 & H).
  apply (keeps_eq_run _ _ _ _ (checkReply_reads _)) in H1 as ->.
  apply svc_bind_inr in H as (d1 & [] & H1 & H).
  injection H1 as <-. injection H as <- <-.
  exists roomId, room. cbn. repeat split; try assumption; eauto.
Qed.

(** bob posts to the muted club, which he created. *)
Lemma createMessage_room_authorized_witness :
  let quiet := mkRoomDoc "club" "public" "u2" ["u2"] [] true true 0 0 0 in
  let d := mkDb Sample.people (<["r2" := quiet]> ∅) [] in
  let a := MessageService.mkCreateArgs "u2" (Some "r2") None "hi" "text" false None in
  ∃ d' result,
    MessageService.createMessage a "m1" 10 d = (d', inr result)
    ∧ rooms d' = <["r2" := Room.incrementMessageCount 10 quiet]> (rooms d)
    ∧ messages d' = [MessageService.cr_doc result].
Proof.
  cbv zeta.
  destruct (MessageService.createMessage
              (MessageService.mkCreateArgs "u2" (Some "r2") None "hi" "text" false None)
              "m1" 10
              (mkDb Sample.people
                    (<["r2" := mkRoomDoc "club" "public" "u2" ["u2"] [] true true 0 0 0]> ∅)
                    [])) as [d' [e | result]] eqn:Hrun;
    [vm_compute in Hrun; discriminate Hrun |].
  exists d', result. split; [reflexivity |].
  edestruct createMessage_room_authorized
    as (roomId & room & Hroom & _ & _ & Hdoc & _ & _ & _ & _ & Hrooms & Hmsgs & _);
    [| exact Hrun |]; [reflexivity |].
  injection Hroom as <-. cbn in Hdoc. rewrite lookup_insert_eq in Hdoc.
  injection Hdoc as <-. split; [exact Hrooms | exact Hmsgs].
Defined.

Lemma createMessage_private_inr a newId now d d' result :
  MessageService.ca_isPrivate a = true →
  MessageService.createMessage a newId now d = (d', inr result) →
  ∃ recipient senderUser recipientUser,
    MessageService.ca_recipient a = Some recipient
    ∧ recipient ≠ MessageService.ca_sender a
    ∧ users d !! MessageService.ca_sender a = Some senderUser
    ∧ users d !! recipient = Some recipientUser
    ∧ User.hasBlocked recipientUser (MessageService.ca_sender a) = false
    ∧ User.hasBlocked senderUser recipient = false
    ∧ users d' = users d ∧ rooms d' = rooms d
    ∧ messages d' = (messages d ++ [MessageService.cr_doc result])%list
    ∧ msg_isPrivate (MessageService.cr_doc result) = true
    ∧ msg_sender (MessageService.cr_doc result) = MessageService.ca_sender a
    ∧ msg_recipient (MessageService.cr_doc result) = Some recipient
    ∧ msg_room (MessageService.cr_doc result) = None
    ∧ msg_createdAt (MessageService.cr_doc result) = now
    ∧ msg_isDeleted (MessageService.cr_doc result) = false.
Proof.
  intros Hpriv H. unfold MessageService.createMessage in H.
  rewrite Hpriv in H. cbn [negb] in H.
  apply svc_bind_inr in H as (d1 & [] & H1 & H).
  apply (keeps_eq_run _ _ _ _ (validateMessageInput_reads _ _ _)) in H1 as ->.
  apply svc_bind_inr in H as (d1 & senderUser & H1 & H).
  apply find_or_throw_inr in H1 as [Hsender ->].
  apply svc_bind_inr in H as (d1 & [] & Hcheck & H).
  apply checkRecipient_inr in Hcheck
    as (recipient & ru & Hrcp & Hne & Hself & Hdoc & Hb1 & Hb2 & ->).
  apply svc_bind_inr in H as (d1 & reply & H1 & H).
  apply (keeps_eq_run _ _ _ _ (checkReply_reads _)) in H1 as ->.
  apply svc_bind_inr in H as (d1 & [] & H1 & H).
  injection H1 as <-. injection H as <- <-.
  exists recipient, senderUser, ru. cbn. repeat split; assumption.
Qed.

(** A private message is stored only between two different users the
    store knows, neither of whom has blocked the other; storing it
    appends the document and touches neither users nor rooms. *)
Theorem createMessage_private_authorized a newId now d d' result :
  MessageService.ca_isPrivate a = true →
  MessageService.createMessage a newId now d = (d', inr result) →
  ∃ recipient senderUser recipientUser,
    MessageService.ca_recipient a = Some recipient
    ∧ recipient ≠ MessageService.ca_sender a
    ∧ users d !! MessageService.ca_sender a = Some senderUser
    ∧ users d !! recipient = Some recipientUser
    ∧ User.hasBlocked recipientUser (MessageService.ca_sender a) = false
    ∧ User.hasBlocked senderUser recipient = false
    ∧ users d' = users d ∧ rooms d' = rooms d
    ∧ messages d' = (messages d ++ [MessageService.cr_doc result])%list
    ∧ msg_isPrivate (MessageService.cr_doc result) = true
    ∧ msg_sender (MessageService.cr_doc result) = MessageService.ca_sender a
    ∧ msg_recipient (MessageService.cr_doc result) = Some recipient
    ∧ msg_room (MessageService.cr_doc result) = None
    ∧ msg_createdAt (MessageService.cr_doc result) = now
    ∧ msg_isDeleted (MessageService.cr_doc result) = false.
Proof. exact (createMessage_private_inr a newId now d d' result). Qed.

Lemma createMessage_private_authorized_witness :
  let a := MessageService.mkCreateArgs "u1" None (Some "u2") "psst" "text" true None in
  ∃ d' result,
    MessageService.createMessage a "m1" 10 Sample.store = (d', inr result)
    ∧ users d' = users Sample.store ∧ rooms d' = rooms Sample.store
    ∧ messages d' = [MessageService.cr_doc result].
Proof.
  cbv zeta.
  destruct (MessageService.createMessage
              (MessageService.mkCreateArgs "u1" None (Some "u2") "psst" "text" true None)
              "m1" 10 Sample.store) as [d' [e | result]] eqn:Hrun;
    [vm_compute in Hrun; discriminate Hrun |].
  exists d', result. split; [reflexivity |].
  edestruct createMessage_private_authorized
    as (recipient & su & ru & _ & _ & _ & _ & _ & _ & Hu & Hr & Hm & _);
    [| exact Hrun |]; [reflexivity |].
  repeat split; assumption.
Defined.

(** *** What is stored *)

Lemma string_length_rev_app s1 s2 :
  String.length (String.rev_app s1 s2) = (String.length s1 + String.length s2)%nat.
Proof.
  revert s2. induction s1 as [| c s1 IH]; intros s2; cbn; [reflexivity |].
  rewrite IH. cbn. lia.
Qed.

Lemma string_length_rev s : String.length (String.rev s) = String.length s.
Proof. unfold String.rev. rewrite string_length_rev_app. cbn. lia. Qed.

Lemma trim_start_length s : (String.length (Js.trim_start s) ≤ String.length s)%nat.
Proof.
  induction s as [| c s IH]; cbn; [lia |].
  destruct (Js.is_space c); cbn; lia.
Qed.

Lemma trim_length s : (String.length (Js.trim s) ≤ String.length s)%nat.
Proof.
  unfold Js.trim. rewrite string_length_rev.
  etransitivity; [apply trim_start_length |].
  rewrite string_length_rev. apply trim_start_length.
Qed.

(** Whatever the path, the document a successful [createMessage] stores
    carries the trimmed content, which is not empty and no longer than
    [MESSAGE_MAX_LENGTH]; its type is one of [MESSAGE_TYPES]; it is not
    deleted; and a reply names a stored, undeleted parent. *)
Theorem createMessage_stored_content a newId now d d' result :
  MessageService.createMessage a newId now d = (d', inr result) →
  let doc := MessageService.cr_doc result in
  msg_content doc = Js.trim (MessageService.ca_content a)
  ∧ msg_content doc ≠ ""
  ∧ (String.length (msg_content doc) ≤ MESSAGE_MAX_LENGTH)%nat
  ∧ msg_type doc ∈ MESSAGE_TYPES
  ∧ msg_isDeleted doc = false
  ∧ (∀ parentId, msg_replyTo doc = Some parentId →
       ∃ parent, parent ∈ messages d ∧ msg_id parent = parentId
                 ∧ msg_isDeleted parent = false).
Proof.
  intros H. unfold MessageService.createMessage in H.
  apply svc_bind_inr in H as (d1 & [] & Hval & H).
  apply svc_bind_inr in H as (d2 & senderUser & Hsender & H).
  apply find_or_throw_inr in Hsender as [_ ->].
  apply svc_bind_inr in H as (d3 & [] & Hcheck & H).
  apply svc_bind_inr in H as (d4 & reply & Hreply & H).
  apply svc_bind_inr in H as (d5 & [] & _ & H).
  injection H as _ <-. cbn.
  unfold MessageService.validateMessageInput in Hval.
  apply throw_if_inr in Hval as [Hval ->].
  apply orb_false_iff in Hval as [Hcontent Htype].
  apply orb_false_iff in Hcontent as [Hcontent Hlong].
  apply orb_false_iff in Hcontent as [_ Hblank].
  apply Nat.eqb_neq in Hblank. apply Nat.ltb_ge in Hlong.
  apply negb_false_iff, str_mem_In in Htype.
  split; [reflexivity |]. split; [| split; [| split; [| split]]].
  - intros Hempty. rewrite Hempty in Hblank. by apply Hblank.
  - etransitivity; [apply trim_length | exact Hlong].
  - exact Htype.
  - reflexivity.
  - intros parentId Hparent.
    unfold MessageService.checkReply in Hreply.
    destruct (Js.truthy (MessageService.ca_replyTo a)) eqn:Htruthy; [| discriminate Hparent].
    apply truthy_Some in Htruthy as (p & Hp & _).
    rewrite Hp in Hreply, Hparent. injection Hparent as ->.
    cbn [default from_option id] in Hreply.
    apply svc_bind_inr in Hreply as (d6 & parent & Hfind & Hreply).
    apply find_or_throw_inr in Hfind as [Hfind ->].
    apply svc_bind_inr in Hreply as (d6 & [] & Hdel & _).
    apply throw_if_inr in Hdel as [Hdel _].
    unfold findMessage in Hfind. apply find_some in Hfind as [Hin Hid].
    apply String.eqb_eq in Hid. exists parent.
    split; [| split; assumption].
    apply list_elem_of_In.
    destruct (MessageService.ca_isPrivate a); cbn [negb] in Hcheck.
    + apply (keeps_eq_run _ _ _ _ (checkRecipient_reads _ _)) in Hcheck as ->. exact Hin.
    + apply checkRoom_inr in Hcheck as (? & ? & _ & _ & _ & _ & _ & _ & ->). exact Hin.
Qed.

Lemma createMessage_stored_content_witness :
  let a := MessageService.mkCreateArgs "u1" (Some "r1") None "  hello  " "text" false None in
  ∃ d' result,
    MessageService.createMessage a "m1" 10 Sample.store = (d', inr result)
    ∧ msg_content (MessageService.cr_doc result) = "hello"
    ∧ msg_type (MessageService.cr_doc result) ∈ MESSAGE_TYPES.
Proof.
  cbv zeta.
  destruct (MessageService.createMessage
              (MessageService.mkCreateArgs "u1" (Some "r1") None "  hello  " "text" false None)
              "m1" 10 Sample.store) as [d' [e | result]] eqn:Hrun;
    [vm_compute in Hrun; discriminate Hrun |].
  exists d', result. split; [reflexivity |].
  destruct (createMessage_stored_content _ _ _ _ _ _ Hrun) as (Hc & _ & _ & Ht & _).
  split; [rewrite Hc; reflexivity | exact Ht].
Defined.

(** ** Editing and deleting *)

(** Whoever may edit a message may delete it, admin or not. *)
Theorem canUserEdit_canUserDelete m uid now isAdmin :
  Message.canUserEdit m uid now = true → Message.canUserDelete m uid isAdmin = true.
Proof.
  unfold Message.canUserEdit, Message.canUserDelete.
  destruct (String.eqb (msg_sender m) uid); cbn; [| discriminate].
  destruct (msg_isDeleted m); [discriminate | reflexivity].
Qed.

Lemma canUserEdit_canUserDelete_witness :
  Message.canUserDelete (Sample.post 3) "u1" false = true.
Proof.
  apply (canUserEdit_canUserDelete (Sample.post 3) "u1" 50 false). reflexivity.
Defined.

(** The sender of a message that has just been stored can edit it for
    fifteen minutes, the last millisecond included, unless it is a system
    message; nobody else can, and nobody can afterwards. *)
Theorem created_message_edit_window a newId now d d' result uid t :
  MessageService.createMessage a newId now d = (d', inr result) →
  MessageService.ca_type a ≠ "system" →
  now ≤ t →
  Message.canUserEdit (MessageService.cr_doc result) uid t
  = bool_decide (uid = MessageService.ca_sender a ∧ t ≤ now + Message.EDIT_WINDOW).
Proof.
  intros H Htype Hnow. unfold MessageService.createMessage in H.
  apply svc_bind_inr in H as (d1 & [] & _ & H).
  apply svc_bind_inr in H as (d2 & senderUser & _ & H).
  apply svc_bind_inr in H as (d3 & [] & _ & H).
  apply svc_bind_inr in H as (d4 & reply & _ & H).
  apply svc_bind_inr in H as (d5 & [] & _ & H).
  injection H as _ <-. unfold Message.canUserEdit. cbn.
  destruct (String.eqb_spec (MessageService.ca_sender a) uid) as [<- | Hne]; cbn.
  2:{ symmetry. apply bool_decide_eq_false_2. intros [-> _]. by apply Hne. }
  destruct (String.eqb_spec (MessageService.ca_type a) "system") as [Hsys | _];
    [contradiction |].
  destruct (Z.ltb_spec now (t - Message.EDIT_WINDOW)).
  - symmetry. apply bool_decide_eq_false_2. intros [_ Hle]. lia.
  - symmetry. apply bool_decide_eq_true_2. split; [reflexivity | lia].
Qed.

(** alice's message of time 10 at the last millisecond of its window. *)
Lemma created_message_edit_window_witness :
  let a := MessageService.mkCreateArgs "u1" (Some "r1") None "hi" "text" false None in
  ∃ d' result,
    MessageService.createMessage a "m1" 10 Sample.store = (d', inr result)
    ∧ Message.canUserEdit (MessageService.cr_doc result) "u1" 900010 = true
    ∧ Message.canUserEdit (MessageService.cr_doc result) "u1" 900011 = false.
Proof.
  cbv zeta.
  destruct (MessageService.createMessage
              (MessageService.mkCreateArgs "u1" (Some "r1") None "hi" "text" false None)
              "m1" 10 Sample.store) as [d' [e | result]] eqn:Hrun;
    [vm_compute in Hrun; discriminate Hrun |].
  exists d', result. split; [reflexivity |].
  split.
  - rewrite (created_message_edit_window _ _ _ _ _ _ "u1" 900010 Hrun);
      [reflexivity | discriminate | lia].
  - rewrite (created_message_edit_window _ _ _ _ _ _ "u1" 900011 Hrun);
      [reflexivity | discriminate | lia].
Defined.

(** ** Blocking *)

Lemma hasBlocked_blockUser u target v :
  User.hasBlocked (AuthService.blockUser u target) v
  = User.hasBlocked u v || String.eqb v target.
Proof.
  unfold AuthService.blockUser, User.hasBlocked.
  destruct (str_mem target (blockedUsers u)) eqn:Hold; cbn.
  - destruct (String.eqb_spec v target) as [-> | _]; [| by rewrite orb_false_r].
    by rewrite Hold.
  - unfold str_mem. rewrite existsb_app. cbn. by rewrite orb_false_r.
Qed.

Lemma hasBlocked_unblockUser u target v :
  User.hasBlocked (AuthService.unblockUser u target) v
  = User.hasBlocked u v && negb (String.eqb v target).
Proof.
  unfold AuthService.unblockUser, User.hasBlocked, str_mem. cbn.
  induction (blockedUsers u) as [| b l IH]; [reflexivity |]. cbn.
  destruct (String.eqb_spec b target) as [-> | Hb]; cbn.
  - rewrite IH. destruct (String.eqb_spec v target) as [-> | Hv]; cbn.
    + by rewrite !andb_false_r.
    + by rewrite !andb_true_r.
  - rewrite IH. destruct (String.eqb_spec v b) as [-> | Hv]; cbn; [| reflexivity].
    destruct (String.eqb_spec b target); [contradiction | reflexivity].
Qed.

(** [toggleUserBlock] succeeds exactly for two different users the store
    knows. It then rewrites the caller's document only: the caller has
    the target blocked or not as asked, every other entry of the block
    list stands, and the target's own list is not touched, so a block is
    one-directional in the store. *)
Theorem toggleUserBlock_effect uid target block d user :
  uid ≠ target →
  users d !! uid = Some user →
  is_Some (users d !! target) →
  ∃ d' result user',
    AuthService.toggleUserBlock uid target block d = (d', inr result)
    ∧ AuthService.br_blocked result = block
    ∧ users d' = <[uid := user']> (users d)
    ∧ rooms d' = rooms d ∧ messages d' = messages d
    ∧ User.hasBlocked user' target = block
    ∧ (∀ v, v ≠ target → User.hasBlocked user' v = User.hasBlocked user v)
    ∧ users d' !! target = users d !! target.
Proof.
  intros Hne Huser [targetUser Htarget]. unfold AuthService.toggleUserBlock.
  unfold mbind, svc_mbind, svc_bind, svc_read, svc_write, throw_if. cbn.
  destruct (String.eqb_spec uid target) as [-> | _]; [contradiction |]. cbn.
  rewrite Huser, Htarget. cbn.
  eexists _, _, _. split; [reflexivity |]. cbn.
  split; [reflexivity |]. split; [reflexivity |]. split; [reflexivity |].
  split; [reflexivity |]. split; [| split].
  - destruct block.
    + rewrite hasBlocked_blockUser, String.eqb_refl. apply orb_true_r.
    + rewrite hasBlocked_unblockUser, String.eqb_refl. apply andb_false_r.
  - intros v Hv. destruct block.
    + rewrite hasBlocked_blockUser.
      destruct (String.eqb_spec v target); [contradiction | apply orb_false_r].
    + rewrite hasBlocked_unblockUser.
      destruct (String.eqb_spec v target); [contradiction | apply andb_true_r].
  - rewrite lookup_insert_ne by exact Hne. exact Htarget.
Qed.

(** bob blocks alice. *)
Lemma toggleUserBlock_effect_witness :
  ∃ d' result user',
    AuthService.toggleUserBlock "u2" "u1" true Sample.store = (d', inr result)
    ∧ AuthService.br_blocked result = true
    ∧ users d' = <["u2" := user']> (users Sample.store)
    ∧ rooms d' = rooms Sample.store ∧ messages d' = messages Sample.store
    ∧ User.hasBlocked user' "u1" = true
    ∧ (∀ v, v ≠ "u1" → User.hasBlocked user' v = User.hasBlocked (Sample.doc Sample.bob) v)
    ∧ users d' !! "u1" = users Sample.store !! "u1".
Proof.
  apply (toggleUserBlock_effect "u2" "u1" true Sample.store (Sample.doc Sample.bob)).
  - discriminate.
  - vm_compute. reflexivity.
  - vm_compute. eauto.
Defined.

(** [toggleUserBlock] is refused, with the store untouched, when the two
    ids are equal (400) or one of them is unknown (404). *)
Theorem toggleUserBlock_refused uid target block d :
  uid = target ∨ users d !! uid = None ∨ users d !! target = None →
  ∃ e, AuthService.toggleUserBlock uid target block d = (d, inl e)
       ∧ err_status e = if String.eqb uid target then 400 else 404.
Proof.
  intros Hbad. unfold AuthService.toggleUserBlock.
  unfold mbind, svc_mbind, svc_bind, svc_read, svc_write, throw_if. cbn.
  destruct (String.eqb_spec uid target) as [-> | Hne]; cbn; [eauto |].
  destruct Hbad as [-> | [Hnone | Hnone]]; [contradiction | |]; rewrite Hnone.
  - eauto.
  - destruct (users d !! uid); eauto.
Qed.

Lemma toggleUserBlock_refused_witness :
  ∃ e, AuthService.toggleUserBlock "u1" "u1" true Sample.store = (Sample.store, inl e)
       ∧ err_status e = if String.eqb "u1" "u1" then 400 else 404.
Proof.
  apply (toggleUserBlock_refused "u1" "u1" true Sample.store). left. reflexivity.
Defined.

Lemma without_fresh target l :
  target ∉ l → List.filter (λ id, negb (String.eqb id target)) l = l.
Proof.
  induction l as [| b l IH]; [reflexivity |]. intros Hnot.
  apply not_elem_of_cons in Hnot as [Hb Hl]. cbn.
  destruct (String.eqb_spec b target); [congruence |]. cbn. by rewrite IH.
Qed.

Lemma without_snoc target l :
  target ∉ l → List.filter (λ id, negb (String.eqb id target)) (l ++ [target])%list = l.
Proof.
  intros Hnot. rewrite List.filter_app, without_fresh by exact Hnot.
  cbn [List.filter]. rewrite String.eqb_refl. apply app_nil_r.
Qed.

Lemma unblockUser_blockUser user target :
  User.hasBlocked user target = false →
  AuthService.unblockUser (AuthService.blockUser user target) target = user.
Proof.
  intros Hfree. unfold AuthService.blockUser. rewrite Hfree. cbn [negb].
  destruct user as [n av bl on seen].
  unfold AuthService.unblockUser, AuthService.set_blockedUsers.
  cbn [username avatar blockedUsers isOnline lastSeen]. f_equal.
  apply without_snoc. intros Hin. apply str_mem_In in Hin.
  unfold User.hasBlocked in Hfree. cbn [blockedUsers] in Hfree. congruence.
Qed.

(** Blocking a user who was not blocked and unblocking them again gives
    back the store one started from, block list included. *)
Theorem block_unblock_round_trip uid target d user d1 r1 :
  users d !! uid = Some user →
  User.hasBlocked user target = false →
  AuthService.toggleUserBlock uid target true d = (d1, inr r1) →
  ∃ r2, AuthService.toggleUserBlock uid target false d1 = (d, inr r2).
Proof.
  intros Huser Hfree. unfold AuthService.toggleUserBlock.
  unfold mbind, svc_mbind, svc_bind, svc_read, svc_write, throw_if. cbn.
  destruct (String.eqb_spec uid target) as [-> | Hne]; cbn; [discriminate |].
  rewrite Huser. destruct (users d !! target) as [targetUser |] eqn:Htarget;
    cbn; [| discriminate].
  intros [= <- <-]. cbn. rewrite lookup_insert_eq.
  rewrite lookup_insert_ne by exact Hne. rewrite Htarget. cbn.
  unfold mret, svc_mret, svc_ret, set_users. cbn.
  eexists. f_equal. destruct d as [us rs ms]. cbn in *. f_equal.
  rewrite insert_insert_eq. apply insert_id. rewrite Huser. f_equal.
  symmetry. apply unblockUser_blockUser. exact Hfree.
Qed.

Lemma block_unblock_round_trip_witness :
  ∃ d1 r1 r2,
    AuthService.toggleUserBlock "u2" "u1" true Sample.store = (d1, inr r1)
    ∧ AuthService.toggleUserBlock "u2" "u1" false d1 = (Sample.store, inr r2).
Proof.
  destruct (AuthService.toggleUserBlock "u2" "u1" true Sample.store)
    as [d1 [e | r1]] eqn:Hrun; [vm_compute in Hrun; discriminate Hrun |].
  destruct (block_unblock_round_trip "u2" "u1" Sample.store (Sample.doc Sample.bob) d1 r1)
    as [r2 Hback]; [vm_compute; reflexivity | reflexivity | exact Hrun |].
  exists d1, r1, r2. split; [reflexivity | exact Hback].
Defined.

(** ** Conversations *)

Lemma privateQuery_sym u1 u2 o m :
  Conversation.privateQuery u1 u2 o m = Conversation.privateQuery u2 u1 o m.
Proof.
  unfold Conversation.privateQuery. f_equal. f_equal. f_equal. apply orb_comm.
Qed.

Lemma getPrivateMessages_comm u1 u2 o d :
  Conversation.getPrivateMessages u1 u2 o d = Conversation.getPrivateMessages u2 u1 o d.
Proof.
  unfold Conversation.getPrivateMessages.
  unfold mbind, svc_mbind, svc_bind, svc_read. cbn.
  destruct (users d !! u1) as [user1 |], (users d !! u2) as [user2 |]; try reflexivity.
  rewrite (orb_comm (User.hasBlocked user1 u2)).
  destruct (User.hasBlocked user2 u1 || User.hasBlocked user1 u2); [reflexivity |].
  cbn. unfold MessageService.findWithPagination.
  rewrite (filter_ext _ _ (privateQuery_sym u1 u2 o)). reflexivity.
Qed.


(** Once one of two users has blocked the other, neither can store a
    private message for the other, in either direction, and the history
    of their conversation reads as empty, whatever it holds. *)
Theorem blocked_pair_is_cut_off blocker blocked d d1 r a newId now o :
  AuthService.toggleUserBlock blocker blocked true d = (d1, inr r) →
  MessageService.ca_isPrivate a = true →
  (MessageService.ca_sender a = blocker ∧ MessageService.ca_recipient a = Some blocked)
  ∨ (MessageService.ca_sender a = blocked ∧ MessageService.ca_recipient a = Some blocker) →
  (∃ e, MessageService.createMessage a newId now d1 = (d1, inl e))
  ∧ ∃ page,
      Conversation.getPrivateMessages (MessageService.ca_sender a)
        (default "" (MessageService.ca_recipient a)) o d1 = (d1, inr page)
      ∧ MessageService.pg_messages page = []
      ∧ MessageService.totalMessages_ (MessageService.pagination page) = 0.
Proof.
  intros Hblock Hpriv Hpair.
  assert (Hstate : ∃ u1 u2, users d1 !! blocker = Some u1 ∧ users d1 !! blocked = Some u2
                            ∧ User.hasBlocked u1 blocked = true ∧ blocker ≠ blocked).
  { unfold AuthService.toggleUserBlock in Hblock.
    unfold mbind, svc_mbind, svc_bind, svc_read, svc_write, throw_if in Hblock.
    cbn in Hblock.
    destruct (String.eqb_spec blocker blocked) as [-> | Hne]; cbn in Hblock;
      [discriminate |].
    destruct (users d !! blocker) as [u1 |] eqn:H1; [| discriminate].
    destruct (users d !! blocked) as [u2 |] eqn:H2; [| discriminate].
    injection Hblock as <- _. cbn. rewrite lookup_insert_eq.
    rewrite lookup_insert_ne by exact Hne. rewrite H2.
    eexists _, _. split; [reflexivity |]. split; [reflexivity |].
    split; [| exact Hne]. rewrite hasBlocked_blockUser, String.eqb_refl. apply orb_true_r. }
  destruct Hstate as (u1 & u2 & H1 & H2 & Hhas & Hne).
  split.
  - destruct (MessageService.createMessage a newId now d1) as [d2 [e | result]] eqn:Hrun.
    + exists e. f_equal. eapply createMessage_private_failure; eassumption.
    + exfalso.
      destruct (createMessage_private_inr _ _ _ _ _ _ Hpriv Hrun)
        as (recipient & su & ru & Hrcp & _ & Hsu & Hru & Hb1 & Hb2 & _).
      destruct Hpair as [[Hs Hr] | [Hs Hr]]; rewrite Hs in *; rewrite Hr in Hrcp;
        injection Hrcp as <-; congruence.
  - unfold Conversation.getPrivateMessages.
    unfold mbind, svc_mbind, svc_bind, svc_read. cbn.
    destruct Hpair as [[Hs Hr] | [Hs Hr]]; rewrite Hs, Hr; cbn; rewrite H1, H2, Hhas.
    + cbn. eauto.
    + rewrite orb_true_r. cbn. eauto.
Qed.

(** bob has blocked alice; alice writes to bob. *)
Lemma blocked_pair_is_cut_off_witness :
  let a := MessageService.mkCreateArgs "u1" None (Some "u2") "psst" "text" true None in
  ∃ d1,
    fst (AuthService.toggleUserBlock "u2" "u1" true Sample.store) = d1
    ∧ (∃ e, MessageService.createMessage a "m1" 10 d1 = (d1, inl e))
    ∧ ∃ page,
        Conversation.getPrivateMessages "u1" "u2" MessageService.defaults d1 = (d1, inr page)
        ∧ MessageService.pg_messages page = []
        ∧ MessageService.totalMessages_ (MessageService.pagination page) = 0.
Proof.
  cbv zeta.
  destruct (AuthService.toggleUserBlock "u2" "u1" true Sample.store)
    as [d1 [e | r]] eqn:Hrun; [vm_compute in Hrun; discriminate Hrun |].
  exists d1. split; [reflexivity |].
  apply (blocked_pair_is_cut_off "u2" "u1" Sample.store d1 r
           (MessageService.mkCreateArgs "u1" None (Some "u2") "psst" "text" true None)
           "m1" 10 MessageService.defaults Hrun eq_refl).
  right. split; reflexivity.
Defined.

(** A private message that has been stored shows in the history of the
    conversation: read without bounds, the conversation counts one
    message more than before, from either side. *)
Theorem stored_private_message_is_counted a newId now d d' result recipient o page :
  MessageService.ca_isPrivate a = true →
  MessageService.ca_recipient a = Some recipient →
  MessageService.po_before o = None → MessageService.po_after o = None →
  MessageService.createMessage a newId now d = (d', inr result) →
  Conversation.getPrivateMessages (MessageService.ca_sender a) recipient o d
  = (d, inr page) →
  ∃ page',
    Conversation.getPrivateMessages recipient (MessageService.ca_sender a) o d'
    = (d', inr page')
    ∧ MessageService.totalMessages_ (MessageService.pagination page')
      = MessageService.totalMessages_ (MessageService.pagination page) + 1.
Proof.
  intros Hpriv Hrcp Hbefore Hafter Hrun Hold.
  destruct (createMessage_private_inr _ _ _ _ _ _ Hpriv Hrun)
    as (recipient' & su & ru & Hrcp' & Hne & Hsu & Hru & Hb1 & Hb2 & Husers & _ & Hmsgs
        & Hp & Hs & Hr & _ & _ & Hdel).
  rewrite Hrcp in Hrcp'. injection Hrcp' as <-.
  rewrite getPrivateMessages_comm.
  unfold Conversation.getPrivateMessages in *.
  unfold mbind, svc_mbind, svc_bind, svc_read in *. cbn in *.
  rewrite Husers, Hsu, Hru in *. rewrite Hb1, Hb2 in *. cbn in *.
  injection Hold as <-. eexists. split; [reflexivity |]. cbn.
  assert (Hq : Conversation.privateQuery (MessageService.ca_sender a) recipient o
                (MessageService.cr_doc result) = true).
  { unfold Conversation.privateQuery.
    rewrite Hp, Hs, Hr, Hbefore, Hafter, Hdel. cbn. rewrite !String.eqb_refl. reflexivity. }
  rewrite Hmsgs, List.filter_app, length_app. cbn [List.filter]. rewrite Hq.
  cbn [length]. lia.
Qed.

Lemma stored_private_message_is_counted_witness :
  let a := MessageService.mkCreateArgs "u1" None (Some "u2") "psst" "text" true None in
  ∃ d' result page page',
    MessageService.createMessage a "m1" 10 Sample.store = (d', inr result)
    ∧ Conversation.getPrivateMessages "u1" "u2" MessageService.defaults Sample.store
      = (Sample.store, inr page)
    ∧ Conversation.getPrivateMessages "u2" "u1" MessageService.defaults d' = (d', inr page')
    ∧ MessageService.totalMessages_ (MessageService.pagination page')
      = MessageService.totalMessages_ (MessageService.pagination page) + 1.
Proof.
  cbv zeta.
  destruct (MessageService.createMessage
              (MessageService.mkCreateArgs "u1" None (Some "u2") "psst" "text" true None)
              "m1" 10 Sample.store) as [d' [e | result]] eqn:Hrun;
    [vm_compute in Hrun; discriminate Hrun |].
  destruct (Conversation.getPrivateMessages "u1" "u2" MessageService.defaults Sample.store)
    as [d0 [e | page]] eqn:Hold; [vm_compute in Hold; discriminate Hold |].
  assert (d0 = Sample.store) as -> by (vm_compute in Hold; by injection Hold).
  edestruct stored_private_message_is_counted as (page' & Hnew & Hcount);
    [| | | | exact Hrun | exact Hold |]; [reflexivity .. |].
  exists d', result, page, page'. repeat split; assumption.
Defined.

(** ** Notifications *)

(** In any state the process reaches, a notification for a user with a
    registry entry is received once, by the one socket the entry names,
    which is connected and belongs to that user; for a user without an
    entry nothing is emitted. [isUserOnline] tells the two cases apart. *)
Theorem notification_delivery isSocketId d0 trace uid notification :
  tidy isSocketId d0 →
  Forall (λ ti, admissible isSocketId (snd ti)) trace →
  let w := fst (run trace (init d0)) in
  let out := sendNotificationToUser uid notification w in
  match onlineUsers w !! uid with
  | Some userData =>
      isUserOnline uid w = true
      ∧ (∃ s, sockets w !! socketId userData = Some s ∧ userId s = uid)
      ∧ ∀ t, received w t "notification" out
             = if decide (t = socketId userData) then 1%nat else 0%nat
  | None => isUserOnline uid w = false ∧ out = []
  end.
Proof.
  intros Htidy Hadm w out.
  assert (Hwf : wf isSocketId w) by (apply wf_run; [apply wf_init; exact Htidy | exact Hadm]).
  subst out. unfold sendNotificationToUser, isUserOnline.
  destruct (onlineUsers w !! uid) as [userData |] eqn:Hentry.
  - split; [apply bool_decide_eq_true_2; eauto |].
    destruct (wf_registry _ _ Hwf _ _ Hentry) as (s & Hs & Hu).
    split; [eauto |]. intros t.
    rewrite received_cons, received_nil. unfold io_to.
    rewrite delivered_same_event. cbn [recipients].
    destruct (wf_sockets _ _ Hwf _ _ Hs) as (_ & Hid & _).
    rewrite (wf_own_room _ _ Hwf _ Hid).
    rewrite (decide_True (P := socketId userData ∈ dom (sockets w)))
      by (apply elem_of_dom; eauto).
    destruct (decide (t = socketId userData)) as [-> | Hne].
    + rewrite bool_decide_eq_true_2 by (by apply elem_of_singleton). reflexivity.
    + rewrite bool_decide_eq_false_2 by (by rewrite elem_of_singleton). reflexivity.
  - split; [| reflexivity]. apply bool_decide_eq_false_2. intros [? ?]. discriminate.
Qed.

(** alice has connected twice; the notification goes to her second
    socket. *)
Lemma notification_delivery_witness :
  let w := fst (run [(1, Connect Sample.sA); (2, Connect Sample.sB); (3, Connect Sample.sA')]
                    (init Sample.store)) in
  received w "sA2" "notification" (sendNotificationToUser "u1" (PConnected Sample.alice 9) w) = 1%nat
  ∧ received w "sA" "notification" (sendNotificationToUser "u1" (PConnected Sample.alice 9) w) = 0%nat.
Proof.
  cbv zeta.
  pose proof (notification_delivery (λ s, s ≠ "r1" ∧ s ≠ "r2") Sample.store
                [(1, Connect Sample.sA); (2, Connect Sample.sB); (3, Connect Sample.sA')]
                "u1" (PConnected Sample.alice 9) sample_store_tidy) as H.
  cbv zeta in H.
  assert (Hentry : ∃ ud, onlineUsers
            (fst (run [(1, Connect Sample.sA); (2, Connect Sample.sB); (3, Connect Sample.sA')]
                      (init Sample.store))) !! "u1" = Some ud ∧ socketId ud = "sA2")
    by (vm_compute; eauto).
  destruct Hentry as (ud & Hentry & Hsid). rewrite Hentry in H.
  destruct H as (_ & _ & Hrecv); [repeat constructor; discriminate |].
  rewrite !Hrecv, Hsid. split; reflexivity.
Defined.

(** ** Room documents *)

Lemma str_mem_without v uid ids :
  str_mem v (RoomMethods.without uid ids) = str_mem v ids && negb (String.eqb v uid).
Proof.
  unfold str_mem, RoomMethods.without.
  induction ids as [| b l IH]; [reflexivity |]. cbn.
  destruct (String.eqb_spec b uid) as [-> | Hb]; cbn.
  - rewrite IH. destruct (String.eqb_spec v uid) as [-> | Hv]; cbn.
    + by rewrite !andb_false_r.
    + by rewrite !andb_true_r.
  - rewrite IH. destruct (String.eqb_spec v b) as [-> | Hv]; cbn; [| reflexivity].
    destruct (String.eqb_spec b uid); [contradiction | reflexivity].
Qed.

(** Removing a member takes the user out of the member and admin lists
    and changes nothing for anybody else; the creator of the room stays
    its creator, and so still counts as an admin of a room they are no
    longer a member of. *)
Theorem removeMember_effect r uid :
  let r' := RoomMethods.removeMember r uid in
  Room.isMember r' uid = false
  ∧ Room.isAdmin r' uid = RoomMethods.isCreator r uid
  ∧ creator r' = creator r
  ∧ ∀ v, v ≠ uid → Room.isMember r' v = Room.isMember r v
                   ∧ Room.isAdmin r' v = Room.isAdmin r v.
Proof.
  cbv zeta. unfold RoomMethods.removeMember, Room.isMember, Room.isAdmin,
    RoomMethods.isCreator, RoomMethods.set_admins, RoomMethods.set_members.
  cbn [members admins creator].
  split; [| split; [| split; [reflexivity |]]].
  - rewrite str_mem_without, String.eqb_refl. apply andb_false_r.
  - rewrite str_mem_without, String.eqb_refl, andb_false_r. reflexivity.
  - intros v Hv. rewrite !str_mem_without.
    destruct (String.eqb_spec v uid); [contradiction |]. by rewrite !andb_true_r.
Qed.

(** A member who is not an admin becomes one by [addAdmin], and
    [removeAdmin] then gives back the document one started from. *)
Theorem addAdmin_removeAdmin r uid r1 :
  Room.isAdmin r uid = false →
  RoomMethods.addAdmin r uid = inr r1 →
  Room.isMember r uid = true
  ∧ Room.isAdmin r1 uid = true
  ∧ RoomMethods.removeAdmin r1 uid = inr r.
Proof.
  intros Hnot. unfold RoomMethods.addAdmin. rewrite Hnot.
  destruct (Room.isMember r uid) eqn:Hmem; cbn [negb]; [| discriminate].
  intros [= <-]. split; [reflexivity |].
  unfold Room.isAdmin in *. apply orb_false_iff in Hnot as [Hlist Hcreator].
  split.
  - cbn. unfold str_mem. rewrite existsb_app. cbn. rewrite String.eqb_refl.
    by rewrite orb_true_r.
  - unfold RoomMethods.removeAdmin, RoomMethods.isCreator. cbn [RoomMethods.set_admins creator].
    rewrite Hcreator. f_equal. destruct r as [n ty c ms ads act mute mc tm la].
    unfold RoomMethods.set_admins. cbn [room_name room_type creator members admins
      room_isActive muteAll messageCount totalMessages room_lastActivity] in *.
    f_equal. unfold RoomMethods.without. apply without_snoc.
    intros Hin. apply str_mem_In in Hin. congruence.
Qed.

(** carol, a member of the lobby, is made an admin and unmade. *)
Lemma addAdmin_removeAdmin_witness :
  ∃ r1, RoomMethods.addAdmin Sample.lobby "u3" = inr r1
        ∧ Room.isAdmin r1 "u3" = true
        ∧ RoomMethods.removeAdmin r1 "u3" = inr Sample.lobby.
Proof.
  destruct (RoomMethods.addAdmin Sample.lobby "u3") as [e | r1] eqn:Hadd;
    [vm_compute in Hadd; discriminate Hadd |].
  exists r1. split; [reflexivity |].
  apply (addAdmin_removeAdmin Sample.lobby "u3" r1); [reflexivity | exact Hadd].
Defined.
